(** * Ledger core of the finavi backend (Coach Financier), embedded in Rocq

    The server is one Express/Mongoose program.  This development embeds
    its ledger core: the Mongoose collections as lists of records, the
    route handlers as computations in a small state monad over the
    database, and the process start-up as a transition system.

    Line numbers in the comments are those of the server module as it is
    listed in [tests/tontine_integration_test.js].

    Conventions of the embedding.
    - A JavaScript [Number] is a rational ([Q]), and the sums and
      differences of amounts are exact.  [Number(x || 0)] is then the
      identity, [a || b] on numbers picks [b] when [a] is zero.  Where a
      result hangs on how a quotient is rounded (the spending limits), the
      division is the one of IEEE 754 doubles; where it hangs on sums
      being exact (the tontine totals), the amounts are safe integers.
    - An [ObjectId] is a natural number; [new Model(..)] takes the next
      identifier from a counter kept with the collections, and
      [id.toString()] writes it on 24 hexadecimal digits.
    - Strings are strings of 8-bit characters; lengths count characters.
    - [getTodayDate()] and the wall-clock time are arguments of the
      handlers; dates are the source's ['YYYY-MM-DD'] strings.
    - Database calls succeed; the [catch] branches that only guard against
      a failing driver are not reachable in the model.
    - Without multi-document transactions other requests can run between
      two awaited database calls.  The model lets them run where the
      source itself detects them: before each conditional update. *)

From Stdlib Require Import QArith Qpower Qround Qabs Lqa ZArith List Ascii String Bool Lia Arith.
Import ListNotations.
Open Scope Q_scope.

(* ------------------------------------------------------------------ *)
(** ** JavaScript numbers *)

Definition Qltb (x y : Q) : bool := negb (Qle_bool y x).

(** [a || b] on numbers: [a] unless it is falsy, that is, zero. *)
Definition or_num (a b : Q) : Q := if Qeq_bool a 0 then b else a.

(** [Math.max(a, b)]. *)
Definition Math_max (a b : Q) : Q := if Qle_bool a b then b else a.

(** [Math.round(x)]: the nearest integer, halves towards plus infinity. *)
Definition Math_round (x : Q) : Z := Qfloor (x + (1 # 2)).

(** [Math.floor(x)]. *)
Definition Math_floor (x : Q) : Z := Qfloor x.

(** [Math.round(x * 100) / 100]. *)
Definition round2 (x : Q) : Q := inject_Z (Math_round (x * 100)) / 100.

(** [Number.MAX_SAFE_INTEGER], [2 ^ 53 - 1]. *)
Definition MAX_SAFE_INTEGER : Q := 9007199254740991.

(* ------------------------------------------------------------------ *)
(** ** Double-precision division

    The quotient of two Numbers is the exact quotient rounded to the
    nearest double, a tie going to the double whose significand is even.
    A double has 53 significant bits, and the doubles below [2 ^ -1022]
    are the multiples of [2 ^ -1074].  Quotients beyond the largest finite
    double are out of the model. *)

Definition pow2 (e : Z) : Q := 2 ^ e.

(** The exponent [e] of a positive number: [2 ^ e <= x < 2 ^ (e + 1)]. *)
Definition exponentOf (x : Q) : Z :=
  let l := (Z.log2 (Qnum x) - Z.log2 (Zpos (Qden x)))%Z in
  if Qle_bool (pow2 l) x then l else (l - 1)%Z.

(** The gap between the doubles around [x]. *)
Definition ulp (x : Q) : Q := pow2 (Z.max (exponentOf (Qabs x) - 52) (-1074)).

(** The nearest integer, a half going to the even one. *)
Definition roundHalfEven (x : Q) : Z :=
  let f := Qfloor x in
  let r := x - inject_Z f in
  if Qltb r (1 # 2) then f
  else if Qltb (1 # 2) r then (f + 1)%Z
  else if Z.even f then f else (f + 1)%Z.

(** The double nearest to [x]. *)
Definition toDouble (x : Q) : Q :=
  if Qeq_bool x 0 then 0 else inject_Z (roundHalfEven (x / ulp x)) * ulp x.

(** [a / b] on Numbers. *)
Definition Number_div (a b : Q) : Q := toDouble (a / b).

(** The Numbers: the rationals a double holds. *)
Definition isDouble (x : Q) : Prop := toDouble x == x.

(** [Number.isSafeInteger(x)] *)
Definition isSafeInteger (x : Q) : Prop :=
  (exists n : Z, x == inject_Z n) /\ Qabs x <= MAX_SAFE_INTEGER.

(* ------------------------------------------------------------------ *)
(** ** Collections *)

Definition ObjectId := nat.
Bind Scope nat_scope with ObjectId.

Definition hexDigit (n : nat) : ascii :=
  ascii_of_nat (if (n <? 10)%nat then 48 + n else 87 + n).

(** The [width] low-order hexadecimal digits of [n], the highest first. *)
Fixpoint hexDigits (width n : nat) : string :=
  match width with
  | O => EmptyString
  | S w => (hexDigits w (n / 16) ++ String (hexDigit (n mod 16)) EmptyString)%string
  end.

(** [id.toString()] *)
Definition ObjectId_toString (id : ObjectId) : string := hexDigits 24 id.

Inductive Frequency := daily | weekly | monthly.

Definition Frequency_eqb (f g : Frequency) : bool :=
  match f, g with
  | daily, daily | weekly, weekly | monthly, monthly => true
  | _, _ => false
  end.

Inductive TxType := expense | gain.

Definition TxType_eqb (a b : TxType) : bool :=
  match a, b with
  | expense, expense | gain, gain => true
  | _, _ => false
  end.

Inductive JournalType := je_expense | je_gain | je_adjustment.

Module User.
Record t := mk
  { _id : ObjectId;
    name : string;
    email : string }.
End User.

Module Budget.
Record t := mk
  { _id : ObjectId;
    userId : ObjectId;
    name : string;
    clientId : option string;
    amount : Q;
    frequency : Frequency;
    isPrimary : bool;
    initialAmount : Q;
    currentAmount : Q }.

(** [{ $set: { currentAmount: v } }] *)
Definition set_currentAmount (v : Q) (b : t) : t :=
  mk (_id b) (userId b) (name b) (clientId b) (amount b) (frequency b)
     (isPrimary b) (initialAmount b) v.

(** [{ $inc: { currentAmount: d } }] *)
Definition inc_currentAmount (d : Q) (b : t) : t :=
  set_currentAmount (currentAmount b + d) b.

Definition set_name (n : string) (b : t) : t :=
  mk (_id b) (userId b) n (clientId b) (amount b) (frequency b)
     (isPrimary b) (initialAmount b) (currentAmount b).

Definition set_amount (v : Q) (b : t) : t :=
  mk (_id b) (userId b) (name b) (clientId b) v (frequency b)
     (isPrimary b) (initialAmount b) (currentAmount b).
End Budget.

Module Transaction.
Record t := mk
  { _id : ObjectId;
    userId : ObjectId;
    budgetId : option ObjectId;
    type : TxType;
    amount : Q;
    comment : string;
    date : string;
    time : string }.
End Transaction.

Module Day.
Record t := mk
  { userId : ObjectId;
    date : string;
    initialPocket : Q;
    budgetsAvailable : Q;
    gains : Q;
    expenses : Q;
    finalPocket : Q;
    locked : bool }.
End Day.

Record Affected := mkAffected
  { a_budgetId : ObjectId; before : Q; after : Q }.

Module JournalEntry.
Record t := mk
  { userId : ObjectId;
    txType : JournalType;
    amount : Q;
    comment : string;
    affected : list Affected;
    ruleApplied : string;
    meta : option ObjectId }.
End JournalEntry.

Module Objective.
Record t := mk
  { _id : ObjectId;
    userId : ObjectId;
    targetAmount : Q;
    savedAmount : Q;
    achieved : bool }.
End Objective.

Record Member := mkMember
  { m_userId : ObjectId; contributed : Q; position : nat }.

Module Tontine.
Record t := mk
  { _id : ObjectId;
    name : string;
    ownerId : ObjectId;
    budgetId : option ObjectId;
    members : list Member;
    totalAmount : Q }.
End Tontine.

(** The database: one list per collection, in insertion order, and the
    counter the identifiers of new documents come from. *)
Record Db := mkDb
  { Users : list User.t;
    Budgets : list Budget.t;
    Transactions : list Transaction.t;
    Days : list Day.t;
    JournalEntries : list JournalEntry.t;
    Objectives : list Objective.t;
    Tontines : list Tontine.t;
    nextId : ObjectId }.

Definition with_Budgets (f : list Budget.t -> list Budget.t) (d : Db) : Db :=
  mkDb (Users d) (f (Budgets d)) (Transactions d) (Days d) (JournalEntries d)
       (Objectives d) (Tontines d) (nextId d).

Definition with_Days (f : list Day.t -> list Day.t) (d : Db) : Db :=
  mkDb (Users d) (Budgets d) (Transactions d) (f (Days d)) (JournalEntries d)
       (Objectives d) (Tontines d) (nextId d).

Definition with_Objectives (f : list Objective.t -> list Objective.t) (d : Db) : Db :=
  mkDb (Users d) (Budgets d) (Transactions d) (Days d) (JournalEntries d)
       (f (Objectives d)) (Tontines d) (nextId d).

Definition with_Tontines (f : list Tontine.t -> list Tontine.t) (d : Db) : Db :=
  mkDb (Users d) (Budgets d) (Transactions d) (Days d) (JournalEntries d)
       (Objectives d) (f (Tontines d)) (nextId d).

(** [doc.save()] of a new document appends it to its collection. *)
Definition save_Budget (b : Budget.t) (d : Db) : Db :=
  with_Budgets (fun l => l ++ [b]) d.

Definition save_Transaction (t : Transaction.t) (d : Db) : Db :=
  mkDb (Users d) (Budgets d) (Transactions d ++ [t]) (Days d) (JournalEntries d)
       (Objectives d) (Tontines d) (nextId d).

Definition save_JournalEntry (j : JournalEntry.t) (d : Db) : Db :=
  mkDb (Users d) (Budgets d) (Transactions d) (Days d) (JournalEntries d ++ [j])
       (Objectives d) (Tontines d) (nextId d).

Definition save_Day (x : Day.t) (d : Db) : Db :=
  with_Days (fun l => l ++ [x]) d.

(** The identifier [new Model(..)] gives the document it builds. *)
Definition take_id (d : Db) : Db :=
  mkDb (Users d) (Budgets d) (Transactions d) (Days d) (JournalEntries d)
       (Objectives d) (Tontines d) (S (nextId d)).

(** [Model.updateOne(filter, update)]: the first matching document. *)
Fixpoint updateOne {A : Type} (p : A -> bool) (f : A -> A) (l : list A) : list A :=
  match l with
  | [] => []
  | x :: r => if p x then f x :: r else x :: updateOne p f r
  end.

Definition byId (id : ObjectId) (b : Budget.t) : bool :=
  Nat.eqb (Budget._id b) id.

(** [Budget.findById(id)] *)
Definition findById (id : ObjectId) (l : list Budget.t) : option Budget.t :=
  find (byId id) l.

(** [Budget.findOne({ userId, frequency: 'weekly' })] *)
Definition isWeeklyOf (u : ObjectId) (b : Budget.t) : bool :=
  Nat.eqb (Budget.userId b) u && Frequency_eqb (Budget.frequency b) weekly.

(** [Budget.findOne({ userId, frequency: 'monthly', isPrimary: true })] *)
Definition isPrimaryMonthlyOf (u : ObjectId) (b : Budget.t) : bool :=
  Nat.eqb (Budget.userId b) u && Frequency_eqb (Budget.frequency b) monthly
  && Budget.isPrimary b.

(** [User.findById(id)] *)
Definition isUser (id : ObjectId) (x : User.t) : bool := Nat.eqb (User._id x) id.

(** [Day.findOne({ userId, date })] *)
Definition isDayOf (u : ObjectId) (dt : string) (x : Day.t) : bool :=
  Nat.eqb (Day.userId x) u && String.eqb (Day.date x) dt.

(** [Day.findOne({ userId }).sort({ date: -1 }).limit(1)]: the user's
    record with the greatest date string, whatever that date is. *)
Fixpoint lastDayOf (u : ObjectId) (l : list Day.t) : option Day.t :=
  match l with
  | [] => None
  | x :: r =>
      if Nat.eqb (Day.userId x) u then
        match lastDayOf u r with
        | Some y => if String.ltb (Day.date x) (Day.date y) then Some y else Some x
        | None => Some x
        end
      else lastDayOf u r
  end.

(** [Day.updateOne({ userId, date }, { $set: {..} }, { upsert: true })] *)
Definition upsertDay (u : ObjectId) (dt : string)
    (initialPocket budgetsAvailable totalGains totalExpenses finalPocket : Q)
    (l : list Day.t) : list Day.t :=
  match find (isDayOf u dt) l with
  | Some _ =>
      updateOne (isDayOf u dt)
        (fun x => Day.mk (Day.userId x) (Day.date x) initialPocket budgetsAvailable
                         totalGains totalExpenses finalPocket (Day.locked x)) l
  | None =>
      l ++ [Day.mk u dt initialPocket budgetsAvailable totalGains totalExpenses
                   finalPocket false]
  end.

(** [txs.filter(t => t.type === ty).reduce((s, t) => s + t.amount, 0)] *)
Definition sumOfType (ty : TxType) (txs : list Transaction.t) : Q :=
  fold_left (fun s t => s + Transaction.amount t)
            (filter (fun t => TxType_eqb (Transaction.type t) ty) txs) 0.

(** [Transaction.find({ userId, date })] *)
Definition transactionsOn (u : ObjectId) (dt : string) (l : list Transaction.t) :=
  filter (fun t => Nat.eqb (Transaction.userId t) u && String.eqb (Transaction.date t) dt) l.

(** [Transaction.find({ userId, type: 'expense', date: { $regex: `^${yearMonth}` } })] *)
Definition expensesOfMonth (u : ObjectId) (yearMonth : string) (l : list Transaction.t) :=
  filter (fun t => Nat.eqb (Transaction.userId t) u
                   && TxType_eqb (Transaction.type t) expense
                   && String.prefix yearMonth (Transaction.date t)) l.

(* ------------------------------------------------------------------ *)
(** ** The handler monad

    A handler runs on the database, with the requests of other clients
    that are waiting to run at its next suspension points ([sched]), and
    leaves in [trace] every database state another client could have
    read, most recent first. *)

Record World := mkWorld
  { db : Db;
    sched : list (Db -> Db);
    trace : list Db }.

Definition M (A : Type) : Type := World -> A * World.

Definition ret {A : Type} (a : A) : M A := fun w => (a, w).

Definition bind {A B : Type} (m : M A) (k : A -> M B) : M B :=
  fun w => let (a, w') := m w in k a w'.

Notation "x <- m ;; k" := (bind m (fun x => k))
  (at level 61, m at next level, right associativity).
Notation "m ;;; k" := (bind m (fun _ => k))
  (at level 61, right associativity).

(** A query. *)
Definition read {A : Type} (f : Db -> A) : M A := fun w => (f (db w), w).

(** One write; its result is visible at once. *)
Definition write (f : Db -> Db) : M unit :=
  fun w => let d := f (db w) in (tt, mkWorld d (sched w) (d :: trace w)).

(** A suspension point at which the next waiting request, if any, runs. *)
Definition yield : M unit :=
  fun w =>
    match sched w with
    | [] => (tt, w)
    | g :: rest => let d := g (db w) in (tt, mkWorld d rest (d :: trace w))
    end.

(** [new Model(..)]: the fresh [_id]. *)
Definition newId : M ObjectId :=
  fun w => (nextId (db w), mkWorld (take_id (db w)) (sched w) (trace w)).

(** A multi-document transaction: isolated from the waiting requests,
    its writes visible only when it commits, dropped when it aborts. *)
Inductive Outcome (A : Type) := Commit (a : A) | Abort (a : A).
Arguments Commit {A} a.
Arguments Abort {A} a.

Definition atomically {A : Type} (m : M (Outcome A)) : M A :=
  fun w =>
    let (o, w') := m (mkWorld (db w) [] []) in
    match o with
    | Commit a => (a, mkWorld (db w') (sched w) (db w' :: trace w))
    | Abort a => (a, w)
    end.

(** A handler run alone on a database. *)
Definition run {A : Type} (m : M A) (d : Db) : A * Db :=
  let (a, w) := m (mkWorld d [] []) in (a, db w).

(* ------------------------------------------------------------------ *)
(** ** Availability reconciler: [calculateBudgetsAvailable] (lines 769-814) *)

Definition reconcile_rule : string := "reconcile_primary_current_amount".

(** The figure the function computes from the primary budget and the
    month's expense transactions. *)
Definition availableOf (primary : Budget.t) (txs : list Transaction.t) : Q :=
  let totalExpenses := fold_left (fun s t => s + Transaction.amount t) txs 0 in
  let base := or_num (Budget.initialAmount primary)
                (or_num (Budget.amount primary)
                   (or_num (Budget.currentAmount primary) 0)) in
  Math_max 0 (round2 (base - totalExpenses)).

Definition reconcileEntry (u : ObjectId) (primary : Budget.t) (stored available : Q)
  : JournalEntry.t :=
  JournalEntry.mk u je_adjustment (round2 (available - stored))
    "Reconciliation automatique primary currentAmount"
    [mkAffected (Budget._id primary) stored available] reconcile_rule None.

Definition calculateBudgetsAvailable (u : ObjectId) (currentDate : string) : M Q :=
  primary <- read (fun d => find (isPrimaryMonthlyOf u) (Budgets d)) ;;
  match primary with
  | None => ret 0
  | Some primary =>
      let yearMonth := String.substring 0 7 currentDate in
      txs <- read (fun d => expensesOfMonth u yearMonth (Transactions d)) ;;
      let available := availableOf primary txs in
      let stored := Budget.currentAmount primary in
      let diff := Qabs (stored - available) in
      (if Qltb (1 # 100) diff then
         write (with_Budgets (updateOne (byId (Budget._id primary))
                                        (Budget.set_currentAmount available))) ;;;
         write (save_JournalEntry (reconcileEntry u primary stored available))
       else ret tt) ;;;
      ret available
  end.

(* ------------------------------------------------------------------ *)
(** ** Budget hierarchy validator: [validateBudgetHierarchy] (lines 817-842) *)

Inductive HierarchyMessage :=
| Montant_doit_etre_positif
| Hebdomadaire_depasse (maxWeekly : Z)          (* (mensuel / 4) *)
| Journalier_depasse_mensuel (maxDaily : Z)     (* (mensuel / 28) *)
| Journalier_depasse_hebdo (maxDailyFromWeekly : Z). (* (hebdomadaire / 7) *)

Inductive Validation := Valid | Invalid (message : HierarchyMessage).

(** [Budget.findOne({ userId, isPrimary: true, frequency: 'monthly' })] and
    [Budget.findOne({ userId, frequency: 'weekly' })] on the budgets [bs]. *)
Definition validateBudgetHierarchy (bs : list Budget.t) (u : ObjectId)
    (frequency : Frequency) (amount : Q) : Validation :=
  let numAmount := amount in
  if negb (Qltb 0 numAmount) then Invalid Montant_doit_etre_positif else
  let primary := find (isPrimaryMonthlyOf u) bs in
  let weeklyCap :=
    match frequency, primary with
    | weekly, Some p =>
        let maxWeekly := or_num (Budget.initialAmount p) (or_num (Budget.amount p) 0) / 4 in
        if Qltb maxWeekly numAmount then Some (Hebdomadaire_depasse (Math_floor maxWeekly))
        else None
    | _, _ => None
    end in
  match weeklyCap with
  | Some m => Invalid m
  | None =>
    let dailyCap :=
      match frequency, primary with
      | daily, Some p =>
          let maxDaily := or_num (Budget.initialAmount p) (or_num (Budget.amount p) 0) / 28 in
          if Qltb maxDaily numAmount then Some (Journalier_depasse_mensuel (Math_floor maxDaily))
          else None
      | _, _ => None
      end in
    match dailyCap with
    | Some m => Invalid m
    | None =>
      match frequency with
      | daily =>
          match find (isWeeklyOf u) bs with
          | Some w =>
              let maxDailyFromWeekly :=
                or_num (Budget.amount w) (or_num (Budget.initialAmount w) 0) / 7 in
              if Qltb maxDailyFromWeekly numAmount
              then Invalid (Journalier_depasse_hebdo (Math_floor maxDailyFromWeekly))
              else Valid
          | None => Valid
          end
      | _ => Valid
      end
    end
  end.

(* ------------------------------------------------------------------ *)
(** ** Day rollup

    The block every mutating handler runs after its own writes: lines
    2046-2055, 2110-2118 and 2135-2143 of POST /api/transactions, and the
    same lines in the objective allocation (1270-1278, 1330-1338) and the
    tontine contribution (1458-1467). *)

Definition updateDayTotals (u : ObjectId) (currentDate : string) : M unit :=
  todayTransactions <- read (fun d => transactionsOn u currentDate (Transactions d)) ;;
  let totalGains := sumOfType gain todayTransactions in
  let totalExpenses := sumOfType expense todayTransactions in
  lastDay <- read (fun d => lastDayOf u (Days d)) ;;
  let initialPocket :=
    match lastDay with Some l => Day.finalPocket l | None => 0 end in
  budgetsAvailable <- calculateBudgetsAvailable u currentDate ;;
  let finalPocket := initialPocket + totalGains - totalExpenses in
  write (with_Days (upsertDay u currentDate initialPocket budgetsAvailable
                              totalGains totalExpenses finalPocket)).

(* ------------------------------------------------------------------ *)
(** ** Responses *)

Inductive Message :=
| Erreur_de_validation
| Jour_verrouille
| Budget_non_trouve
| Operation_rejetee (budgetName : string) (after : Q)
| Conflit_de_disponibilite
| Transaction_creee (id : ObjectId)
| Transaction_creee_fallback (id : ObjectId)
| Gain_cree_fallback
| Champs_requis
| Montant_doit_etre_superieur_a_0
| Budget_principal_existe_deja
| Budget_principal_doit_etre_mensuel
| Hierarchie (m : HierarchyMessage)
| Aucun_budget_mensuel_principal
| Allocation_impossible (after : Q)
| Conflit_allocation_hebdo
| Budget_cree (id : ObjectId)
| Budget_existant (id : ObjectId)
| Budget_modifie (id : ObjectId)
| Montant_principal_non_modifiable
| Montant_invalide
| Objectif_non_trouve
| Budget_pas_a_l_utilisateur
| Depassement_du_budget (budgetName : string) (remaining : Q)
| Allocation_rejetee (budgetName : string) (after : Q)
| Objectif_alloue (savedAmount : Q) (achieved : bool)
| Erreur_allocation_objectif
| Tontine_non_trouvee
| Utilisateur_non_membre
| Contribution (totalAmount : Q) (transactionId : option ObjectId)
| Disponible (available : Q)
| Utilisateur_non_trouve
| Jour (today : Day.t).

Record Response := mkResponse { status : nat; message : Message }.

(** GET /api/days/:userId, up to the lazy creation of today's record
    (lines 1051-1089); what follows only reads, to fill the answer. *)
Definition getDay (u : ObjectId) (currentDate : string) : M Response :=
  user <- read (fun d => find (isUser u) (Users d)) ;;
  match user with
  | None => ret (mkResponse 404 Utilisateur_non_trouve)
  | Some _ =>
      today <- read (fun d => find (isDayOf u currentDate) (Days d)) ;;
      match today with
      | Some t => ret (mkResponse 200 (Jour t))
      | None =>
          lastDay <- read (fun d => lastDayOf u (Days d)) ;;
          let initialPocket :=
            match lastDay with Some l => Day.finalPocket l | None => 0 end in
          budgetsAvailable <- calculateBudgetsAvailable u currentDate ;;
          let t := Day.mk u currentDate initialPocket budgetsAvailable 0 0
                     initialPocket false in
          write (save_Day t) ;;;
          ret (mkResponse 200 (Jour t))
      end
  end.

(** The two rejections of an expense: validation (the balance would go
    negative) and concurrency conflict (a conditional update lost). *)
Definition NegativeBalanceRejected (r : Response) : Prop :=
  status r = 400%nat /\ exists n a, message r = Operation_rejetee n a.


(* ------------------------------------------------------------------ *)
(** ** Cascade engine: POST /api/transactions (lines 1958-2149) *)

Record TransactionRequest := mkTransactionRequest
  { tr_userId : ObjectId;
    tr_type : TxType;
    tr_amount : Q;
    tr_comment : string;
    tr_budgetId : ObjectId }.

(** [toUpdate]: the target, then its immediate parent when there is one. *)
Definition cascadeSet (u : ObjectId) (targetBudget : Budget.t) : M (list Budget.t) :=
  match Budget.frequency targetBudget with
  | daily =>
      w <- read (fun d => find (isWeeklyOf u) (Budgets d)) ;;
      ret (targetBudget :: match w with Some w => [w] | None => [] end)
  | weekly =>
      monthlyPrimary <- read (fun d => find (isPrimaryMonthlyOf u) (Budgets d)) ;;
      ret (targetBudget :: match monthlyPrimary with Some p => [p] | None => [] end)
  | monthly => ret [targetBudget]
  end.

(** The availability loop over [toUpdate]: the first budget that would go
    negative rejects, otherwise the before/after pairs in order. *)
Fixpoint checkAvailability (amount : Q) (toUpdate : list Budget.t)
    (affected : list Affected) : (string * Q) + list Affected :=
  match toUpdate with
  | [] => inr affected
  | b :: rest =>
      let before := Budget.currentAmount b in
      let after := before - amount in
      if Qltb after 0 then inl (Budget.name b, after)
      else checkAvailability amount rest
             (affected ++ [mkAffected (Budget._id b) before after])
  end.

(** [for (const a of affected) Budget.updateOne({ _id }, { $set: { currentAmount: a.after } })] *)
Fixpoint applyAfter (affected : list Affected) : M unit :=
  match affected with
  | [] => ret tt
  | a :: rest =>
      write (with_Budgets (updateOne (byId (a_budgetId a))
                                     (Budget.set_currentAmount (after a)))) ;;;
      applyAfter rest
  end.

(** [Budget.findOneAndUpdate({ _id, currentAmount: { $gte: amount } },
                             { $inc: { currentAmount: -amount } })]:
    one atomic conditional decrement; [false] when no document matched. *)
Definition conditionalDecrement (id : ObjectId) (amount : Q) : M bool :=
  let matches b := byId id b && Qle_bool amount (Budget.currentAmount b) in
  u <- read (fun d => find matches (Budgets d)) ;;
  match u with
  | None => ret false
  | Some _ =>
      write (with_Budgets (updateOne matches (Budget.inc_currentAmount (- amount)))) ;;;
      ret true
  end.

(** The loop of conditional updates; it stops at the first one that
    fails and returns the identifiers already decremented. *)
Fixpoint applyConditional (amount : Q) (affected : list Affected)
    (updated : list ObjectId) : M (bool * list ObjectId) :=
  match affected with
  | [] => ret (true, updated)
  | a :: rest =>
      yield ;;;
      u <- conditionalDecrement (a_budgetId a) amount ;;
      if u then applyConditional amount rest (updated ++ [a_budgetId a])
      else ret (false, updated)
  end.

(** [for (const bid of updated) Budget.updateOne({ _id: bid }, { $inc: { currentAmount: amount } })] *)
Fixpoint revertUpdated (amount : Q) (updated : list ObjectId) : M unit :=
  match updated with
  | [] => ret tt
  | bid :: rest =>
      write (with_Budgets (updateOne (byId bid) (Budget.inc_currentAmount amount))) ;;;
      revertUpdated amount rest
  end.

Definition cascadeEntry (rule : string) (req : TransactionRequest)
    (affected : list Affected) : JournalEntry.t :=
  JournalEntry.mk (tr_userId req) je_expense (tr_amount req) (tr_comment req)
    affected rule (Some (tr_budgetId req)).

Definition gainEntry (req : TransactionRequest) : JournalEntry.t :=
  JournalEntry.mk (tr_userId req) je_gain (tr_amount req) (tr_comment req)
    [] "gain_to_savings" None.

Definition newTransaction (req : TransactionRequest) (currentDate currentTime : string)
  : M Transaction.t :=
  id <- newId ;;
  ret (Transaction.mk id (tr_userId req) (Some (tr_budgetId req)) (tr_type req)
         (tr_amount req) (tr_comment req) currentDate currentTime).

(** The branch taken when [TRANSACTIONS_SUPPORTED] holds. *)
Definition postTransaction_transactional (currentDate currentTime : string)
    (req : TransactionRequest) : M Response :=
  let userId := tr_userId req in
  let amount := tr_amount req in
  atomically (
    transaction <- newTransaction req currentDate currentTime ;;
    write (save_Transaction transaction) ;;;
    targetBudget <- read (fun d => findById (tr_budgetId req) (Budgets d)) ;;
    let finish :=
      updateDayTotals userId currentDate ;;;
      ret (Commit (mkResponse 201 (Transaction_creee (Transaction._id transaction)))) in
    match tr_type req with
    | expense =>
        match targetBudget with
        | None => ret (Abort (mkResponse 404 Budget_non_trouve))
        | Some targetBudget =>
            toUpdate <- cascadeSet userId targetBudget ;;
            match checkAvailability amount toUpdate [] with
            | inl (n, a) => ret (Abort (mkResponse 400 (Operation_rejetee n a)))
            | inr affected =>
                applyAfter affected ;;;
                write (save_JournalEntry (cascadeEntry "cascade_expense" req affected)) ;;;
                finish
            end
        end
    | gain =>
        write (save_JournalEntry (gainEntry req)) ;;;
        finish
    end).

(** The branch taken when it does not. *)
Definition postTransaction_fallback (currentDate currentTime : string)
    (req : TransactionRequest) : M Response :=
  let userId := tr_userId req in
  let amount := tr_amount req in
  match tr_type req with
  | expense =>
      targetBudget <- read (fun d => findById (tr_budgetId req) (Budgets d)) ;;
      match targetBudget with
      | None => ret (mkResponse 404 Budget_non_trouve)
      | Some targetBudget =>
          toUpdate <- cascadeSet userId targetBudget ;;
          match checkAvailability amount toUpdate [] with
          | inl (n, a) => ret (mkResponse 400 (Operation_rejetee n a))
          | inr affected =>
              r <- applyConditional amount affected [] ;;
              let (ok, updated) := r in
              if ok then
                transaction <- newTransaction req currentDate currentTime ;;
                write (save_Transaction transaction) ;;;
                write (save_JournalEntry
                         (cascadeEntry "cascade_expense_fallback" req affected)) ;;;
                updateDayTotals userId currentDate ;;;
                ret (mkResponse 201 (Transaction_creee_fallback (Transaction._id transaction)))
              else
                revertUpdated amount updated ;;;
                ret (mkResponse 409 Conflit_de_disponibilite)
          end
      end
  | gain =>
      transaction <- newTransaction req currentDate currentTime ;;
      write (save_Transaction transaction) ;;;
      write (save_JournalEntry (gainEntry req)) ;;;
      updateDayTotals userId currentDate ;;;
      ret (mkResponse 201 Gain_cree_fallback)
  end.

(** [transactionValidationSchema.validate(req.body)] finds no error
    (lines 363-381): the amount is positive and, as Joi asks of every
    number, within the safe range; the comment is not empty and has at most
    500 characters.  The other constraints of the schema bear on the shape
    of the request, which the record type fixes. *)
Definition transactionValidationSchema (req : TransactionRequest) : bool :=
  Qltb 0 (tr_amount req) && Qle_bool (tr_amount req) MAX_SAFE_INTEGER
  && negb (String.eqb (tr_comment req) "")
  && (String.length (tr_comment req) <=? 500)%nat.

(** POST /api/transactions.  [TRANSACTIONS_SUPPORTED] is the process-wide
    flag. *)
Definition postTransaction (TRANSACTIONS_SUPPORTED : bool)
    (currentDate currentTime : string) (req : TransactionRequest) : M Response :=
  if negb (transactionValidationSchema req)
  then ret (mkResponse 400 Erreur_de_validation) else
  today <- read (fun d => find (isDayOf (tr_userId req) currentDate) (Days d)) ;;
  if match today with Some t => Day.locked t | None => false end
  then ret (mkResponse 403 Jour_verrouille) else
  bcheck <- read (fun d => match tr_type req with
                           | expense => findById (tr_budgetId req) (Budgets d)
                           | gain => None
                           end) ;;
  match tr_type req, bcheck with
  | expense, None => ret (mkResponse 404 Budget_non_trouve)
  | _, _ =>
      if TRANSACTIONS_SUPPORTED
      then postTransaction_transactional currentDate currentTime req
      else postTransaction_fallback currentDate currentTime req
  end.

(* ------------------------------------------------------------------ *)
(** ** Budgets: POST /api/budgets (lines 1783-1896) and
       PUT /api/budgets/:id (lines 1907-1931) *)

Record BudgetRequest := mkBudgetRequest
  { br_userId : ObjectId;
    br_name : string;
    br_amount : Q;
    br_frequency : Frequency;
    br_clientId : option string;
    br_isPrimary : bool }.

Definition option_string_eqb (a b : option string) : bool :=
  match a, b with
  | Some x, Some y => String.eqb x y
  | None, None => true
  | _, _ => false
  end.

(** [clientId || null], and the test [if (clientId)]: the empty string is
    falsy. *)
Definition or_null (s : option string) : option string :=
  match s with
  | Some EmptyString => None
  | _ => s
  end.

Definition allocationEntry (u : ObjectId) (numericAmount : Q) (comment rule : string)
    (affected : list Affected) : JournalEntry.t :=
  JournalEntry.mk u je_expense numericAmount comment affected rule None.

Definition postBudget (TRANSACTIONS_SUPPORTED : bool) (req : BudgetRequest) : M Response :=
  let userId := br_userId req in
  let isPrimary := br_isPrimary req in
  let frequency := br_frequency req in
  if String.eqb (br_name req) "" then ret (mkResponse 400 Champs_requis) else
  let numericAmount := br_amount req in
  if negb (Qltb 0 numericAmount)
  then ret (mkResponse 400 Montant_doit_etre_superieur_a_0) else
  existingPrimary <- read (fun d =>
    find (fun b => Nat.eqb (Budget.userId b) userId && Budget.isPrimary b) (Budgets d)) ;;
  match isPrimary, existingPrimary with
  | true, Some _ => ret (mkResponse 400 Budget_principal_existe_deja)
  | _, _ =>
  if isPrimary && negb (Frequency_eqb frequency monthly)
  then ret (mkResponse 400 Budget_principal_doit_etre_mensuel) else
  validation <- read (fun d =>
    if isPrimary then Valid
    else validateBudgetHierarchy (Budgets d) userId frequency numericAmount) ;;
  match validation with
  | Invalid m => ret (mkResponse 400 (Hierarchie m))
  | Valid =>
  existing <- read (fun d =>
    match or_null (br_clientId req) with
    | Some c => find (fun b => option_string_eqb (Budget.clientId b) (Some c)
                               && Nat.eqb (Budget.userId b) userId) (Budgets d)
    | None => None
    end) ;;
  match existing with
  | Some e => ret (mkResponse 200 (Budget_existant (Budget._id e)))
  | None =>
  id <- newId ;;
  let budget := Budget.mk id userId (br_name req) (or_null (br_clientId req))
                  numericAmount frequency isPrimary numericAmount numericAmount in
  if negb isPrimary && Frequency_eqb frequency weekly then
    if TRANSACTIONS_SUPPORTED then
      atomically (
        primary <- read (fun d => find (isPrimaryMonthlyOf userId) (Budgets d)) ;;
        match primary with
        | None => ret (Abort (mkResponse 400 Aucun_budget_mensuel_principal))
        | Some primary =>
            let before := Budget.currentAmount primary in
            let after := before - numericAmount in
            if Qltb after 0 then ret (Abort (mkResponse 400 (Allocation_impossible after)))
            else
              write (save_Budget budget) ;;;
              write (with_Budgets (updateOne (byId (Budget._id primary))
                                             (Budget.set_currentAmount after))) ;;;
              write (save_JournalEntry
                       (allocationEntry userId numericAmount
                          ("Allocation automatique budget hebdo " ++ br_name req)
                          "allocation_weekly_from_month"
                          [mkAffected (Budget._id primary) before after;
                           mkAffected id numericAmount numericAmount])) ;;;
              ret (Commit (mkResponse 201 (Budget_cree id)))
        end)
    else
      primary <- read (fun d => find (isPrimaryMonthlyOf userId) (Budgets d)) ;;
      match primary with
      | None => ret (mkResponse 400 Aucun_budget_mensuel_principal)
      | Some primary =>
          let before := Budget.currentAmount primary in
          let after := before - numericAmount in
          if Qltb after 0 then ret (mkResponse 400 (Allocation_impossible after))
          else
            yield ;;;
            updated <- conditionalDecrement (Budget._id primary) numericAmount ;;
            if updated then
              write (save_Budget budget) ;;;
              write (save_JournalEntry
                       (allocationEntry userId numericAmount
                          ("Allocation automatique budget hebdo " ++ br_name req
                             ++ " (fallback)")
                          "allocation_weekly_from_month_fallback"
                          [mkAffected (Budget._id primary) before after])) ;;;
              ret (mkResponse 201 (Budget_cree id))
            else ret (mkResponse 409 Conflit_allocation_hebdo)
      end
  else
    write (save_Budget budget) ;;;
    ret (mkResponse 201 (Budget_cree id))
  end end end.

Record BudgetEdit := mkBudgetEdit
  { be_name : option string;     (* frequency is intentionally not updatable *)
    be_amount : option Q }.

Definition putBudget (id : ObjectId) (req : BudgetEdit) : M Response :=
  found <- read (fun d => findById id (Budgets d)) ;;
  match found with
  | None => ret (mkResponse 404 Budget_non_trouve)
  | Some budget =>
      let rename := match be_name req with
                    | Some n => if String.eqb n "" then (fun b => b) else Budget.set_name n
                    | None => (fun b => b)
                    end in
      (* [budget.save()] writes the paths the handler assigned *)
      let save (assigned : Budget.t -> Budget.t) :=
        write (with_Budgets (updateOne (byId id) assigned)) ;;;
        ret (mkResponse 200 (Budget_modifie id)) in
      match be_amount req with
      | None => save rename
      | Some numericAmount =>
          if negb (Qltb 0 numericAmount)
          then ret (mkResponse 400 Montant_doit_etre_superieur_a_0) else
          if Budget.isPrimary budget
          then ret (mkResponse 400 Montant_principal_non_modifiable) else
          validation <- read (fun d =>
            validateBudgetHierarchy (Budgets d) (Budget.userId budget)
                                    (Budget.frequency budget) numericAmount) ;;
          match validation with
          | Invalid m => ret (mkResponse 400 (Hierarchie m))
          | Valid => save (fun b => Budget.set_amount numericAmount (rename b))
          end
      end
  end.

(** [calculateRemainingBudget] on a loaded document (lines 748-752). *)
Definition calculateRemainingBudget (budget : Budget.t) : Q :=
  Math_max 0 (Budget.currentAmount budget).

(* ------------------------------------------------------------------ *)
(** ** Objectives: POST /api/objectives/:id/allocate (lines 1207-1354) *)

Record AllocateRequest := mkAllocateRequest
  { al_userId : ObjectId;
    al_budgetId : ObjectId;
    al_amount : Q }.

(** The cascade of an allocation reaches the weekly and the primary
    monthly budget from a daily one. *)
Definition allocationSet (u : ObjectId) (budget : Budget.t) : M (list Budget.t) :=
  match Budget.frequency budget with
  | daily =>
      w <- read (fun d => find (isWeeklyOf u) (Budgets d)) ;;
      monthlyPrimary <- read (fun d => find (isPrimaryMonthlyOf u) (Budgets d)) ;;
      ret (budget :: match w with Some w => [w] | None => [] end
                  ++ match monthlyPrimary with Some p => [p] | None => [] end)
  | weekly =>
      monthlyPrimary <- read (fun d => find (isPrimaryMonthlyOf u) (Budgets d)) ;;
      ret (budget :: match monthlyPrimary with Some p => [p] | None => [] end)
  | monthly => ret [budget]
  end.

(** [obj.savedAmount += amount; if (obj.savedAmount >= obj.targetAmount) obj.achieved = true] *)
Definition creditObjective (amount : Q) (o : Objective.t) : Objective.t :=
  let saved := Objective.savedAmount o + amount in
  Objective.mk (Objective._id o) (Objective.userId o) (Objective.targetAmount o) saved
    (if Qle_bool (Objective.targetAmount o) saved then true else Objective.achieved o).

(** [`Allocation vers objectif ${obj._id.toString()}`] *)
Definition allocationComment (obj : Objective.t) : string :=
  ("Allocation vers objectif " ++ ObjectId_toString (Objective._id obj))%string.

Definition objectiveEntry (rule : string) (obj : Objective.t) (req : AllocateRequest)
    (affected : list Affected) : JournalEntry.t :=
  JournalEntry.mk (al_userId req) je_expense (al_amount req) (allocationComment obj)
    affected rule None.

Definition postAllocate (TRANSACTIONS_SUPPORTED : bool) (currentDate currentTime : string)
    (id : ObjectId) (req : AllocateRequest) : M Response :=
  let userId := al_userId req in
  let amount := al_amount req in
  if Qeq_bool amount 0 then ret (mkResponse 400 Champs_requis) else
  if Qle_bool amount 0 then ret (mkResponse 400 Montant_invalide) else
  obj <- read (fun d => find (fun o => Nat.eqb (Objective._id o) id) (Objectives d)) ;;
  match obj with
  | None => ret (mkResponse 404 Objectif_non_trouve)
  | Some obj =>
  found <- read (fun d => findById (al_budgetId req) (Budgets d)) ;;
  match found with
  | None => ret (mkResponse 404 Budget_non_trouve)
  | Some budget =>
  if negb (Nat.eqb (Budget.userId budget) userId)
  then ret (mkResponse 403 Budget_pas_a_l_utilisateur) else
  let remaining := calculateRemainingBudget budget in
  if Qltb remaining amount
  then ret (mkResponse 400 (Depassement_du_budget (Budget.name budget) remaining)) else
  let transaction tid :=
    Transaction.mk tid userId (Some (al_budgetId req)) expense amount
      (allocationComment obj) currentDate currentTime in
  let credited := creditObjective amount obj in
  let saveObjective :=
    write (with_Objectives (updateOne (fun o => Nat.eqb (Objective._id o) id)
                                      (fun _ => credited))) in
  let done := mkResponse 200 (Objectif_alloue (Objective.savedAmount credited)
                                              (Objective.achieved credited)) in
  if TRANSACTIONS_SUPPORTED then
    atomically (
      tid <- newId ;;
      write (save_Transaction (transaction tid)) ;;;
      toUpdate <- allocationSet userId budget ;;
      match checkAvailability amount toUpdate [] with
      | inl (n, a) => ret (Abort (mkResponse 400 (Allocation_rejetee n a)))
      | inr affected =>
          applyAfter affected ;;;
          write (save_JournalEntry
                   (objectiveEntry "allocate_to_objective" obj req affected)) ;;;
          updateDayTotals userId currentDate ;;;
          saveObjective ;;;
          ret (Commit done)
      end)
  else
    toUpdate <- allocationSet userId budget ;;
    match checkAvailability amount toUpdate [] with
    | inl (n, a) => ret (mkResponse 400 (Allocation_rejetee n a))
    | inr affected =>
        r <- applyConditional amount affected [] ;;
        let (ok, updated) := r in
        if ok then
          tid <- newId ;;
          write (save_Transaction (transaction tid)) ;;;
          write (save_JournalEntry
                   (objectiveEntry "allocate_to_objective_fallback" obj req affected)) ;;;
          updateDayTotals userId currentDate ;;;
          saveObjective ;;;
          ret done
        else
          revertUpdated amount updated ;;;
          ret (mkResponse 500 Erreur_allocation_objectif)
    end
  end end.

(* ------------------------------------------------------------------ *)
(** ** Tontines: POST /api/tontines/:id/contribute (lines 1437-1474) *)

Record ContributeRequest := mkContributeRequest
  { co_userId : ObjectId;
    co_amount : Q }.

Definition isMember (u : ObjectId) (m : Member) : bool := Nat.eqb (m_userId m) u.

(** [member.contributed += amount; tontine.totalAmount += amount].  The
    two sums are exact; they are the sums the doubles give whenever both
    are safe integers. *)
Definition creditTontine (u : ObjectId) (amount : Q) (t : Tontine.t) : Tontine.t :=
  Tontine.mk (Tontine._id t) (Tontine.name t) (Tontine.ownerId t) (Tontine.budgetId t)
    (updateOne (isMember u)
       (fun m => mkMember (m_userId m) (contributed m + amount) (position m))
       (Tontine.members t))
    (Tontine.totalAmount t + amount).

Definition postContribute (currentDate currentTime : string) (id : ObjectId)
    (req : ContributeRequest) : M Response :=
  let resolvedUserId := co_userId req in
  let amount := co_amount req in
  if Qeq_bool amount 0 then ret (mkResponse 400 Champs_requis) else
  found <- read (fun d => find (fun t => Nat.eqb (Tontine._id t) id) (Tontines d)) ;;
  match found with
  | None => ret (mkResponse 404 Tontine_non_trouvee)
  | Some tontine =>
      match find (isMember resolvedUserId) (Tontine.members tontine) with
      | None => ret (mkResponse 400 Utilisateur_non_membre)
      | Some _ =>
          let tontine := creditTontine resolvedUserId amount tontine in
          write (with_Tontines (updateOne (fun t => Nat.eqb (Tontine._id t) id)
                                          (fun _ => tontine))) ;;;
          match Tontine.budgetId tontine with
          | Some budgetId =>
              tid <- newId ;;
              write (save_Transaction
                       (Transaction.mk tid resolvedUserId (Some budgetId) expense amount
                          ("Tontine: " ++ Tontine.name tontine) currentDate currentTime)) ;;;
              updateDayTotals resolvedUserId currentDate ;;;
              ret (mkResponse 200 (Contribution (Tontine.totalAmount tontine) (Some tid)))
          | None =>
              ret (mkResponse 200 (Contribution (Tontine.totalAmount tontine) None))
          end
      end
  end.

(* ------------------------------------------------------------------ *)
(** ** The exposed operations *)

Inductive Request :=
| POST_transactions (req : TransactionRequest)
| POST_budgets (req : BudgetRequest)
| PUT_budgets (id : ObjectId) (req : BudgetEdit)
| POST_objectives_allocate (id : ObjectId) (req : AllocateRequest)
| POST_tontines_contribute (id : ObjectId) (req : ContributeRequest)
| GET_days (userId : ObjectId)
| GET_available (userId : ObjectId).

Definition handle (TRANSACTIONS_SUPPORTED : bool) (currentDate currentTime : string)
    (r : Request) : M Response :=
  match r with
  | POST_transactions req =>
      postTransaction TRANSACTIONS_SUPPORTED currentDate currentTime req
  | POST_budgets req => postBudget TRANSACTIONS_SUPPORTED req
  | PUT_budgets id req => putBudget id req
  | POST_objectives_allocate id req =>
      postAllocate TRANSACTIONS_SUPPORTED currentDate currentTime id req
  | POST_tontines_contribute id req => postContribute currentDate currentTime id req
  | GET_days u => getDay u currentDate
  | GET_available u =>
      available <- calculateBudgetsAvailable u currentDate ;;
      ret (mkResponse 200 (Disponible available))
  end.

(* ------------------------------------------------------------------ *)
(** ** Pocket money *)


(* ------------------------------------------------------------------ *)
(** ** Start-up: the transaction-capability detector

    The module calls [connectWithFallback] (423-466), sets
    [TRANSACTIONS_SUPPORTED] to [true] (line 471), registers
    [checkTransactionsSupport] (473-490) on mongoose's 'connected' event
    (658-662) and the production guard on the process's 'beforeExit' event
    (665-672), and calls [startServer] (2465-2506), which awaits
    [connectWithFallback] again and then listens. *)

Inductive NodeEnv := development | production.

(** What the store answers to the probe. *)
Record Store := mkStore
  { startSession_succeeds : bool;
    startTransaction_succeeds : bool;
    commitTransaction_succeeds : bool }.

(** The store can open and commit a no-op transaction. *)
Definition supportsTransactions (s : Store) : bool :=
  startSession_succeeds s && startTransaction_succeeds s && commitTransaction_succeeds s.

(** [checkTransactionsSupport]: the value it leaves in the flag.  The
    rejection of [commitTransaction()] is swallowed by [.catch(() => {})]. *)
Definition checkTransactionsSupport (s : Store) : bool :=
  if startSession_succeeds s then
    if startTransaction_succeeds s then
      let _ := commitTransaction_succeeds s in true
    else false
  else false.

Record Process := mkProcess
  { NODE_ENV : NodeEnv;
    TRANSACTIONS_SUPPORTED : bool;
    listening : bool;
    exited : bool }.

(** [let TRANSACTIONS_SUPPORTED = true] at module load. *)
Definition boot (env : NodeEnv) : Process := mkProcess env true false false.

Inductive Event :=
| connected (s : Store)   (* mongoose emits 'connected' *)
| connect_failed (memoryServer : bool)
    (* [mongoose.connect] rejects in [connectWithFallback]; whether the
       MongoMemoryServer of the development fallback then comes up *)
| connect_resolved        (* [await connectWithFallback()] returns in [startServer] *)
| startup_error           (* the [try] block of [startServer] throws *)
| beforeExit.             (* Node emits 'beforeExit' *)

(** [process.exit(1)] *)
Definition process_exit (p : Process) : Process :=
  mkProcess (NODE_ENV p) (TRANSACTIONS_SUPPORTED p) (listening p) true.

(** One event.  An exited process ignores events.  [process.exit(1)] is
    called by [connectWithFallback] when the connection fails in
    production, or fails in development and the in-memory server does not
    come up (lines 459, 463); by the [catch] of [startServer] (line 2502);
    and by the guard of 'beforeExit' in production when the flag is
    off. *)
Definition step (p : Process) (e : Event) : Process :=
  if exited p then p else
  match e with
  | connected s =>
      mkProcess (NODE_ENV p) (checkTransactionsSupport s) (listening p) (exited p)
  | connect_failed memoryServer =>
      match NODE_ENV p with
      | development => if memoryServer then p else process_exit p
      | production => process_exit p
      end
  | connect_resolved =>
      (* [app.listen(PORT, ..)] *)
      mkProcess (NODE_ENV p) (TRANSACTIONS_SUPPORTED p) true (exited p)
  | startup_error => process_exit p
  | beforeExit =>
      match NODE_ENV p with
      | production => if negb (TRANSACTIONS_SUPPORTED p) then process_exit p else p
      | development => p
      end
  end.

(** The process accepts requests. *)
Definition serves (p : Process) : bool := listening p && negb (exited p).

(* ------------------------------------------------------------------ *)
(** ** Spending limits: [computeDynamicLimits] (lines 866-902) *)

(** [dateStr.split('-')] *)
Fixpoint split_dash (s : string) : list string :=
  match s with
  | EmptyString => [EmptyString]
  | String c r =>
      if Ascii.eqb c "-"%char then EmptyString :: split_dash r
      else match split_dash r with
           | h :: t => String c h :: t
           | [] => [String c EmptyString]
           end
  end.

(** The white space [parseInt] skips, among the characters below 256:
    TAB, LF, VT, FF, CR, SP and NBSP. *)
Definition isWhiteSpace (c : Ascii.ascii) : bool :=
  let n := Ascii.nat_of_ascii c in
  ((9 <=? n) && (n <=? 13))%nat || (n =? 32)%nat || (n =? 160)%nat.

Definition digitOf (c : Ascii.ascii) : option Z :=
  let n := Ascii.nat_of_ascii c in
  if ((48 <=? n) && (n <=? 57))%nat then Some (Z.of_nat (n - 48)) else None.

(** The decimal digits at the head of [s], read after [acc]. *)
Fixpoint readDigits (s : string) (acc : option Z) : option Z :=
  match s with
  | EmptyString => acc
  | String c r =>
      match digitOf c with
      | Some v => readDigits r (Some (match acc with Some a => 10 * a + v | None => v end)%Z)
      | None => acc
      end
  end.

Fixpoint skipWhiteSpace (s : string) : string :=
  match s with
  | String c r => if isWhiteSpace c then skipWhiteSpace r else s
  | EmptyString => s
  end.

(** [parseInt(p, 10)]; [None] is [NaN]. *)
Definition parseInt (p : string) : option Z :=
  match skipWhiteSpace p with
  | String "-"%char r => option_map Z.opp (readDigits r None)
  | String "+"%char r => readDigits r None
  | s => readDigits s None
  end.

Record DynamicLimits := mkDynamicLimits
  { monthlyAvailable : Q;
    weeklyLimit : Z;
    dailyLimit : Z;
    daysLeft : Z;
    weeksLeft : Z }.

(** [currentDate] is the string the function reads as [dateStr]: the
    caller's date, or the server's date of the day when the caller passes
    none.  A part that does not start with a number is [NaN], and the day
    of the month is then 1.  The three quotients are quotients of
    doubles. *)
Definition computeDynamicLimits (budgetsAvailable : Q) (currentDate : string)
  : DynamicLimits :=
  let available := Math_max 0 (or_num budgetsAvailable 0) in
  if Qeq_bool available 0 then mkDynamicLimits 0 0 0 0 0 else
  let dateStr := currentDate in
  let parts := map parseInt (split_dash dateStr) in
  let dayOfMonth :=
    match parts with
    | [_; _; Some d] => d
    | _ => 1%Z
    end in
  let DAYS_IN_CYCLE := 30%Z in
  let dayIndex := Z.min DAYS_IN_CYCLE (Z.max 1 dayOfMonth) in
  let daysLeft := Z.max 1 (DAYS_IN_CYCLE - dayIndex + 1) in
  let weeksLeft := Z.max 1 (Qceiling (Number_div (inject_Z daysLeft) 7)) in
  let dailyLimit := Math_floor (Number_div available (inject_Z daysLeft)) in
  let weeklyLimit := Math_floor (Number_div available (inject_Z weeksLeft)) in
  mkDynamicLimits available weeklyLimit dailyLimit daysLeft weeksLeft.

(* ------------------------------------------------------------------ *)
(** ** Tontines: whose turn it is
       (GET /api/tontines/:userId, lines 1396-1404, and
        GET /api/tontines/:id/percent/:userId, lines 1493-1499)

    [elapsed] is what [periodsElapsedSince] returns for the tontine's
    start date and frequency at the time of the request; counts and
    positions are integers, and [%] is JavaScript's remainder, which takes
    the sign of the dividend. *)

(** [t.participantsCount || t.members.length || 0] *)
Definition participantsOf (participantsCount : Z) (members : list Member) : Z :=
  if (participantsCount =? 0)%Z then Z.of_nat (List.length members) else participantsCount.

(** [participants > 0 ? ((elapsed % participants) + 1) : 1] *)
Definition currentReceiverIndex (participants elapsed : Z) : Z :=
  if (0 <? participants)%Z then (Z.rem elapsed participants + 1)%Z else 1%Z.

(** [member ? (member.position || null) : null] *)
Definition myPositionOf (member : option Member) : option Z :=
  match member with
  | Some m => if (position m =? 0)%nat then None else Some (Z.of_nat (position m))
  | None => None
  end.

(** [(myPosition && participants)
       ? ((myPosition - currentReceiverIndex + participants) % participants) : null] *)
Definition turnsUntilMe (participants elapsed : Z) (myPosition : option Z) : option Z :=
  match myPosition with
  | Some p =>
      if (p =? 0)%Z || (participants =? 0)%Z then None
      else Some (Z.rem (p - currentReceiverIndex participants elapsed + participants)
                       participants)
  | None => None
  end.

(** [turnsUntilMe != null && participants
       ? Math.round(((participants - turnsUntilMe) / participants) * 100) : null] *)
Definition percentUntilMyTurn (participants elapsed : Z) (myPosition : option Z)
  : option Z :=
  match turnsUntilMe participants elapsed myPosition with
  | Some t =>
      if (participants =? 0)%Z then None
      else Some (Math_round (inject_Z (participants - t) / inject_Z participants * 100))
  | None => None
  end.

(* ------------------------------------------------------------------ *)
(** ** Tontines: POST /api/tontines/:id/join (lines 1416-1434)

    The record of the embedding keeps the fields of a tontine the ledger
    reads; [participantsCount], which the handler also raises, is not one
    of them. *)

Record JoinRequest := mkJoinRequest
  { jo_userId : ObjectId;
    jo_position : option nat }.

Inductive JoinMessage :=
| Join_tontine_non_trouvee
| Deja_membre
| Joined (assignedPos : nat).

(** [while (used.has(assignedPos)) assignedPos++]; the loop leaves after
    at most one round per element of [used], which is what [rounds]
    counts. *)
Fixpoint firstUnused (rounds : nat) (used : list nat) (assignedPos : nat) : nat :=
  match rounds with
  | O => assignedPos
  | S n =>
      if existsb (Nat.eqb assignedPos) used
      then firstUnused n used (S assignedPos)
      else assignedPos
  end.

Definition assignPosition (requested : option nat) (members : list Member) : nat :=
  let assignedPos :=
    match requested with
    | Some (S p) => S p
    | _ => (List.length members + 1)%nat
    end in
  let used := map position members in
  firstUnused (S (List.length used)) used assignedPos.

Definition addMember (u : ObjectId) (assignedPos : nat) (t : Tontine.t) : Tontine.t :=
  Tontine.mk (Tontine._id t) (Tontine.name t) (Tontine.ownerId t) (Tontine.budgetId t)
    (Tontine.members t ++ [mkMember u 0 assignedPos]) (Tontine.totalAmount t).

Definition postJoin (id : ObjectId) (req : JoinRequest) : M (nat * JoinMessage) :=
  let resolvedUserId := jo_userId req in
  found <- read (fun d => find (fun t => Nat.eqb (Tontine._id t) id) (Tontines d)) ;;
  match found with
  | None => ret (404%nat, Join_tontine_non_trouvee)
  | Some tontine =>
      match find (isMember resolvedUserId) (Tontine.members tontine) with
      | Some _ => ret (400%nat, Deja_membre)
      | None =>
          let assignedPos := assignPosition (jo_position req) (Tontine.members tontine) in
          write (with_Tontines (updateOne (fun t => Nat.eqb (Tontine._id t) id)
                                          (fun _ => addMember resolvedUserId assignedPos
                                                      tontine))) ;;;
          ret (200%nat, Joined assignedPos)
      end
  end.

(* ------------------------------------------------------------------ *)
(** ** Registration: the default budgets of POST /api/register (lines 1705-1746)

    [userId] is the identifier [createUser] has just returned; the block
    runs when the request sets [createDefaultBudgets].  An absent
    [primaryIncomeAmount] is falsy like 0. *)

Definition initialSetupEntry (userId monthlyId weeklyId dailyId : ObjectId)
    (monthlyAmount weeklyAmount dailyAmount : Q) : JournalEntry.t :=
  JournalEntry.mk userId je_adjustment 0
    "Budget initial setup: monthly primary + weekly + daily allocations"
    [mkAffected monthlyId monthlyAmount (monthlyAmount - weeklyAmount);
     mkAffected weeklyId weeklyAmount (weeklyAmount - dailyAmount);
     mkAffected dailyId dailyAmount dailyAmount]
    "initial_budget_allocation" None.

Definition createDefaultBudgets (userId : ObjectId) (primaryIncomeAmount : Q) : M unit :=
  let monthlyAmount := or_num primaryIncomeAmount 125000 in
  let weeklyAmount := inject_Z (Math_round (monthlyAmount / 4)) in
  let dailyAmount := inject_Z (Math_round (weeklyAmount / 5)) in
  monthlyId <- newId ;;
  write (save_Budget (Budget.mk monthlyId userId "Salaire Principal" None monthlyAmount
                        monthly true monthlyAmount monthlyAmount)) ;;;
  weeklyId <- newId ;;
  write (save_Budget (Budget.mk weeklyId userId "ARGENT PAR SEMAINE" None weeklyAmount
                        weekly false weeklyAmount weeklyAmount)) ;;;
  write (with_Budgets (updateOne (byId monthlyId)
                         (Budget.set_currentAmount (monthlyAmount - weeklyAmount)))) ;;;
  dailyId <- newId ;;
  write (save_Budget (Budget.mk dailyId userId "ARGENT PAR jour" None dailyAmount
                        daily false dailyAmount dailyAmount)) ;;;
  write (with_Budgets (updateOne (byId weeklyId)
                         (Budget.set_currentAmount (weeklyAmount - dailyAmount)))) ;;;
  write (save_JournalEntry (initialSetupEntry userId monthlyId weeklyId dailyId
                              monthlyAmount weeklyAmount dailyAmount)).

(* ------------------------------------------------------------------ *)
(** ** Budgets: DELETE /api/budgets/:id (lines 1934-1942) *)

(** [Model.deleteOne(filter)]: the first matching document. *)
Fixpoint deleteOne {A : Type} (p : A -> bool) (l : list A) : list A :=
  match l with
  | [] => []
  | x :: r => if p x then r else x :: deleteOne p r
  end.

(** The handler answers 404 ('Budget non trouvé') or 200 ('Budget
    supprimé'); the transactions of the budget are kept. *)
Definition deleteBudget (id : ObjectId) : M nat :=
  budget <- read (fun d => findById id (Budgets d)) ;;
  match budget with
  | None => ret 404%nat
  | Some _ =>
      write (with_Budgets (deleteOne (byId id))) ;;;
      ret 200%nat
  end.

(* ------------------------------------------------------------------ *)
(** * Vocabulary of the statements *)

(* ------------------------------------------------------------------ *)
(** ** The balance invariant *)

(** Every budget of the database has [currentAmount >= 0]. *)
Definition nonneg (d : Db) : Prop :=
  Forall (fun b => 0 <= Budget.currentAmount b) (Budgets d).

(** A world is safe when its database, every state it has shown, and
    every state the waiting requests can turn a safe database into, keep
    all balances at or above zero. *)
Definition Safe (w : World) : Prop :=
  nonneg (db w) /\ Forall nonneg (trace w) /\
  Forall (fun g => forall d, nonneg d -> nonneg (g d)) (sched w).

(** [m] keeps worlds safe. *)
Definition preserves {A : Type} (m : M A) : Prop :=
  forall w, Safe w -> Safe (snd (m w)).

(* ------------------------------------------------------------------ *)
(** ** Sample databases

    One user (7) with the three default budgets; the primary monthly
    budget in step with the (empty) transaction history, or still short of
    the weekly allocation taken from it. *)

Definition sampleUser : User.t := User.mk 7 "Awa" "awa@test.local".

Definition sampleBudget (id : ObjectId) (name : string) (amount : Q)
    (frequency : Frequency) (isPrimary : bool) (currentAmount : Q) : Budget.t :=
  Budget.mk id 7%nat name None amount frequency isPrimary amount currentAmount.

Definition sampleDb (bs : list Budget.t) : Db :=
  mkDb [sampleUser] bs [] [] [] [] [] 10%nat.

Definition db_in_step : Db :=
  sampleDb [sampleBudget 1 "Salaire Principal" 400000 monthly true 400000;
            sampleBudget 2 "ARGENT PAR SEMAINE" 100000 weekly false 100000;
            sampleBudget 3 "ARGENT PAR jour" 14285 daily false 14285].

Definition db_after_allocation : Db :=
  sampleDb [sampleBudget 1 "Salaire Principal" 400000 monthly true 300000;
            sampleBudget 2 "ARGENT PAR SEMAINE" 100000 weekly false 100000;
            sampleBudget 3 "ARGENT PAR jour" 14285 daily false 14285].

Definition db_weekly_short : Db :=
  sampleDb [sampleBudget 1 "Salaire Principal" 400000 monthly true 400000;
            sampleBudget 2 "ARGENT PAR SEMAINE" 100000 weekly false 1000;
            sampleBudget 3 "ARGENT PAR jour" 14285 daily false 1500].

Definition today : string := "2026-11-02".

(** Another client's request that spends 99 000 of budget 2 while the
    handler is suspended. *)
Definition rival_spends_weekly : Db -> Db :=
  with_Budgets (updateOne (fun b => byId 2 b && Qle_bool 99000 (Budget.currentAmount b))
                          (Budget.inc_currentAmount (- 99000))).

(* ------------------------------------------------------------------ *)
(** ** The reconciler and the Day rollup as functions of the database *)

(** The figure [calculateBudgetsAvailable] returns on database [d]. *)
Definition availableFigure (u : ObjectId) (currentDate : string) (d : Db) : Q :=
  match find (isPrimaryMonthlyOf u) (Budgets d) with
  | None => 0
  | Some p =>
      availableOf p (expensesOfMonth u (String.substring 0 7 currentDate) (Transactions d))
  end.

(** The database it leaves. *)
Definition reconciled (u : ObjectId) (currentDate : string) (d : Db) : Db :=
  match find (isPrimaryMonthlyOf u) (Budgets d) with
  | None => d
  | Some p =>
      let available := availableFigure u currentDate d in
      if Qltb (1 # 100) (Qabs (Budget.currentAmount p - available)) then
        save_JournalEntry (reconcileEntry u p (Budget.currentAmount p) available)
          (with_Budgets (updateOne (byId (Budget._id p))
                                   (Budget.set_currentAmount available)) d)
      else d
  end.

(** [m] is a computation free of suspension points that returns [R d]
    and leaves [F d] when started on [d]. *)
Definition effect {A : Type} (m : M A) (R : Db -> A) (F : Db -> Db) : Prop :=
  forall w, fst (m w) = R (db w) /\ db (snd (m w)) = F (db w)
            /\ sched (snd (m w)) = sched w.

(** The Day record the rollup writes on database [d]. *)
Definition rolledUp (u : ObjectId) (currentDate : string) (d : Db) : Db :=
  let todayTransactions := transactionsOn u currentDate (Transactions d) in
  let totalGains := sumOfType gain todayTransactions in
  let totalExpenses := sumOfType expense todayTransactions in
  let initialPocket :=
    match lastDayOf u (Days d) with Some l => Day.finalPocket l | None => 0 end in
  with_Days (upsertDay u currentDate initialPocket (availableFigure u currentDate d)
               totalGains totalExpenses (initialPocket + totalGains - totalExpenses))
            (reconciled u currentDate d).

(* ------------------------------------------------------------------ *)
(** ** Identifiers *)

(** The [_id]s of a collection of budgets; MongoDB keeps them distinct. *)
Definition ids (l : list Budget.t) : list ObjectId := map Budget._id l.

(* ------------------------------------------------------------------ *)
(** ** The availability reconciler *)



(* ------------------------------------------------------------------ *)
(** ** The hierarchy validator *)

(** The caps, in the words of the rules. *)
Definition hierarchyCaps (bs : list Budget.t) (u : ObjectId) (frequency : Frequency)
    (amount : Q) : Prop :=
  0 < amount /\
  (frequency = weekly -> forall p, find (isPrimaryMonthlyOf u) bs = Some p ->
     amount <= or_num (Budget.initialAmount p) (or_num (Budget.amount p) 0) / 4) /\
  (frequency = daily -> forall p, find (isPrimaryMonthlyOf u) bs = Some p ->
     amount <= or_num (Budget.initialAmount p) (or_num (Budget.amount p) 0) / 28) /\
  (frequency = daily -> forall w, find (isWeeklyOf u) bs = Some w ->
     amount <= or_num (Budget.amount w) (or_num (Budget.initialAmount w) 0) / 7).

(** The literal scenario: a primary monthly budget of 400 000. *)
Definition db_primary_only : Db :=
  sampleDb [sampleBudget 1 "Salaire Principal" 400000 monthly true 400000].

(** The requests of the scenario. *)
Definition weekly_100000 : BudgetRequest :=
  mkBudgetRequest 7 "Semaine" 100000 weekly None false.

Definition daily_of (amount : Q) : BudgetRequest :=
  mkBudgetRequest 7 "Jour" amount daily None false.

(* ------------------------------------------------------------------ *)
(** ** Days and transactions of a request *)

(** The user's Day record of the date, if any, is not locked. *)
Definition unlocked (u : ObjectId) (currentDate : string) (d : Db) : Prop :=
  forall t, find (isDayOf u currentDate) (Days d) = Some t -> Day.locked t = false.

(** The Transaction document a request builds on database [d]. *)
Definition transactionOf (req : TransactionRequest) (currentDate currentTime : string)
    (d : Db) : Transaction.t :=
  Transaction.mk (nextId d) (tr_userId req) (Some (tr_budgetId req)) (tr_type req)
    (tr_amount req) (tr_comment req) currentDate currentTime.

(* ------------------------------------------------------------------ *)
(** ** Gains *)

(** A gain of 500 recorded against the weekly budget. *)
Definition gain_500 : TransactionRequest := mkTransactionRequest 7 gain 500 "vente" 2.


(* ------------------------------------------------------------------ *)
(** ** Tontine contributions *)


(** [Tontine.findById(id)] *)
Definition isTontine (id : ObjectId) (t : Tontine.t) : bool := Nat.eqb (Tontine._id t) id.

(** User 7 belongs to a tontine linked to the daily budget; today's Day
    record is locked. *)
Definition db_tontine : Db :=
  mkDb [sampleUser] (Budgets db_in_step) [] [Day.mk 7 today 0 400000 0 0 0 true] [] []
       [Tontine.mk 20 "Office" 7 (Some 3%nat) [mkMember 7 0 1] 0] 30.

Definition contribute_1000 : ContributeRequest := mkContributeRequest 7 1000.

(* ------------------------------------------------------------------ *)
(** ** Expenses: the cascade *)

(** The immediate parent of the target: the user's weekly budget for a
    daily target, the user's primary monthly budget for a weekly one. *)
Definition immediateParent (u : ObjectId) (target : Budget.t) (bs : list Budget.t)
  : list Budget.t :=
  match Budget.frequency target with
  | daily => match find (isWeeklyOf u) bs with Some w => [w] | None => [] end
  | weekly => match find (isPrimaryMonthlyOf u) bs with Some p => [p] | None => [] end
  | monthly => []
  end.

(** The before/after pair of a budget charged [X]. *)
Definition charged (X : Q) (b : Budget.t) : Affected :=
  mkAffected (Budget._id b) (Budget.currentAmount b) (Budget.currentAmount b - X).

(** The budgets after each budget of [set] has been charged [X]. *)
Definition cascaded (X : Q) (set : list Budget.t) (l : list Budget.t) : list Budget.t :=
  fold_left (fun l b => updateOne (byId (Budget._id b))
                          (Budget.set_currentAmount (Budget.currentAmount b - X)) l) set l.

(** A budget as the cascade over [set] leaves it. *)
Definition chargeIf (X : Q) (set : list Budget.t) (b : Budget.t) : Budget.t :=
  if existsb (fun s => byId (Budget._id s) b) set
  then Budget.set_currentAmount (Budget.currentAmount b - X) b
  else b.

(* ------------------------------------------------------------------ *)
(** ** The cascade set *)

(** An expense of user 7 against a budget. *)
Definition expense_on (budgetId : ObjectId) (amount : Q) : TransactionRequest :=
  mkTransactionRequest 7 expense amount "marche" budgetId.

(** What an expense of 100 on the daily budget does to the monthly one. *)
Definition daily_expense_reaches_monthly (TRANSACTIONS_SUPPORTED : bool) : Prop :=
  let (r, d') := run (postTransaction TRANSACTIONS_SUPPORTED today "10:00" (expense_on 3 100))
                     db_in_step in
  status r = 201%nat /\
  option_map Budget.frequency (findById 3 (Budgets db_in_step)) = Some daily /\
  option_map Budget.currentAmount (findById 1 (Budgets db_in_step)) = Some 400000 /\
  exists c, option_map Budget.currentAmount (findById 1 (Budgets d')) = Some c /\
            c == 399900 /\ ~ c == 400000.

(* ------------------------------------------------------------------ *)
(** ** One over the balance, exactly the balance *)

(** What an expense of exactly the daily budget's 1500 meets when the
    weekly budget holds 1000. *)
Definition exact_amount_rejected (TRANSACTIONS_SUPPORTED : bool) : Prop :=
  option_map Budget.currentAmount (findById 3 (Budgets db_weekly_short)) = Some 1500 /\
  run (postTransaction TRANSACTIONS_SUPPORTED today "10:00" (expense_on 3 1500))
      db_weekly_short
  = (mkResponse 400 (Operation_rejetee "ARGENT PAR SEMAINE" (1000 - 1500)),
     db_weekly_short).

(* ------------------------------------------------------------------ *)
(** ** Fallback mode: a lost conditional update *)


(** A request that leaves the Transaction and JournalEntry collections
    as they are. *)
Definition keeps_ledger (g : Db -> Db) : Prop :=
  forall d, Transactions (g d) = Transactions d /\ JournalEntries (g d) = JournalEntries d.





(** A fallback expense of 1500 on the daily budget; while it is suspended
    before its second conditional update a rival request takes 99 000 from
    the weekly budget. *)
Definition world_with_rival : World :=
  mkWorld db_in_step [(fun d => d); rival_spends_weekly] [].

(* ------------------------------------------------------------------ *)
(** ** Day coherence *)

(** The [initialPocket] and the [finalPocket] of the user's Day record of
    a date. *)
Definition initialPocketOf (u : ObjectId) (dt : string) (d : Db) : option Q :=
  option_map Day.initialPocket (find (isDayOf u dt) (Days d)).

Definition finalPocketOf (u : ObjectId) (dt : string) (d : Db) : option Q :=
  option_map Day.finalPocket (find (isDayOf u dt) (Days d)).

(* ------------------------------------------------------------------ *)
(** ** Start-up: the transaction-capability detector *)

(** A standalone store: sessions and [startTransaction] work, the commit
    is refused.  A store without sessions at all. *)
Definition standalone : Store := mkStore true true false.
Definition no_sessions : Store := mkStore false false false.

(* ------------------------------------------------------------------ *)
(** ** Spending limits *)

(** [s] holds no ['-']. *)
Definition noDash (s : string) : bool :=
  forallb (fun c => negb (Ascii.eqb c "-"%char)) (list_ascii_of_string s).

(** The two decimal digits of [n], as the day field of a date has them. *)
Definition twoDigits (n : nat) : string :=
  String (ascii_of_nat (48 + n / 10)) (String (ascii_of_nat (48 + n mod 10)) EmptyString).

(** The date ['y-m-dd']. *)
Definition dateOf (y m : string) (dd : nat) : string :=
  (y ++ "-" ++ m ++ "-" ++ twoDigits dd)%string.

(* ------------------------------------------------------------------ *)
(** ** Tontine members *)

(** The sum of the members' contributions. *)
Definition contributions (members : list Member) : Q :=
  fold_right (fun m s => contributed m + s) 0 members.

(** A tontine whose members are distinct users on distinct positions,
    whose amounts are safe integers, and whose [totalAmount] is the sum of
    what the members contributed. *)
Definition TontineOk (t : Tontine.t) : Prop :=
  NoDup (map m_userId (Tontine.members t)) /\
  NoDup (map position (Tontine.members t)) /\
  Forall (fun m => isSafeInteger (contributed m)) (Tontine.members t) /\
  isSafeInteger (Tontine.totalAmount t) /\
  Tontine.totalAmount t == contributions (Tontine.members t).

(** The position a join request asks for: [position ? Number(position)
    : members.length + 1]. *)
Definition requestedPosition (requested : option nat) (members : list Member) : nat :=
  match requested with
  | Some (S p) => S p
  | _ => (List.length members + 1)%nat
  end.

(** The number of used positions at or above [start]. *)
Definition usedFrom (start : nat) (used : list nat) : nat :=
  List.length (filter (fun u => (start <=? u)%nat) used).

(* ------------------------------------------------------------------ *)
(** ** Identifiers come from the counter *)

(** The budgets have distinct [_id]s, all below the counter the next
    [_id] comes from. *)
Definition wellIdentified (d : Db) : Prop :=
  NoDup (ids (Budgets d)) /\
  Forall (fun b => (Budget._id b < nextId d)%nat) (Budgets d).

(* ------------------------------------------------------------------ *)
(** ** Registration *)

(** The three amounts of the default budgets. *)
Definition monthlyAmountOf (primaryIncomeAmount : Q) : Q := or_num primaryIncomeAmount 125000.

Definition weeklyAmountOf (primaryIncomeAmount : Q) : Q :=
  inject_Z (Math_round (monthlyAmountOf primaryIncomeAmount / 4)).

Definition dailyAmountOf (primaryIncomeAmount : Q) : Q :=
  inject_Z (Math_round (weeklyAmountOf primaryIncomeAmount / 5)).

(** The default budgets as registration leaves them, with the
    identifiers taken from [id] on. *)
Definition defaultBudgets (id userId : ObjectId) (primaryIncomeAmount : Q)
  : list Budget.t :=
  let m := monthlyAmountOf primaryIncomeAmount in
  let w := weeklyAmountOf primaryIncomeAmount in
  let dl := dailyAmountOf primaryIncomeAmount in
  [Budget.mk id userId "Salaire Principal" None m monthly true m (m - w);
   Budget.mk (S id) userId "ARGENT PAR SEMAINE" None w weekly false w (w - dl);
   Budget.mk (S (S id)) userId "ARGENT PAR jour" None dl daily false dl dl].

(** The user owns no budget and no transaction yet. *)
Definition newUser (userId : ObjectId) (d : Db) : Prop :=
  Forall (fun b => Budget.userId b <> userId) (Budgets d) /\
  Forall (fun t => Transaction.userId t <> userId) (Transactions d).


(** The sum of the [currentAmount]s of a list of budgets. *)
Definition balance (l : list Budget.t) : Q :=
  fold_right (fun b s => Budget.currentAmount b + s) 0 l.

(* ------------------------------------------------------------------ *)
(** ** Properties every operation keeps *)

(** [I] holds of the database and the waiting requests keep it. *)
Definition Stable (I : Db -> Prop) (w : World) : Prop :=
  I (db w) /\ Forall (fun g => forall d, I d -> I (g d)) (sched w).

(** [m] keeps [I]. *)
Definition keeps {A : Type} (I : Db -> Prop) (m : M A) : Prop :=
  forall w, Stable I w -> Stable I (snd (m w)).

(** [I] is kept by the writes of the ledger: a new identifier, a saved
    transaction or journal entry, the Day upsert, a write to the
    objectives or the tontines, and an update of a [currentAmount]. *)
Record Closed (I : Db -> Prop) : Prop := mkClosed
  { closed_take_id : forall d, I d -> I (take_id d);
    closed_save_Transaction : forall t d, I d -> I (save_Transaction t d);
    closed_save_JournalEntry : forall j d, I d -> I (save_JournalEntry j d);
    closed_upsertDay : forall u dt i b g e f d,
        I d -> I (with_Days (upsertDay u dt i b g e f) d);
    closed_Objectives : forall f d, I d -> I (with_Objectives f d);
    closed_Tontines : forall f d, I d -> I (with_Tontines f d);
    closed_set_currentAmount : forall p v d,
        I d -> I (with_Budgets (updateOne p (Budget.set_currentAmount v)) d);
    closed_inc_currentAmount : forall p v d,
        I d -> I (with_Budgets (updateOne p (Budget.inc_currentAmount v)) d) }.

(** What identifies a budget and what it started with: every field but
    the name, the amount and the current amount. *)
Definition identity (b : Budget.t)
  : ObjectId * ObjectId * option string * Frequency * bool * Q :=
  (Budget._id b, Budget.userId b, Budget.clientId b, Budget.frequency b,
   Budget.isPrimary b, Budget.initialAmount b).

(** The budgets of [d] are those of [l0], in order and with the identity
    they had, followed by budgets created since. *)
Definition budgetsGrowFrom (l0 : list Budget.t) (d : Db) : Prop :=
  exists created, map identity (Budgets d) = map identity l0 ++ created.

(** The transactions and the journal of [d] are those of [d0] followed by
    what was appended since. *)
Definition ledgerGrowsFrom (d0 d : Db) : Prop :=
  (exists appended, Transactions d = Transactions d0 ++ appended) /\
  (exists appended, JournalEntries d = JournalEntries d0 ++ appended).

(** The Transaction and the JournalEntry collections of [d'] are those of
    [d]. *)
Definition sameLedger (d d' : Db) : Prop :=
  Transactions d' = Transactions d /\ JournalEntries d' = JournalEntries d.

(** A refusal: a status of 400 or above. *)
Definition refused (r : Response) : Prop := (400 <= status r)%nat.

(** [m] writes no record: started while the waiting requests write none,
    it leaves the ledger as it was, and such requests waiting. *)
Definition quiet {A : Type} (m : M A) : Prop :=
  forall w, Forall keeps_ledger (sched w) ->
            sameLedger (db w) (db (snd (m w))) /\
            Forall keeps_ledger (sched (snd (m w))).

(** [m] never refuses. *)
Definition accepts (m : M Response) : Prop := forall w, ~ refused (fst (m w)).

(** The body of a multi-document transaction commits no refusal. *)
Definition commitsNoRefusal (m : M (Outcome Response)) : Prop :=
  forall w, match fst (m w) with
            | Commit r => ~ refused r
            | Abort _ => True
            end.

(** When [m] refuses, started while the waiting requests write no record,
    the ledger is as it was. *)
Definition refusesCleanly (m : M Response) : Prop :=
  forall w, Forall keeps_ledger (sched w) -> refused (fst (m w)) ->
            sameLedger (db w) (db (snd (m w))).

(* ------------------------------------------------------------------ *)
(** ** Creating and editing budgets *)

(** The document POST /api/budgets builds for a request. *)
Definition budgetOf (req : BudgetRequest) (id : ObjectId) : Budget.t :=
  Budget.mk id (br_userId req) (br_name req) (or_null (br_clientId req)) (br_amount req)
    (br_frequency req) (br_isPrimary req) (br_amount req) (br_amount req).

(** The request asks for a weekly budget that is not the primary one:
    the case in which the amount is taken from the primary budget. *)
Definition allocatesFromPrimary (req : BudgetRequest) : bool :=
  negb (br_isPrimary req) && Frequency_eqb (br_frequency req) weekly.

(** [Budget.findOne({ userId, isPrimary: true })] *)
Definition isPrimaryOf (u : ObjectId) (b : Budget.t) : bool :=
  Nat.eqb (Budget.userId b) u && Budget.isPrimary b.

(** [Budget.findOne({ clientId, userId })] *)
Definition isClientBudget (c : string) (u : ObjectId) (b : Budget.t) : bool :=
  option_string_eqb (Budget.clientId b) (Some c) && Nat.eqb (Budget.userId b) u.

(** The collections of two databases are the same. *)
Definition sameCollections (d d' : Db) : Prop :=
  Budgets d' = Budgets d /\ Transactions d' = Transactions d /\
  Days d' = Days d /\ JournalEntries d' = JournalEntries d /\
  Objectives d' = Objectives d /\ Tontines d' = Tontines d /\
  Users d' = Users d.


(** Each user has at most one primary budget, and primary budgets are
    monthly. *)
Definition primariesOk (d : Db) : Prop :=
  NoDup (map Budget.userId (filter Budget.isPrimary (Budgets d))) /\
  Forall (fun b => Budget.isPrimary b = true -> Budget.frequency b = monthly) (Budgets d).

(** The budgets of [d] are those of [l0] with the identity they had, and
    the counter is at [n0] or beyond. *)
Definition sameBudgetsAs (l0 : list Budget.t) (n0 : nat) (d : Db) : Prop :=
  map identity (Budgets d) = map identity l0 /\ (n0 <= nextId d)%nat.

(* ------------------------------------------------------------------ *)
(** ** Day records *)

(** The (user, date) keys of the Day records. *)
Definition dayKeys (d : Db) : list (ObjectId * string) :=
  map (fun x => (Day.userId x, Day.date x)) (Days d).

(** At most one Day record per user and date. *)
Definition oneDayPerDate (d : Db) : Prop := NoDup (dayKeys d).

(** The record GET /api/days creates for a user who has none for the
    date. *)
Definition newDay (u : ObjectId) (currentDate : string) (d : Db) : Day.t :=
  let initialPocket :=
    match lastDayOf u (Days d) with Some l => Day.finalPocket l | None => 0 end in
  Day.mk u currentDate initialPocket (availableFigure u currentDate d) 0 0
    initialPocket false.

(* ------------------------------------------------------------------ *)
(** ** Allocations to an objective *)

(** [Objective.findById(id)] *)
Definition isObjective (id : ObjectId) (o : Objective.t) : bool :=
  Nat.eqb (Objective._id o) id.

(** The budgets an allocation charges besides its own: the user's weekly
    and primary monthly budgets for a daily budget, the primary monthly
    budget for a weekly one. *)
Definition allocationParents (u : ObjectId) (budget : Budget.t) (bs : list Budget.t)
  : list Budget.t :=
  match Budget.frequency budget with
  | daily =>
      match find (isWeeklyOf u) bs with Some w => [w] | None => [] end
      ++ match find (isPrimaryMonthlyOf u) bs with Some p => [p] | None => [] end
  | weekly => match find (isPrimaryMonthlyOf u) bs with Some p => [p] | None => [] end
  | monthly => []
  end.

(** The Transaction document an allocation builds on database [d]. *)
Definition allocationOf (obj : Objective.t) (req : AllocateRequest)
    (currentDate currentTime : string) (d : Db) : Transaction.t :=
  Transaction.mk (nextId d) (al_userId req) (Some (al_budgetId req)) expense
    (al_amount req) (allocationComment obj) currentDate currentTime.



(* ------------------------------------------------------------------ *)
(** * Properties *)

(** ** Small facts on numbers and collections *)

Lemma Qltb_true (x y : Q) : Qltb x y = true <-> x < y.
Proof.
  unfold Qltb. rewrite negb_true_iff. split; intro H.
  - apply Qnot_le_lt. intro L. apply Qle_bool_iff in L. congruence.
  - destruct (Qle_bool y x) eqn:E; [|reflexivity].
    apply Qle_bool_iff in E. exfalso. apply (Qlt_not_le _ _ H E).
Qed.

Lemma Qltb_false (x y : Q) : Qltb x y = false <-> y <= x.
Proof.
  unfold Qltb. rewrite negb_false_iff. apply Qle_bool_iff.
Qed.

Lemma Qle_bool_false (x y : Q) : Qle_bool x y = false <-> y < x.
Proof.
  rewrite <- Qltb_true. unfold Qltb. now rewrite negb_true_iff.
Qed.

Lemma Math_max_ge_l (a b : Q) : a <= Math_max a b.
Proof.
  unfold Math_max. destruct (Qle_bool a b) eqn:E.
  - now apply Qle_bool_iff.
  - apply Qle_refl.
Qed.

Lemma updateOne_Forall {A : Type} (P : A -> Prop) (p : A -> bool) (f : A -> A) l :
  (forall x, p x = true -> P x -> P (f x)) ->
  Forall P l -> Forall P (updateOne p f l).
Proof.
  intros Hf H. induction H as [|x r Hx Hr IH]; simpl; [constructor|].
  destruct (p x) eqn:E; constructor; auto.
Qed.

Lemma find_updateOne_same {A : Type} (p : A -> bool) (f : A -> A) l x :
  find p l = Some x -> p (f x) = true -> find p (updateOne p f l) = Some (f x).
Proof.
  induction l as [|y r IH]; simpl; [discriminate|].
  destruct (p y) eqn:E; intros H Hp.
  - injection H as ->. simpl. now rewrite Hp.
  - simpl. rewrite E. auto.
Qed.

Lemma find_updateOne_none {A : Type} (p q : A -> bool) (f : A -> A) l :
  (forall x, q (f x) = q x) -> find q l = None -> find q (updateOne p f l) = None.
Proof.
  intros Hq. induction l as [|x r IH]; simpl; [reflexivity|].
  destruct (q x) eqn:E; [discriminate|]. intros H.
  destruct (p x); simpl; [now rewrite Hq, E|now rewrite E, IH].
Qed.

Lemma find_updateOne_other {A : Type} (p q : A -> bool) (f : A -> A) l :
  (forall x, q (f x) = q x) ->
  (forall x, p x = true -> q x = false) ->
  find q (updateOne p f l) = find q l.
Proof.
  intros Hq Hpq. induction l as [|y r IH]; simpl; [reflexivity|].
  destruct (p y) eqn:E; simpl.
  - rewrite Hq. now rewrite (Hpq _ E).
  - now rewrite IH.
Qed.

(** A request the validation lets through. *)
Lemma transactionValidationSchema_spec req :
  transactionValidationSchema req = true <->
  0 < tr_amount req /\ tr_amount req <= MAX_SAFE_INTEGER /\
  tr_comment req <> ""%string /\ (String.length (tr_comment req) <= 500)%nat.
Proof.
  unfold transactionValidationSchema.
  rewrite !andb_true_iff, Qltb_true, Qle_bool_iff, negb_true_iff, Nat.leb_le.
  rewrite String.eqb_neq. tauto.
Qed.

Lemma transactionValidationSchema_amount req :
  transactionValidationSchema req = true -> 0 < tr_amount req.
Proof. intros H. apply transactionValidationSchema_spec in H. tauto. Qed.

(* ------------------------------------------------------------------ *)
(** ** No budget is ever seen below zero *)

Lemma preserves_ret {A : Type} (a : A) : preserves (ret a).
Proof. intros w H. exact H. Qed.

Lemma preserves_bind {A B : Type} (m : M A) (k : A -> M B) :
  preserves m -> (forall a, preserves (k a)) -> preserves (bind m k).
Proof.
  intros Hm Hk w H. unfold bind. specialize (Hm w H).
  destruct (m w) as [a w']. apply Hk. exact Hm.
Qed.

Lemma preserves_read {A : Type} (f : Db -> A) : preserves (read f).
Proof. intros w H. exact H. Qed.

Lemma preserves_write (f : Db -> Db) :
  (forall d, nonneg d -> nonneg (f d)) -> preserves (write f).
Proof.
  intros Hf w (Hd & Ht & Hs). unfold write, Safe. simpl.
  repeat split; auto.
Qed.

Lemma preserves_yield : preserves yield.
Proof.
  intros w (Hd & Ht & Hs). unfold yield.
  destruct (sched w) as [|g rest] eqn:E; simpl.
  - unfold Safe. rewrite E. auto.
  - inversion Hs; subst. unfold Safe. simpl. repeat split; auto.
Qed.

Lemma preserves_newId : preserves newId.
Proof. intros w (Hd & Ht & Hs). unfold newId, Safe. simpl. auto. Qed.

Lemma preserves_atomically {A : Type} (m : M (Outcome A)) :
  preserves m -> preserves (atomically m).
Proof.
  intros Hm w (Hd & Ht & Hs). unfold atomically.
  assert (S0 : Safe (mkWorld (db w) [] [])) by (unfold Safe; simpl; auto).
  specialize (Hm _ S0). destruct (m (mkWorld (db w) [] [])) as [o w'].
  destruct Hm as (Hd' & _ & _). simpl in Hd'.
  destruct o; unfold Safe; simpl; auto.
Qed.

Lemma nonneg_with_Budgets f d :
  (forall l, Forall (fun b => 0 <= Budget.currentAmount b) l ->
             Forall (fun b => 0 <= Budget.currentAmount b) (f l)) ->
  nonneg d -> nonneg (with_Budgets f d).
Proof. intros Hf H. apply Hf. exact H. Qed.

Lemma nonneg_set_current id v d :
  0 <= v -> nonneg d ->
  nonneg (with_Budgets (updateOne (byId id) (Budget.set_currentAmount v)) d).
Proof.
  intros Hv. apply nonneg_with_Budgets. intros l.
  apply updateOne_Forall. intros x _ _. exact Hv.
Qed.

Lemma nonneg_increment id a d :
  0 <= a -> nonneg d ->
  nonneg (with_Budgets (updateOne (byId id) (Budget.inc_currentAmount a)) d).
Proof.
  intros Ha. apply nonneg_with_Budgets. intros l.
  apply updateOne_Forall. intros x _ Hx. simpl. lra.
Qed.

Lemma nonneg_save_Budget b d :
  0 <= Budget.currentAmount b -> nonneg d -> nonneg (save_Budget b d).
Proof.
  intros Hb H. unfold nonneg, save_Budget, with_Budgets. simpl.
  apply Forall_app. split; [exact H|]. constructor; auto.
Qed.

Ltac pres_step :=
  match goal with
  | |- preserves (bind _ _) => apply preserves_bind; [|intros]
  | |- preserves (ret _) => apply preserves_ret
  | |- preserves (read _) => apply preserves_read
  | |- preserves yield => apply preserves_yield
  | |- preserves newId => apply preserves_newId
  | |- preserves (atomically _) => apply preserves_atomically
  | |- preserves (write (save_Transaction _)) => apply preserves_write; intros ? H; exact H
  | |- preserves (write (save_JournalEntry _)) => apply preserves_write; intros ? H; exact H
  | |- preserves (write (with_Days _)) => apply preserves_write; intros ? H; exact H
  | |- preserves (write (save_Day _)) => apply preserves_write; intros ? H; exact H
  | |- preserves (write (with_Objectives _)) => apply preserves_write; intros ? H; exact H
  | |- preserves (write (with_Tontines _)) => apply preserves_write; intros ? H; exact H
  | |- preserves (match ?x with _ => _ end) => destruct x eqn:?
  end.

Lemma preserves_calculateBudgetsAvailable u currentDate :
  preserves (calculateBudgetsAvailable u currentDate).
Proof.
  unfold calculateBudgetsAvailable. repeat pres_step.
  apply preserves_write. intros d. apply nonneg_set_current.
  unfold availableOf. apply Math_max_ge_l.
Qed.

Lemma preserves_updateDayTotals u currentDate :
  preserves (updateDayTotals u currentDate).
Proof.
  unfold updateDayTotals. repeat pres_step.
  apply preserves_calculateBudgetsAvailable.
Qed.

Lemma preserves_getDay u currentDate : preserves (getDay u currentDate).
Proof.
  unfold getDay. repeat pres_step.
  apply preserves_calculateBudgetsAvailable.
Qed.

Lemma preserves_cascadeSet u b : preserves (cascadeSet u b).
Proof. unfold cascadeSet. repeat pres_step. Qed.

Lemma preserves_allocationSet u b : preserves (allocationSet u b).
Proof. unfold allocationSet. repeat pres_step. Qed.

Lemma checkAvailability_after amount toUpdate :
  forall acc affected,
    checkAvailability amount toUpdate acc = inr affected ->
    Forall (fun a => 0 <= after a) acc ->
    Forall (fun a => 0 <= after a) affected.
Proof.
  induction toUpdate as [|b rest IH]; simpl; intros acc affected H Hacc.
  - now injection H as <-.
  - destruct (Qltb (Budget.currentAmount b - amount) 0) eqn:E; [discriminate|].
    apply (IH _ _ H). apply Forall_app. split; [exact Hacc|].
    constructor; [|constructor]. simpl. now apply Qltb_false.
Qed.

Lemma preserves_applyAfter affected :
  Forall (fun a => 0 <= after a) affected -> preserves (applyAfter affected).
Proof.
  induction 1 as [|a rest Ha _ IH]; simpl; repeat pres_step; auto.
  apply preserves_write. intros d. now apply nonneg_set_current.
Qed.

Lemma preserves_conditionalDecrement id amount :
  preserves (conditionalDecrement id amount).
Proof.
  unfold conditionalDecrement. repeat pres_step.
  apply preserves_write. intros d. apply nonneg_with_Budgets. intros l.
  apply updateOne_Forall. intros x Hx _. simpl.
  apply andb_true_iff in Hx. destruct Hx as [_ Hx].
  apply Qle_bool_iff in Hx. lra.
Qed.

Lemma preserves_applyConditional amount affected :
  forall updated, preserves (applyConditional amount affected updated).
Proof.
  induction affected as [|a rest IH]; simpl; intros updated; repeat pres_step; auto.
  apply preserves_conditionalDecrement.
Qed.

Lemma preserves_revertUpdated amount updated :
  0 <= amount -> preserves (revertUpdated amount updated).
Proof.
  intros Ha. induction updated as [|bid rest IH]; simpl; repeat pres_step; auto.
  apply preserves_write. intros d. now apply nonneg_increment.
Qed.

Lemma preserves_postTransaction ts currentDate currentTime req :
  preserves (postTransaction ts currentDate currentTime req).
Proof.
  unfold postTransaction.
  destruct (transactionValidationSchema req) eqn:Ev; cbn [negb]; [|apply preserves_ret].
  pose proof (transactionValidationSchema_amount req Ev) as Epos.
  assert (Hamount : 0 <= tr_amount req) by lra.
  repeat pres_step;
    unfold postTransaction_transactional, postTransaction_fallback, newTransaction;
    repeat pres_step;
    try apply preserves_updateDayTotals;
    try apply preserves_cascadeSet;
    try apply preserves_applyConditional;
    try (apply preserves_revertUpdated; exact Hamount);
    try (apply preserves_applyAfter;
         eapply checkAvailability_after; [eassumption|constructor]).
Qed.

Lemma preserves_postBudget ts req : preserves (postBudget ts req).
Proof.
  unfold postBudget.
  destruct (String.eqb (br_name req) ""); [apply preserves_ret|].
  destruct (negb (Qltb 0 (br_amount req))) eqn:Epos; [apply preserves_ret|].
  apply negb_false_iff, Qltb_true in Epos.
  repeat pres_step;
    try apply preserves_conditionalDecrement;
    try (apply preserves_write; intros d; apply nonneg_save_Budget; simpl; lra).
  all: apply preserves_write; intros d; apply nonneg_set_current.
  all: match goal with H : Qltb _ 0 = false |- _ => apply Qltb_false in H; exact H end.
Qed.

Lemma preserves_putBudget id req : preserves (putBudget id req).
Proof.
  unfold putBudget. repeat pres_step;
    apply preserves_write; intros d; apply nonneg_with_Budgets; intros l;
    apply updateOne_Forall; intros x _ Hx; simpl;
    destruct (be_name req) as [n|]; try destruct (String.eqb n ""); exact Hx.
Qed.

Lemma preserves_postAllocate ts currentDate currentTime id req :
  preserves (postAllocate ts currentDate currentTime id req).
Proof.
  unfold postAllocate.
  destruct (Qeq_bool (al_amount req) 0); [apply preserves_ret|].
  destruct (Qle_bool (al_amount req) 0) eqn:Epos; [apply preserves_ret|].
  apply Qle_bool_false in Epos.
  assert (Hamount : 0 <= al_amount req) by lra.
  repeat pres_step;
    try apply preserves_updateDayTotals;
    try apply preserves_allocationSet;
    try apply preserves_applyConditional;
    try (apply preserves_revertUpdated; exact Hamount);
    try (apply preserves_applyAfter;
         eapply checkAvailability_after; [eassumption|constructor]).
Qed.

Lemma preserves_postContribute currentDate currentTime id req :
  preserves (postContribute currentDate currentTime id req).
Proof.
  unfold postContribute. repeat pres_step; apply preserves_updateDayTotals.
Qed.

Lemma preserves_handle ts currentDate currentTime r :
  preserves (handle ts currentDate currentTime r).
Proof.
  destruct r; simpl.
  - apply preserves_postTransaction.
  - apply preserves_postBudget.
  - apply preserves_putBudget.
  - apply preserves_postAllocate.
  - apply preserves_postContribute.
  - repeat pres_step. apply preserves_getDay.
  - repeat pres_step. apply preserves_calculateBudgetsAvailable.
Qed.

(** C1.  Every exposed operation, in transactional and in fallback mode,
    accepted or rejected, started on a database whose budgets all have
    [currentAmount >= 0] and interleaved with requests that keep it so,
    ends on such a database, and every state it lets another client read
    on the way is such a database too. *)
Theorem C1_currentAmount_never_negative :
  forall (TRANSACTIONS_SUPPORTED : bool) (currentDate currentTime : string)
         (r : Request) (w : World),
    Safe w ->
    let w' := snd (handle TRANSACTIONS_SUPPORTED currentDate currentTime r w) in
    nonneg (db w') /\ Forall nonneg (trace w').
Proof.
  intros ts currentDate currentTime r w H.
  destruct (preserves_handle ts currentDate currentTime r w H) as (Hd & Ht & _).
  split; assumption.
Qed.

Lemma nonneg_sample bs :
  forallb (fun b => Qle_bool 0 (Budget.currentAmount b)) bs = true ->
  nonneg (sampleDb bs).
Proof.
  intros H. apply Forall_forall. intros b Hb.
  rewrite forallb_forall in H. apply Qle_bool_iff. now apply H.
Qed.

Lemma rival_spends_weekly_safe d : nonneg d -> nonneg (rival_spends_weekly d).
Proof.
  apply nonneg_with_Budgets. intros l. apply updateOne_Forall.
  intros x Hx _. apply andb_true_iff in Hx. destruct Hx as [_ Hx].
  apply Qle_bool_iff in Hx. simpl. lra.
Qed.

(** C1 at work: a fallback expense of 1500 on the daily budget while a
    rival request empties the weekly one. *)
Lemma C1_witness :
  let w := mkWorld db_in_step [rival_spends_weekly] [] in
  let w' := snd (handle false today "10:00"
                   (POST_transactions (mkTransactionRequest 7 expense 1500 "marche" 3)) w) in
  Safe w /\ nonneg (db w') /\ Forall nonneg (trace w').
Proof.
  assert (S : Safe (mkWorld db_in_step [rival_spends_weekly] [])).
  { repeat split; simpl.
    - apply nonneg_sample. reflexivity.
    - constructor.
    - constructor; [exact rival_spends_weekly_safe|constructor]. }
  split; [exact S|].
  exact (C1_currentAmount_never_negative false today "10:00"
           (POST_transactions (mkTransactionRequest 7 expense 1500 "marche" 3)) _ S).
Defined.

(* ------------------------------------------------------------------ *)
(** ** What the reconciler and the Day rollup do to the database *)

Lemma effect_calculateBudgetsAvailable u currentDate :
  effect (calculateBudgetsAvailable u currentDate)
         (availableFigure u currentDate) (reconciled u currentDate).
Proof.
  intros w. unfold calculateBudgetsAvailable, availableFigure, reconciled,
    availableFigure, bind, read, write, ret. simpl.
  destruct (find (isPrimaryMonthlyOf u) (Budgets (db w))) as [p|]; simpl; [|auto].
  destruct (Qltb (1 # 100) _); simpl; auto.
Qed.

Lemma Transactions_reconciled u currentDate d :
  Transactions (reconciled u currentDate d) = Transactions d.
Proof.
  unfold reconciled. destruct (find _ _); [|reflexivity].
  destruct (Qltb _ _); reflexivity.
Qed.

Lemma Days_reconciled u currentDate d :
  Days (reconciled u currentDate d) = Days d.
Proof.
  unfold reconciled. destruct (find _ _); [|reflexivity].
  destruct (Qltb _ _); reflexivity.
Qed.

Lemma effect_updateDayTotals u currentDate :
  effect (updateDayTotals u currentDate) (fun _ => tt) (rolledUp u currentDate).
Proof.
  intros w. cbv [updateDayTotals rolledUp bind read write].
  pose proof (effect_calculateBudgetsAvailable u currentDate w) as (E1 & E2 & E3).
  destruct (calculateBudgetsAvailable u currentDate w) as [a w'].
  simpl in E1, E2, E3. subst a. simpl. rewrite E2, E3. auto.
Qed.

(* ------------------------------------------------------------------ *)
(** ** Identifiers are unique: what an update by [_id] leaves alone *)

Lemma ids_updateOne (p : Budget.t -> bool) (f : Budget.t -> Budget.t) l :
  (forall x, Budget._id (f x) = Budget._id x) -> ids (updateOne p f l) = ids l.
Proof.
  intros Hf. induction l as [|x r IH]; simpl; [reflexivity|].
  destruct (p x); simpl; [now rewrite Hf|now rewrite IH].
Qed.

Lemma find_In {A : Type} (p : A -> bool) l x : find p l = Some x -> In x l /\ p x = true.
Proof. intros H. apply find_some in H. exact H. Qed.

Lemma unique_by_id l x y :
  NoDup (ids l) -> In x l -> In y l -> Budget._id x = Budget._id y -> x = y.
Proof.
  induction l as [|z r IH]; simpl; intros Hn Hx Hy E; [contradiction|].
  inversion Hn as [|? ? Hz Hr]; subst.
  destruct Hx as [->|Hx], Hy as [->|Hy]; auto.
  - exfalso. apply Hz. rewrite E. now apply in_map.
  - exfalso. apply Hz. rewrite <- E. now apply in_map.
Qed.

Lemma findById_of_In l b : NoDup (ids l) -> In b l -> findById (Budget._id b) l = Some b.
Proof.
  intros Hn Hb. unfold findById.
  destruct (find (byId (Budget._id b)) l) as [x|] eqn:E.
  - apply find_In in E. destruct E as [Hx Hi]. apply Nat.eqb_eq in Hi.
    f_equal. eapply unique_by_id; eauto.
  - exfalso. apply (find_none _ _ E) in Hb. unfold byId in Hb.
    now rewrite Nat.eqb_refl in Hb.
Qed.

Lemma findById_updateOne_other i j (f : Budget.t -> Budget.t) l :
  (forall x, Budget._id (f x) = Budget._id x) -> i <> j ->
  findById i (updateOne (byId j) f l) = findById i l.
Proof.
  intros Hf Hij. apply find_updateOne_other.
  - intros x. unfold byId. now rewrite Hf.
  - intros x Hx. unfold byId in *. apply Nat.eqb_eq in Hx. apply Nat.eqb_neq. congruence.
Qed.

Lemma findById_updateOne_same j (f : Budget.t -> Budget.t) l b :
  (forall x, Budget._id (f x) = Budget._id x) ->
  findById j l = Some b -> findById j (updateOne (byId j) f l) = Some (f b).
Proof.
  intros Hf H. apply find_updateOne_same; [exact H|].
  apply find_In in H. destruct H as [_ H]. unfold byId in *. now rewrite Hf.
Qed.

Lemma id_set_currentAmount v x : Budget._id (Budget.set_currentAmount v x) = Budget._id x.
Proof. reflexivity. Qed.


(** An update of the document found by a query, addressed by its [_id],
    lands on that document. *)
Lemma find_updateOne_byId (q : Budget.t -> bool) (f : Budget.t -> Budget.t) l p :
  NoDup (ids l) -> find q l = Some p ->
  (forall x, Budget._id (f x) = Budget._id x) -> q (f p) = true ->
  (forall x, x <> p -> q (f x) = q x) ->
  find q (updateOne (byId (Budget._id p)) f l) = Some (f p).
Proof.
  intros Hn Hq Hf Hqf Hother.
  induction l as [|x r IH]; simpl in *; [discriminate|].
  inversion Hn as [|? ? Hx Hr]; subst.
  destruct (q x) eqn:Eq.
  - injection Hq as ->. unfold byId at 1. rewrite Nat.eqb_refl. simpl. now rewrite Hqf.
  - assert (Hp : In p r) by (apply find_In in Hq; tauto).
    destruct (byId (Budget._id p) x) eqn:Eb.
    + exfalso. apply Hx. unfold byId in Eb. apply Nat.eqb_eq in Eb. rewrite Eb.
      now apply in_map.
    + simpl. rewrite Eq. now apply IH.
Qed.

(* ------------------------------------------------------------------ *)
(** ** The availability reconciler (C7) *)





Lemma run_effect {A : Type} (m : M A) R F d : effect m R F -> run m d = (R d, F d).
Proof.
  intros H. unfold run. specialize (H (mkWorld d [] [])).
  destruct (m (mkWorld d [] [])) as [a w]. simpl in H.
  destruct H as (-> & -> & _). reflexivity.
Qed.




(* ------------------------------------------------------------------ *)
(** ** The hierarchy validator (C8) *)

Lemma validateBudgetHierarchy_caps bs u frequency amount :
  validateBudgetHierarchy bs u frequency amount = Valid
  <-> hierarchyCaps bs u frequency amount.
Proof.
  unfold validateBudgetHierarchy, hierarchyCaps.
  destruct (Qltb 0 amount) eqn:Epos; simpl.
  2:{ apply Qltb_false in Epos. split; [discriminate|].
      intros [H _]. exfalso. apply (Qlt_not_le _ _ H Epos). }
  apply Qltb_true in Epos.
  destruct frequency.
  - (* daily *)
    destruct (find (isPrimaryMonthlyOf u) bs) as [p|].
    + destruct (Qltb (_ / 28) amount) eqn:Em.
      * apply Qltb_true in Em. split; [discriminate|].
        intros (_ & _ & H & _). specialize (H eq_refl p eq_refl).
        exfalso. apply (Qlt_not_le _ _ Em H).
      * apply Qltb_false in Em.
        destruct (find (isWeeklyOf u) bs) as [w|].
        -- destruct (Qltb (_ / 7) amount) eqn:Ew.
           ++ apply Qltb_true in Ew. split; [discriminate|].
              intros (_ & _ & _ & H). specialize (H eq_refl w eq_refl).
              exfalso. apply (Qlt_not_le _ _ Ew H).
           ++ apply Qltb_false in Ew. split; [|reflexivity]. intros _.
              repeat split; try discriminate; try assumption; intros _ x [= <-]; assumption.
        -- split; [|reflexivity]. intros _.
           repeat split; try discriminate; try assumption; intros _ x [= <-]; assumption.
    + destruct (find (isWeeklyOf u) bs) as [w|].
      * destruct (Qltb (_ / 7) amount) eqn:Ew.
        -- apply Qltb_true in Ew. split; [discriminate|].
           intros (_ & _ & _ & H). specialize (H eq_refl w eq_refl).
           exfalso. apply (Qlt_not_le _ _ Ew H).
        -- apply Qltb_false in Ew. split; [|reflexivity]. intros _.
           repeat split; try discriminate; try assumption; intros _ x [= <-]; assumption.
      * split; [|reflexivity]. intros _. repeat split; try discriminate; assumption.
  - (* weekly *)
    destruct (find (isPrimaryMonthlyOf u) bs) as [p|].
    + destruct (Qltb (_ / 4) amount) eqn:Em.
      * apply Qltb_true in Em. split; [discriminate|].
        intros (_ & H & _). specialize (H eq_refl p eq_refl).
        exfalso. apply (Qlt_not_le _ _ Em H).
      * apply Qltb_false in Em. split; [|reflexivity]. intros _.
        repeat split; try discriminate; try assumption; intros _ x [= <-]; assumption.
    + split; [|reflexivity]. intros _. repeat split; try discriminate; assumption.
  - (* monthly *)
    split; [|reflexivity]. intros _. repeat split; try discriminate; assumption.
Qed.


(* ------------------------------------------------------------------ *)
(** ** Running a handler alone *)

Ltac mred_goal :=
  cbv [bind read ret write yield newId atomically negb];
  cbn [db sched trace fst snd].

Ltac mred H :=
  cbv [bind read ret write yield newId atomically negb] in H;
  cbn [db sched trace fst snd] in H.

(** Replace a running sub-computation by what its [effect] lemma says. *)
Ltac by_effect lem :=
  match goal with
  | |- context [?m ?w] =>
      match type of w with World => idtac end;
      let E := fresh "E" in
      pose proof (lem w) as E;
      let a := fresh "a" in let w' := fresh "w" in
      destruct (m w) as [a w'];
      cbn [fst snd db sched] in E;
      let E1 := fresh in let E2 := fresh in let E3 := fresh in
      destruct E as (E1 & E2 & E3);
      try subst a; destruct w' as [? ? ?]; cbn [db sched] in E2, E3; subst
  end.

Lemma unlocked_spec u currentDate d :
  unlocked u currentDate d ->
  match find (isDayOf u currentDate) (Days d) with
  | Some t => Day.locked t | None => false end = false.
Proof. intros H. destruct (find _ _) eqn:E; [now apply H|reflexivity]. Qed.

(** An accepted gain, in either mode: the transaction, the journal entry,
    then the Day rollup. *)
Lemma postTransaction_gain ts currentDate currentTime req d :
  tr_type req = gain -> transactionValidationSchema req = true ->
  unlocked (tr_userId req) currentDate d ->
  exists r,
    run (postTransaction ts currentDate currentTime req) d =
      (r, rolledUp (tr_userId req) currentDate
            (save_JournalEntry (gainEntry req)
               (save_Transaction (transactionOf req currentDate currentTime d) (take_id d))))
    /\ status r = 201%nat.
Proof.
  intros Ht Hv Hun. unfold run, postTransaction, transactionOf.
  rewrite Hv. mred_goal.
  rewrite (unlocked_spec _ _ _ Hun), Ht. cbv iota.
  destruct ts.
  - unfold postTransaction_transactional, newTransaction. rewrite Ht. mred_goal.
    by_effect (effect_updateDayTotals (tr_userId req) currentDate).
    cbn [db]. eexists. split; reflexivity.
  - unfold postTransaction_fallback, newTransaction. rewrite Ht. mred_goal.
    by_effect (effect_updateDayTotals (tr_userId req) currentDate).
    cbn [db]. eexists. split; reflexivity.
Qed.

(* ------------------------------------------------------------------ *)
(** ** What the Day rollup leaves alone *)

Lemma Budgets_rolledUp u currentDate d :
  Budgets (rolledUp u currentDate d) = Budgets (reconciled u currentDate d).
Proof. reflexivity. Qed.


(** The reconciler writes at most the primary monthly budget. *)
Lemma reconciled_frame u currentDate d i b :
  NoDup (ids (Budgets d)) ->
  findById i (Budgets d) = Some b -> isPrimaryMonthlyOf u b = false ->
  findById i (Budgets (reconciled u currentDate d)) = Some b.
Proof.
  intros Hn Hb Hnp. unfold reconciled.
  destruct (find (isPrimaryMonthlyOf u) (Budgets d)) as [p|] eqn:Ep; [|exact Hb].
  destruct (Qltb _ _); [|exact Hb]. simpl.
  rewrite findById_updateOne_other; auto.
  intros ->. apply find_In in Ep, Hb. destruct Ep as [Ip Ep], Hb as [Ib Eb].
  unfold byId in Eb. apply Nat.eqb_eq in Eb.
  assert (b = p) by (eapply unique_by_id; eauto). subst. congruence.
Qed.

(** It leaves the budgets as they are when there is no primary monthly
    budget or when the stored amount is within the tolerance. *)
Lemma reconciled_in_step u currentDate d :
  (forall p, find (isPrimaryMonthlyOf u) (Budgets d) = Some p ->
             Qabs (Budget.currentAmount p - availableFigure u currentDate d) <= 1 # 100) ->
  reconciled u currentDate d = d.
Proof.
  intros H. unfold reconciled.
  destruct (find (isPrimaryMonthlyOf u) (Budgets d)) as [p|]; [|reflexivity].
  specialize (H p eq_refl). apply Qltb_false in H. now rewrite H.
Qed.

(** The journal grows by at most the reconciler's own entry. *)
Lemma JournalEntries_reconciled u currentDate d :
  JournalEntries (reconciled u currentDate d) = JournalEntries d \/
  exists je, JournalEntries (reconciled u currentDate d) = JournalEntries d ++ [je]
             /\ JournalEntry.ruleApplied je = reconcile_rule.
Proof.
  unfold reconciled. destruct (find _ _) as [p|]; [|now left].
  destruct (Qltb _ _); [|now left].
  right. eexists. split; reflexivity.
Qed.

Lemma find_app_none {A : Type} (p : A -> bool) l x :
  find p l = None -> find p (l ++ [x]) = if p x then Some x else None.
Proof.
  induction l as [|y r IH]; simpl; [reflexivity|].
  destruct (p y); [discriminate|exact IH].
Qed.

(** After the upsert the Day record of the date carries the new figures. *)
Lemma find_upsertDay u dt i b g e f l :
  exists day, find (isDayOf u dt) (upsertDay u dt i b g e f l) = Some day /\
    Day.initialPocket day = i /\ Day.budgetsAvailable day = b /\
    Day.gains day = g /\ Day.expenses day = e /\ Day.finalPocket day = f.
Proof.
  unfold upsertDay. destruct (find (isDayOf u dt) l) as [x|] eqn:E.
  - eexists. split.
    + apply find_updateOne_same; [exact E|].
      apply find_In in E. destruct E as [_ E]. exact E.
    + simpl. auto.
  - eexists. split.
    + rewrite (find_app_none _ _ _ E). unfold isDayOf. simpl.
      now rewrite Nat.eqb_refl, String.eqb_refl.
    + simpl. auto.
Qed.









(* ------------------------------------------------------------------ *)
(** ** Gains (C6) *)




(* ------------------------------------------------------------------ *)
(** ** Tontine contributions (C10) *)


Lemma prefix_substring n s : String.prefix (String.substring 0 n s) s = true.
Proof.
  revert s. induction n as [|n IH]; intros [|c s]; simpl; try reflexivity.
  destruct (Ascii.ascii_dec c c); [apply IH|congruence].
Qed.







(* ------------------------------------------------------------------ *)
(** ** Expenses: the cascade *)

Lemma effect_cascadeSet u target :
  effect (cascadeSet u target)
    (fun d => target :: immediateParent u target (Budgets d)) (fun d => d).
Proof.
  intros w. unfold cascadeSet, immediateParent, bind, read, ret.
  destruct (Budget.frequency target); simpl; auto.
Qed.

Lemma checkAvailability_inr X set : forall acc,
  (forall b, In b set -> X <= Budget.currentAmount b) ->
  checkAvailability X set acc = inr (acc ++ map (charged X) set).
Proof.
  induction set as [|b rest IH]; simpl; intros acc H.
  - now rewrite app_nil_r.
  - assert (Hb : Qltb (Budget.currentAmount b - X) 0 = false).
    { apply Qltb_false. specialize (H b (or_introl eq_refl)). lra. }
    rewrite Hb, IH by auto. unfold charged. now rewrite <- app_assoc.
Qed.

Lemma checkAvailability_inl X set : forall acc n a,
  checkAvailability X set acc = inl (n, a) ->
  exists b, In b set /\ Budget.currentAmount b < X /\
            n = Budget.name b /\ a = Budget.currentAmount b - X.
Proof.
  induction set as [|b rest IH]; simpl; intros acc n a H; [discriminate|].
  destruct (Qltb (Budget.currentAmount b - X) 0) eqn:E.
  - injection H as <- <-. exists b. apply Qltb_true in E. repeat split; auto. lra.
  - destruct (IH _ _ _ H) as (b' & Hin & Hlt & Hn & Ha). exists b'. auto.
Qed.

Lemma effect_applyAfter X set :
  effect (applyAfter (map (charged X) set)) (fun _ => tt) (with_Budgets (cascaded X set)).
Proof.
  induction set as [|b rest IH]; intros w; simpl.
  - destruct w, db0. simpl. auto.
  - mred_goal. specialize (IH (mkWorld
        (with_Budgets (updateOne (byId (Budget._id b))
                         (Budget.set_currentAmount (Budget.currentAmount b - X))) (db w))
        (sched w)
        (with_Budgets (updateOne (byId (Budget._id b))
                         (Budget.set_currentAmount (Budget.currentAmount b - X))) (db w)
           :: trace w))).
    cbn [db sched] in IH. unfold charged at 1. cbn [a_budgetId after].
    destruct (applyAfter _ _) as [[] w']. cbn [fst snd] in *.
    destruct IH as (_ & -> & ->). auto.
Qed.

Lemma In_updateOne_other (p : Budget.t -> bool) (f : Budget.t -> Budget.t) l y :
  In y l -> p y = false -> In y (updateOne p f l).
Proof.
  induction l as [|x r IH]; simpl; intros Hy Hp; [contradiction|].
  destruct Hy as [->|Hy].
  - rewrite Hp. now left.
  - destruct (p x); simpl; auto.
Qed.

(** The conditional update of a document that has the funds is the
    update of that document by its [_id]. *)
Lemma updateOne_conditional id X (f g : Budget.t -> Budget.t) l b :
  findById id l = Some b -> X <= Budget.currentAmount b -> f b = g b ->
  find (fun b => byId id b && Qle_bool X (Budget.currentAmount b)) l = Some b /\
  updateOne (fun b => byId id b && Qle_bool X (Budget.currentAmount b)) f l
  = updateOne (byId id) g l.
Proof.
  intros Hb HX Hfg. unfold findById in Hb.
  induction l as [|x r IH]; simpl in *; [discriminate|].
  destruct (byId id x) eqn:E; simpl.
  - injection Hb as ->. apply Qle_bool_iff in HX. rewrite HX. now rewrite Hfg.
  - destruct (IH Hb) as [-> ->]. auto.
Qed.

(** Run alone, the loop of conditional updates charges every budget of a
    set of distinct documents that all have the funds. *)
Lemma applyConditional_alone X set : forall updated w,
  sched w = [] -> NoDup (ids (Budgets (db w))) -> NoDup (ids set) ->
  (forall b, In b set -> In b (Budgets (db w)) /\ X <= Budget.currentAmount b) ->
  let (r, w') := applyConditional X (map (charged X) set) updated w in
  r = (true, updated ++ ids set) /\
  db w' = with_Budgets (cascaded X set) (db w) /\ sched w' = [].
Proof.
  induction set as [|b rest IH]; intros updated w Hs Hn Hset Hin; simpl.
  - rewrite app_nil_r. destruct w, db0. simpl in *. auto.
  - change (a_budgetId (charged X b)) with (Budget._id b).
    unfold conditionalDecrement. mred_goal. rewrite Hs.
    destruct (Hin b (or_introl eq_refl)) as [Hb HX].
    destruct (updateOne_conditional (Budget._id b) X
                (Budget.inc_currentAmount (- X))
                (Budget.set_currentAmount (Budget.currentAmount b - X))
                (Budgets (db w)) b (findById_of_In _ _ Hn Hb) HX eq_refl) as [Ef Eu].
    rewrite Ef. cbn [db sched].
    inversion Hset as [|? ? Hnotin Hrest]; subst.
    match goal with |- context [applyConditional X _ ?u ?w1] =>
      specialize (IH u w1) end.
    cbn [db sched] in IH.
    destruct (applyConditional _ _ _ _) as [r w'].
    destruct IH as (Hr & Hd & Hsch); auto.
    + cbn [with_Budgets Budgets]. rewrite ids_updateOne; auto.
    + intros y Hy. destruct (Hin y (or_intror Hy)) as [Hyl HyX].
      split; [|exact HyX]. cbn [with_Budgets Budgets].
      apply In_updateOne_other; [exact Hyl|].
      apply andb_false_iff. left. unfold byId. apply Nat.eqb_neq.
      intros E. apply Hnotin. rewrite <- E. now apply in_map.
    + subst r. rewrite Hd, Hsch.
      split; [now rewrite <- app_assoc|]. split; [|reflexivity].
      unfold with_Budgets, cascaded.
      cbn [Budgets Transactions Days JournalEntries Objectives Tontines nextId fold_left].
      rewrite Eu. reflexivity.
Qed.

Lemma cascade_set_distinct u target l id :
  NoDup (ids l) -> findById id l = Some target ->
  NoDup (ids (target :: immediateParent u target l)) /\
  forall b, In b (target :: immediateParent u target l) -> In b l.
Proof.
  intros Hn Ht. apply find_In in Ht. destruct Ht as [It _].
  unfold immediateParent.
  destruct (Budget.frequency target) eqn:Ef.
  - destruct (find (isWeeklyOf u) l) as [w|] eqn:Ew.
    + apply find_In in Ew. destruct Ew as [Iw Ew]. split.
      * simpl. constructor; [|constructor; [intros []|constructor]].
        intros [E|[]]. assert (w = target) by (eapply unique_by_id; eauto). subst.
        unfold isWeeklyOf in Ew. rewrite Ef in Ew. now rewrite andb_false_r in Ew.
      * intros b [<-|[<-|[]]]; assumption.
    + split; [simpl; constructor; [intros []|constructor]|].
      intros b [<-|[]]; assumption.
  - destruct (find (isPrimaryMonthlyOf u) l) as [p|] eqn:Ep.
    + apply find_In in Ep. destruct Ep as [Ip Ep]. split.
      * simpl. constructor; [|constructor; [intros []|constructor]].
        intros [E|[]]. assert (p = target) by (eapply unique_by_id; eauto). subst.
        unfold isPrimaryMonthlyOf in Ep. rewrite Ef in Ep.
        now rewrite andb_false_r in Ep.
      * intros b [<-|[<-|[]]]; assumption.
    + split; [simpl; constructor; [intros []|constructor]|].
      intros b [<-|[]]; assumption.
  - split; [simpl; constructor; [intros []|constructor]|].
    intros b [<-|[]]; assumption.
Qed.

(** An expense the check refuses: the negative-balance rejection, and
    the database as it was. *)
Lemma postTransaction_expense_rejected ts currentDate currentTime req d target n a :
  tr_type req = expense -> transactionValidationSchema req = true ->
  unlocked (tr_userId req) currentDate d ->
  findById (tr_budgetId req) (Budgets d) = Some target ->
  checkAvailability (tr_amount req)
    (target :: immediateParent (tr_userId req) target (Budgets d)) [] = inl (n, a) ->
  run (postTransaction ts currentDate currentTime req) d
  = (mkResponse 400 (Operation_rejetee n a), d).
Proof.
  intros Ht Hv Hun Hb Hcheck. unfold run, postTransaction.
  rewrite Hv. mred_goal.
  rewrite (unlocked_spec _ _ _ Hun), Ht. mred_goal. rewrite Hb.
  destruct ts.
  - unfold postTransaction_transactional, newTransaction. rewrite Ht. mred_goal.
    cbn [save_Transaction take_id Budgets]. rewrite Hb.
    by_effect (effect_cascadeSet (tr_userId req) target).
    cbn [save_Transaction take_id Budgets]. rewrite Hcheck. reflexivity.
  - unfold postTransaction_fallback. rewrite Ht. mred_goal. rewrite Hb.
    by_effect (effect_cascadeSet (tr_userId req) target).
    rewrite Hcheck. reflexivity.
Qed.

(** An expense the check lets through, run alone: every budget of the
    cascade set is charged, the transaction and the journal entry are
    appended, the Day is rolled up. *)
Lemma postTransaction_expense_accepted ts currentDate currentTime req d target :
  tr_type req = expense -> transactionValidationSchema req = true ->
  unlocked (tr_userId req) currentDate d ->
  NoDup (ids (Budgets d)) ->
  findById (tr_budgetId req) (Budgets d) = Some target ->
  let X := tr_amount req in
  let set := target :: immediateParent (tr_userId req) target (Budgets d) in
  (forall b, In b set -> X <= Budget.currentAmount b) ->
  exists r mid rule,
    run (postTransaction ts currentDate currentTime req) d
    = (r, rolledUp (tr_userId req) currentDate mid) /\
    status r = 201%nat /\
    Budgets mid = cascaded X set (Budgets d) /\
    Transactions mid = Transactions d ++ [transactionOf req currentDate currentTime d] /\
    JournalEntries mid = JournalEntries d ++ [cascadeEntry rule req (map (charged X) set)] /\
    Days mid = Days d.
Proof.
  intros Ht Hv Hun Hn Hb X set Hfunds.
  destruct (cascade_set_distinct (tr_userId req) target (Budgets d) _ Hn Hb) as [Hdis Hin].
  fold set in Hdis, Hin.
  pose proof (checkAvailability_inr X set [] Hfunds) as Hcheck. cbn [app] in Hcheck.
  unfold run, postTransaction, transactionOf.
  rewrite Hv. mred_goal.
  rewrite (unlocked_spec _ _ _ Hun), Ht. mred_goal. rewrite Hb.
  destruct ts.
  - unfold postTransaction_transactional, newTransaction. rewrite Ht. mred_goal.
    cbn [save_Transaction take_id Budgets]. rewrite Hb.
    by_effect (effect_cascadeSet (tr_userId req) target).
    cbn [save_Transaction take_id Budgets]. fold set. fold X. rewrite Hcheck.
    mred_goal.
    by_effect (effect_applyAfter X set).
    by_effect (effect_updateDayTotals (tr_userId req) currentDate).
    cbn [db]. do 3 eexists. split; [reflexivity|]. repeat split.
  - unfold postTransaction_fallback, newTransaction. rewrite Ht. mred_goal. rewrite Hb.
    by_effect (effect_cascadeSet (tr_userId req) target).
    fold set. fold X. rewrite Hcheck.
    match goal with |- context [applyConditional X _ [] ?w] =>
      pose proof (applyConditional_alone X set [] w eq_refl Hn Hdis
                    (fun b Hb' => conj (Hin b Hb') (Hfunds b Hb'))) as Hloop;
      destruct (applyConditional X (map (charged X) set) [] w) as [[ok updated] w']
    end.
    destruct Hloop as (Hr & Hd & Hsch). injection Hr as -> ->.
    destruct w' as [d1 s1 t1]. cbn [db sched] in Hd, Hsch. subst d1 s1.
    mred_goal.
    by_effect (effect_updateDayTotals (tr_userId req) currentDate).
    cbn [db]. do 3 eexists. split; [reflexivity|]. repeat split.
Qed.

Lemma updateOne_absent (p : Budget.t -> bool) (f : Budget.t -> Budget.t) l :
  (forall x, In x l -> p x = false) -> updateOne p f l = l.
Proof.
  induction l as [|x r IH]; simpl; intros H; [reflexivity|].
  rewrite (H x (or_introl eq_refl)). f_equal. apply IH. auto.
Qed.

Lemma updateOne_byId_map j (f : Budget.t -> Budget.t) l :
  NoDup (ids l) ->
  updateOne (byId j) f l = map (fun x => if byId j x then f x else x) l.
Proof.
  induction l as [|x r IH]; simpl; intros Hn; [reflexivity|].
  inversion Hn as [|? ? Hx Hr]; subst.
  destruct (byId j x) eqn:E.
  - f_equal. unfold byId in E. apply Nat.eqb_eq in E. subst j.
    rewrite <- (map_id r) at 1. apply map_ext_in. intros y Hy.
    destruct (byId (Budget._id x) y) eqn:Ey; [|reflexivity].
    exfalso. apply Hx. unfold byId in Ey. apply Nat.eqb_eq in Ey. rewrite <- Ey.
    now apply in_map.
  - f_equal. now apply IH.
Qed.

Lemma cascaded_map X set : forall l,
  NoDup (ids l) -> NoDup (ids set) -> (forall s, In s set -> In s l) ->
  cascaded X set l = map (chargeIf X set) l.
Proof.
  induction set as [|s rest IH]; intros l Hn Hset Hin.
  - simpl. unfold chargeIf. simpl. now rewrite map_id.
  - inversion Hset as [|? ? Hs Hrest]; subst.
    change (cascaded X (s :: rest) l)
      with (cascaded X rest
              (updateOne (byId (Budget._id s))
                 (Budget.set_currentAmount (Budget.currentAmount s - X)) l)).
    set (l1 := updateOne (byId (Budget._id s)) _ l).
    assert (Hn1 : NoDup (ids l1)) by (unfold l1; rewrite ids_updateOne; auto).
    assert (Hin1 : forall r, In r rest -> In r l1).
    { intros r Hr. apply In_updateOne_other; [apply Hin; now right|].
      unfold byId. apply Nat.eqb_neq. intros E. apply Hs. rewrite <- E. now apply in_map. }
    rewrite (IH l1 Hn1 Hrest Hin1). unfold l1.
    rewrite updateOne_byId_map by exact Hn. rewrite map_map.
    apply map_ext_in. intros x Hx. unfold chargeIf. cbn [existsb].
    destruct (byId (Budget._id s) x) eqn:E.
    + assert (x = s).
      { unfold byId in E. apply Nat.eqb_eq in E.
        exact (unique_by_id l x s Hn Hx (Hin s (or_introl eq_refl)) E). }
      subst x. cbn [orb].
      replace (existsb _ rest) with false; [reflexivity|].
      symmetry. apply not_true_is_false. intros Hex.
      apply existsb_exists in Hex. destruct Hex as (r & Hr & Er).
      apply Hs. unfold byId in Er. cbn [Budget._id Budget.set_currentAmount] in Er.
      apply Nat.eqb_eq in Er. rewrite Er. now apply in_map.
    + cbn [orb]. reflexivity.
Qed.

Lemma find_map_invariant (q : Budget.t -> bool) (g : Budget.t -> Budget.t) l :
  (forall x, q (g x) = q x) -> find q (map g l) = option_map g (find q l).
Proof.
  intros H. induction l as [|x r IH]; simpl; [reflexivity|].
  rewrite H. destruct (q x); [reflexivity|exact IH].
Qed.

Lemma chargeIf_id X set b : Budget._id (chargeIf X set b) = Budget._id b.
Proof. unfold chargeIf. destruct (existsb _ _); reflexivity. Qed.

Lemma chargeIf_primary X set u b :
  isPrimaryMonthlyOf u (chargeIf X set b) = isPrimaryMonthlyOf u b.
Proof. unfold chargeIf. destruct (existsb _ _); reflexivity. Qed.

Lemma ids_map_chargeIf X set l : ids (map (chargeIf X set) l) = ids l.
Proof.
  unfold ids. rewrite map_map. apply map_ext. intros. apply chargeIf_id.
Qed.

Lemma checkAvailability_funds X set : forall acc affected,
  checkAvailability X set acc = inr affected ->
  forall b, In b set -> X <= Budget.currentAmount b.
Proof.
  induction set as [|s rest IH]; simpl; intros acc affected H b Hb; [contradiction|].
  destruct (Qltb (Budget.currentAmount s - X) 0) eqn:E; [discriminate|].
  destruct Hb as [<-|Hb].
  - apply Qltb_false in E. lra.
  - eapply IH; eauto.
Qed.

Lemma postTransaction_invalid ts currentDate currentTime req d :
  transactionValidationSchema req = false ->
  run (postTransaction ts currentDate currentTime req) d
  = (mkResponse 400 Erreur_de_validation, d).
Proof. intros H. unfold run, postTransaction. rewrite H. reflexivity. Qed.

Lemma postTransaction_locked ts currentDate currentTime req d t :
  transactionValidationSchema req = true ->
  find (isDayOf (tr_userId req) currentDate) (Days d) = Some t -> Day.locked t = true ->
  run (postTransaction ts currentDate currentTime req) d
  = (mkResponse 403 Jour_verrouille, d).
Proof.
  intros Hv Ht Hl. unfold run, postTransaction.
  rewrite Hv. mred_goal. rewrite Ht, Hl. reflexivity.
Qed.

(** An expense answered 201 passed every check. *)
Lemma expense_accepted_inv ts currentDate currentTime req d target :
  tr_type req = expense ->
  findById (tr_budgetId req) (Budgets d) = Some target ->
  status (fst (run (postTransaction ts currentDate currentTime req) d)) = 201%nat ->
  transactionValidationSchema req = true /\ unlocked (tr_userId req) currentDate d /\
  forall b, In b (target :: immediateParent (tr_userId req) target (Budgets d)) ->
            tr_amount req <= Budget.currentAmount b.
Proof.
  intros Ht Hb Hst.
  destruct (transactionValidationSchema req) eqn:Hpos.
  2:{ rewrite postTransaction_invalid in Hst by exact Hpos. discriminate Hst. }
  assert (Hun : unlocked (tr_userId req) currentDate d).
  { intros t Hday. destruct (Day.locked t) eqn:El; [|reflexivity].
    rewrite (postTransaction_locked ts currentDate currentTime req d t Hpos Hday El) in Hst.
    discriminate Hst. }
  split; [reflexivity|]. split; [exact Hun|].
  destruct (checkAvailability (tr_amount req)
              (target :: immediateParent (tr_userId req) target (Budgets d)) [])
    as [[n a]|affected] eqn:Hcheck.
  - rewrite (postTransaction_expense_rejected ts currentDate currentTime req d target n a
               Ht Hpos Hun Hb Hcheck) in Hst.
    discriminate Hst.
  - eapply checkAvailability_funds; eauto.
Qed.

(* ------------------------------------------------------------------ *)
(** ** The cascade set (C2) *)

(** C2, as stated, fails: after an accepted expense of 100 on the daily
    budget the monthly budget's [currentAmount] is 399 900, not the 400 000
    it was, in both modes. *)
Lemma C2_counterexample :
  daily_expense_reaches_monthly true /\ daily_expense_reaches_monthly false.
Proof.
  split; unfold daily_expense_reaches_monthly;
    (match goal with |- context [run ?m ?d] =>
       let x := fresh in set (x := run m d); vm_compute in x; subst x end);
    cbv beta iota;
    (split; [reflexivity|split; [reflexivity|split; [reflexivity|]]]);
    eexists; (split; [vm_compute; reflexivity|]);
    (split; [vm_compute; reflexivity|vm_compute; discriminate]).
Qed.

(** C2, amended.  The cascade set of an accepted expense of [X] is the
    target budget plus its immediate parent only: the user's weekly budget
    for a daily target, the user's primary monthly budget for a weekly
    one.  The request's journal entry lists exactly these budgets, each
    with [after = before - X].  When the request ends, every budget other
    than the user's primary monthly budget has its [currentAmount] lowered
    by exactly [X] if it is in the cascade set and unchanged otherwise.
    The user's primary monthly budget ends either as the cascade left it
    (lowered by [X] for a weekly target, untouched otherwise) or with the
    available figure the Day rollup of the same request recorded, which the
    reconciler wrote over it. *)
Theorem C2_cascade_target_and_immediate_parent :
  forall (TRANSACTIONS_SUPPORTED : bool) (currentDate currentTime : string)
         (req : TransactionRequest) (d : Db) (target : Budget.t),
    NoDup (ids (Budgets d)) ->
    tr_type req = expense ->
    findById (tr_budgetId req) (Budgets d) = Some target ->
    status (fst (run (postTransaction TRANSACTIONS_SUPPORTED currentDate currentTime req) d))
      = 201%nat ->
    let u := tr_userId req in
    let X := tr_amount req in
    let cascade := target :: immediateParent u target (Budgets d) in
    let d' := snd (run (postTransaction TRANSACTIONS_SUPPORTED currentDate currentTime req) d) in
    (exists rule rest,
        JournalEntries d'
          = JournalEntries d ++ cascadeEntry rule req (map (charged X) cascade) :: rest /\
        Forall (fun je => JournalEntry.ruleApplied je = reconcile_rule) rest) /\
    (forall i b, findById i (Budgets d) = Some b -> isPrimaryMonthlyOf u b = false ->
                 findById i (Budgets d') = Some (chargeIf X cascade b)) /\
    (forall p, find (isPrimaryMonthlyOf u) (Budgets d) = Some p ->
       exists p', find (isPrimaryMonthlyOf u) (Budgets d') = Some p' /\
         (p' = chargeIf X cascade p \/
          exists day, find (isDayOf u currentDate) (Days d') = Some day /\
                      p' = Budget.set_currentAmount (Day.budgetsAvailable day) p)).
Proof.
  intros ts currentDate currentTime req d target Hn Ht Hb Hst u X cascade d'.
  subst u X cascade d'.
  destruct (expense_accepted_inv ts currentDate currentTime req d target Ht Hb Hst)
    as (Hpos & Hun & Hfunds).
  destruct (postTransaction_expense_accepted ts currentDate currentTime req d target
              Ht Hpos Hun Hn Hb Hfunds)
    as (r & mid & rule & Hrun & _ & Hbud & _ & Hje & _).
  destruct (cascade_set_distinct (tr_userId req) target (Budgets d) _ Hn Hb) as [Hdis Hin].
  cbv zeta in Hbud, Hje.
  rewrite (cascaded_map _ _ (Budgets d) Hn Hdis Hin) in Hbud.
  rewrite Hrun. cbn [snd]. clear Hrun Hst.
  set (u := tr_userId req) in *. set (X := tr_amount req) in *.
  set (cascade := target :: immediateParent u target (Budgets d)) in *.
  assert (Hnmid : NoDup (ids (Budgets mid))) by (rewrite Hbud, ids_map_chargeIf; exact Hn).
  split.
  { unfold rolledUp. cbn [JournalEntries with_Days].
    destruct (JournalEntries_reconciled u currentDate mid) as [E|(je & E & Hrule)];
      rewrite E, Hje.
    - exists rule, []. split; [reflexivity|constructor].
    - exists rule, [je]. split; [now rewrite <- app_assoc|].
      constructor; [exact Hrule|constructor]. }
  split.
  { intros i b Hi Hnp. rewrite Budgets_rolledUp.
    apply reconciled_frame; [exact Hnmid| |now rewrite chargeIf_primary].
    rewrite Hbud. unfold findById. rewrite find_map_invariant.
    - fold (findById i (Budgets d)). now rewrite Hi.
    - intros x. unfold byId. now rewrite chargeIf_id. }
  intros p Hp. rewrite Budgets_rolledUp.
  assert (Hpm : find (isPrimaryMonthlyOf u) (Budgets mid) = Some (chargeIf X cascade p)).
  { rewrite Hbud, find_map_invariant by (intros; apply chargeIf_primary).
    now rewrite Hp. }
  unfold reconciled. rewrite Hpm.
  destruct (Qltb _ _).
  - cbn [Budgets save_JournalEntry with_Budgets].
    eexists. split.
    + apply find_updateOne_byId; auto. apply find_In in Hpm. tauto.
    + right. unfold rolledUp. cbn [Days with_Days].
      match goal with |- context [upsertDay ?u ?dt ?i ?b ?g ?e ?f ?l] =>
        destruct (find_upsertDay u dt i b g e f l) as (day & Hday & _ & Ha & _) end.
      exists day. split; [exact Hday|]. rewrite Ha.
      unfold chargeIf. destruct (existsb _ _); reflexivity.
  - rewrite Hpm. eexists. split; [reflexivity|now left].
Qed.

Lemma C2_witness :
  NoDup (ids (Budgets db_after_allocation)) /\
  status (fst (run (postTransaction true today "10:00" (expense_on 3 100))
                   db_after_allocation)) = 201%nat /\
  findById 2 (Budgets (snd (run (postTransaction true today "10:00" (expense_on 3 100))
                                db_after_allocation)))
  = Some (sampleBudget 2 "ARGENT PAR SEMAINE" 100000 weekly false (100000 - 100)).
Proof.
  assert (Hn : NoDup (ids (Budgets db_after_allocation))).
  { simpl. repeat constructor; simpl; intuition discriminate. }
  assert (Hst : status (fst (run (postTransaction true today "10:00" (expense_on 3 100))
                                 db_after_allocation)) = 201%nat) by (vm_compute; reflexivity).
  split; [exact Hn|]. split; [exact Hst|].
  exact (proj1 (proj2 (C2_cascade_target_and_immediate_parent true today "10:00"
                         (expense_on 3 100) db_after_allocation
                         (sampleBudget 3 "ARGENT PAR jour" 14285 daily false 14285)
                         Hn eq_refl eq_refl Hst))
           2%nat (sampleBudget 2 "ARGENT PAR SEMAINE" 100000 weekly false 100000)
           eq_refl eq_refl).
Defined.

(* ------------------------------------------------------------------ *)
(** ** One over the balance, exactly the balance (C3) *)

(** C3, as stated, fails: posting exactly the daily budget's
    [currentAmount] is rejected, in both modes, because the weekly budget
    would go negative. *)
Lemma C3_counterexample : exact_amount_rejected true /\ exact_amount_rejected false.
Proof. split; split; vm_compute; reflexivity. Qed.

(** C3, amended.  On an unlocked day, for a budget with
    [currentAmount = c >= 0] and requests that pass the validation (a
    comment of 1 to 500 characters, [c + 1] within the safe range): an
    expense of [c + 1] against it is always rejected with the
    negative-balance validation error and leaves the database as it
    was.  An expense of exactly [c > 0] is accepted when
    the immediate parent, if there is one, holds at least [c], and the
    budget then ends at exactly 0 (unless it is the user's primary monthly
    budget, which the reconciler may write over); when the immediate
    parent holds less than [c], the expense is rejected with the
    negative-balance validation error and nothing changes. *)
Theorem C3_one_over_rejected_exact_spends_all :
  forall (TRANSACTIONS_SUPPORTED : bool) (currentDate currentTime comment : string)
         (u : ObjectId) (d : Db) (target : Budget.t),
    NoDup (ids (Budgets d)) ->
    In target (Budgets d) ->
    0 <= Budget.currentAmount target ->
    Budget.currentAmount target + 1 <= MAX_SAFE_INTEGER ->
    comment <> ""%string -> (String.length comment <= 500)%nat ->
    unlocked u currentDate d ->
    let c := Budget.currentAmount target in
    let post X :=
      run (postTransaction TRANSACTIONS_SUPPORTED currentDate currentTime
             (mkTransactionRequest u expense X comment (Budget._id target))) d in
    (NegativeBalanceRejected (fst (post (c + 1))) /\ snd (post (c + 1)) = d) /\
    (0 < c ->
       ((forall b, In b (immediateParent u target (Budgets d)) ->
                   c <= Budget.currentAmount b) ->
        status (fst (post c)) = 201%nat /\
        (isPrimaryMonthlyOf u target = false ->
         exists t', findById (Budget._id target) (Budgets (snd (post c))) = Some t' /\
                    Budget.currentAmount t' == 0)) /\
       (forall b, In b (immediateParent u target (Budgets d)) ->
                  Budget.currentAmount b < c ->
        NegativeBalanceRejected (fst (post c)) /\ snd (post c) = d)).
Proof.
  intros ts currentDate currentTime comment u d target Hn Hin Hc Hmax Hne Hlen Hun c post.
  pose proof (findById_of_In _ _ Hn Hin) as Hb.
  assert (Hvalid : forall X, 0 < X -> X <= c + 1 ->
            transactionValidationSchema
              (mkTransactionRequest u expense X comment (Budget._id target)) = true).
  { intros X H0 H1. apply transactionValidationSchema_spec. cbn [tr_amount tr_comment].
    split; [exact H0|]. split; [|split; [exact Hne|exact Hlen]].
    apply Qle_trans with (c + 1); [exact H1|exact Hmax]. }
  split.
  - (* one over *)
    assert (Hcheck : checkAvailability (c + 1)
                       (target :: immediateParent u target (Budgets d)) []
                     = inl (Budget.name target, c - (c + 1))).
    { cbn [checkAvailability]. fold c.
      replace (Qltb (c - (c + 1)) 0) with true; [reflexivity|].
      symmetry. apply Qltb_true. lra. }
    assert (Hamount : transactionValidationSchema
                        (mkTransactionRequest u expense (c + 1) comment (Budget._id target))
                      = true)
      by (apply Hvalid; [unfold c; lra|apply Qle_refl]).
    unfold post.
    rewrite (postTransaction_expense_rejected ts currentDate currentTime
               (mkTransactionRequest u expense (c + 1) comment (Budget._id target))
               d target _ _ eq_refl Hamount Hun Hb Hcheck).
    split; [|reflexivity]. split; [reflexivity|]. simpl. eauto.
  - intros Hpos0.
    assert (Hpos : transactionValidationSchema
                     (mkTransactionRequest u expense c comment (Budget._id target)) = true)
      by (apply Hvalid; [exact Hpos0|lra]).
    split.
    + (* exactly the balance, parent funded *)
      intros Hparent.
      assert (Hfunds : forall b, In b (target :: immediateParent u target (Budgets d)) ->
                                 c <= Budget.currentAmount b).
      { intros b [<-|Hbp]; [apply Qle_refl|auto]. }
      destruct (postTransaction_expense_accepted ts currentDate currentTime
                  (mkTransactionRequest u expense c comment (Budget._id target))
                  d target eq_refl Hpos Hun Hn Hb Hfunds)
        as (r & mid & rule & Hrun & Hst & Hbud & _).
      cbn [tr_userId tr_amount] in Hrun, Hbud.
      destruct (cascade_set_distinct u target (Budgets d) _ Hn Hb) as [Hdis Hsub].
      rewrite (cascaded_map _ _ (Budgets d) Hn Hdis Hsub) in Hbud.
      unfold post. rewrite Hrun. cbn [fst snd]. split; [exact Hst|].
      intros Hnp. eexists. split.
      * rewrite Budgets_rolledUp. apply reconciled_frame.
        -- rewrite Hbud, ids_map_chargeIf. exact Hn.
        -- rewrite Hbud. unfold findById. rewrite find_map_invariant.
           ++ fold (findById (Budget._id target) (Budgets d)). rewrite Hb. reflexivity.
           ++ intros x. unfold byId. now rewrite chargeIf_id.
        -- now rewrite chargeIf_primary.
      * unfold chargeIf. cbn [existsb]. unfold byId at 1. rewrite Nat.eqb_refl.
        cbn [orb Budget.currentAmount Budget.set_currentAmount]. fold c. lra.
    + (* exactly the balance, parent short *)
      intros b Hbp Hshort.
      assert (Hcheck : checkAvailability c
                         (target :: immediateParent u target (Budgets d)) []
                       = inl (Budget.name b, Budget.currentAmount b - c)).
      { cbn [checkAvailability]. fold c.
        replace (Qltb (c - c) 0) with false by (symmetry; apply Qltb_false; lra).
        assert (Hp : immediateParent u target (Budgets d) = [b]).
        { revert Hbp. unfold immediateParent.
          destruct (Budget.frequency target); try destruct (find _ _);
            simpl; intuition congruence. }
        rewrite Hp. cbn [checkAvailability].
        replace (Qltb (Budget.currentAmount b - c) 0) with true; [reflexivity|].
        symmetry. apply Qltb_true. lra. }
      unfold post.
      rewrite (postTransaction_expense_rejected ts currentDate currentTime
                 (mkTransactionRequest u expense c comment (Budget._id target))
                 d target _ _ eq_refl Hpos Hun Hb Hcheck).
      split; [|reflexivity]. split; [reflexivity|]. simpl. eauto.
Qed.

Lemma C3_witness :
  NoDup (ids (Budgets db_weekly_short)) /\
  0 <= Budget.currentAmount (sampleBudget 3 "ARGENT PAR jour" 14285 daily false 1500) /\
  Budget.currentAmount (sampleBudget 3 "ARGENT PAR jour" 14285 daily false 1500) + 1
  <= MAX_SAFE_INTEGER /\
  "marche"%string <> ""%string /\ (String.length "marche" <= 500)%nat /\
  unlocked 7 today db_weekly_short /\
  NegativeBalanceRejected
    (fst (run (postTransaction false today "10:00"
                 (mkTransactionRequest 7 expense (1500 + 1) "marche" 3)) db_weekly_short)).
Proof.
  assert (Hn : NoDup (ids (Budgets db_weekly_short))).
  { simpl. repeat constructor; simpl; intuition discriminate. }
  assert (Hc : 0 <= Budget.currentAmount
                      (sampleBudget 3 "ARGENT PAR jour" 14285 daily false 1500))
    by discriminate.
  assert (Hmax : Budget.currentAmount
                   (sampleBudget 3 "ARGENT PAR jour" 14285 daily false 1500) + 1
                 <= MAX_SAFE_INTEGER)
    by discriminate.
  assert (Hne : "marche"%string <> ""%string) by discriminate.
  assert (Hlen : (String.length "marche" <= 500)%nat) by (simpl; lia).
  assert (Hun : unlocked 7 today db_weekly_short) by (intros t; discriminate).
  split; [exact Hn|]. split; [exact Hc|]. split; [exact Hmax|]. split; [exact Hne|].
  split; [exact Hlen|]. split; [exact Hun|].
  exact (proj1 (proj1 (C3_one_over_rejected_exact_spends_all false today "10:00" "marche"
                         7 db_weekly_short
                         (sampleBudget 3 "ARGENT PAR jour" 14285 daily false 1500)
                         Hn (or_intror (or_intror (or_introl eq_refl))) Hc Hmax Hne Hlen
                         Hun))).
Defined.

(* ------------------------------------------------------------------ *)
(** ** Fallback mode: a lost conditional update (C5) *)



(** The loop stops at the first conditional update that fails: the
    identifiers it returns are those of the updates before it. *)
Lemma applyConditional_failed X affected : forall upd w updated,
  fst (applyConditional X affected upd w) = (false, updated) ->
  exists done failed rest,
    affected = done ++ failed :: rest /\ updated = upd ++ map a_budgetId done.
Proof.
  induction affected as [|a rest IH]; intros upd w updated H; simpl in H.
  - discriminate.
  - unfold bind in H. destruct (yield w) as [[] w0].
    destruct (conditionalDecrement (a_budgetId a) X w0) as [[|] w1].
    + destruct (IH _ _ _ H) as (done & failed & rest' & -> & ->).
      exists (a :: done), failed, rest'. split; [reflexivity|].
      simpl. now rewrite <- app_assoc.
    + simpl in H. injection H as <-.
      exists [], a, rest. split; [reflexivity|]. simpl. now rewrite app_nil_r.
Qed.











(** The same run, evaluated: the daily budget is back at 14 285, the
    weekly budget holds what the rival left, and the ledger is untouched. *)
Example fallback_conflict_evaluated :
  let (r, w2) := postTransaction false today "10:00" (expense_on 3 1500) world_with_rival in
  r = mkResponse 409 Conflit_de_disponibilite /\
  (exists c, option_map Budget.currentAmount (findById 3 (Budgets (db w2))) = Some c
             /\ c == 14285) /\
  (exists c, option_map Budget.currentAmount (findById 2 (Budgets (db w2))) = Some c
             /\ c == 1000) /\
  Transactions (db w2) = [] /\ JournalEntries (db w2) = [] /\ Days (db w2) = [].
Proof.
  match goal with |- context [postTransaction ?a ?b ?c ?d ?w] =>
    let x := fresh in set (x := postTransaction a b c d w);
    vm_compute in x; subst x end.
  cbv beta iota. split; [reflexivity|].
  split; [eexists; split; [vm_compute; reflexivity|vm_compute; reflexivity]|].
  split; [eexists; split; [vm_compute; reflexivity|vm_compute; reflexivity]|].
  repeat split.
Qed.

(* ------------------------------------------------------------------ *)
(** ** Day coherence (C4) *)

(** After the rollup the day's record is coherent. *)
Lemma rolledUp_coherent u currentDate d :
  exists day,
    find (isDayOf u currentDate) (Days (rolledUp u currentDate d)) = Some day /\
    Day.finalPocket day = Day.initialPocket day + Day.gains day - Day.expenses day.
Proof.
  unfold rolledUp. cbn [Days with_Days].
  match goal with |- context [upsertDay ?u ?dt ?i ?b ?g ?e ?f ?l] =>
    destruct (find_upsertDay u dt i b g e f l) as (day & Hday & Hi & _ & Hg & He & Hf) end.
  exists day. split; [exact Hday|]. now rewrite Hf, Hi, Hg, He.
Qed.

(** The rollup takes [initialPocket] from the user's latest Day record,
    which is today's own record once it exists. *)
Lemma rolledUp_initialPocket u currentDate d today' :
  lastDayOf u (Days d) = Some today' ->
  exists day,
    find (isDayOf u currentDate) (Days (rolledUp u currentDate d)) = Some day /\
    Day.initialPocket day = Day.finalPocket today'.
Proof.
  intros Hlast. unfold rolledUp. cbn [Days with_Days].
  rewrite Days_reconciled, Hlast.
  match goal with |- context [upsertDay ?u ?dt ?i ?b ?g ?e ?f ?l] =>
    destruct (find_upsertDay u dt i b g e f l) as (day & Hday & Hi & _) end.
  exists day. split; [exact Hday|exact Hi].
Qed.

(** C4 at the failing input.  Today's record is created with
    [initialPocket = 0] (no earlier day); an expense of 100 keeps it; a
    second expense of 50 on the same day sets [initialPocket] to -100, the
    [finalPocket] the first expense had left, and [finalPocket] to -250
    where the day's transactions sum to 150.  Both modes agree. *)
Theorem C4_initialPocket_recomputed :
  forall TRANSACTIONS_SUPPORTED : bool,
    let d1 := snd (run (getDay 7 today) db_in_step) in
    let d2 := snd (run (postTransaction TRANSACTIONS_SUPPORTED today "10:00"
                          (expense_on 3 100)) d1) in
    let d3 := snd (run (postTransaction TRANSACTIONS_SUPPORTED today "10:05"
                          (expense_on 3 50)) d2) in
    initialPocketOf 7 today d1 = Some 0 /\
    initialPocketOf 7 today d2 = Some 0 /\ finalPocketOf 7 today d2 = Some (-100) /\
    initialPocketOf 7 today d3 = Some (-100) /\ finalPocketOf 7 today d3 = Some (-250) /\
    sumOfType expense (transactionsOn 7 today (Transactions d3)) = 150.
Proof.
  intros [|]; vm_compute; repeat split; reflexivity.
Qed.

(* ------------------------------------------------------------------ *)
(** ** Start-up in production (C9) *)

(** C9 at the failing input.  In production, on a store that cannot
    commit a transaction, the flag stays [true] and the process listens,
    whether or not 'beforeExit' is ever emitted; on a store without
    sessions the flag is [false] and the process listens all the same, and
    keeps serving until 'beforeExit' is emitted. *)
Theorem C9_production_serves_without_transactions :
  supportsTransactions standalone = false /\
  (let p := fold_left step [connected standalone; connect_resolved; beforeExit]
                      (boot production) in
   TRANSACTIONS_SUPPORTED p = true /\ serves p = true) /\
  supportsTransactions no_sessions = false /\
  (let p := fold_left step [connected no_sessions; connect_resolved] (boot production) in
   TRANSACTIONS_SUPPORTED p = false /\ serves p = true).
Proof. repeat split. Qed.

(* ------------------------------------------------------------------ *)
(** ** Double-precision division: the whole part of a quotient *)

Lemma pow2_pos e : 0 < pow2 e.
Proof. apply Qpower_0_lt. reflexivity. Qed.

Lemma pow2_plus a b : pow2 (a + b) == pow2 a * pow2 b.
Proof. apply Qpower_plus. discriminate. Qed.

Lemma pow2_le a b : (a <= b)%Z -> pow2 a <= pow2 b.
Proof. intros H. apply Qpower_le_compat_l; [exact H|discriminate]. Qed.

Lemma pow2_lt a b : (a < b)%Z -> pow2 a < pow2 b.
Proof. intros H. apply Qpower_lt_compat_l; [exact H|reflexivity]. Qed.

Lemma pow2_Z n : (0 <= n)%Z -> pow2 n == inject_Z (2 ^ n).
Proof. intros H. unfold pow2. rewrite (Zpower_Qpower 2 n H). reflexivity. Qed.

Lemma pow2_succ e : pow2 (e + 1) == 2 * pow2 e.
Proof. rewrite pow2_plus. change (pow2 1) with 2. ring. Qed.

Lemma pow2_inv e : pow2 (- e) * pow2 e == 1.
Proof. rewrite <- pow2_plus. replace (- e + e)%Z with 0%Z by lia. reflexivity. Qed.

(* ---------------- the exponent ---------------- *)

Lemma Q_as_fraction (x : Q) : x * inject_Z (Zpos (Qden x)) == inject_Z (Qnum x).
Proof.
  destruct x as [n d]. unfold Qeq, Qmult, inject_Z. simpl. rewrite Pos.mul_1_r. ring.
Qed.

Lemma exponentOf_spec (x : Q) :
  0 < x -> pow2 (exponentOf x) <= x /\ x < pow2 (exponentOf x + 1).
Proof.
  intros Hx.
  pose proof (Q_as_fraction x) as Hf.
  set (n := Qnum x) in *. set (d := Zpos (Qden x)) in *.
  assert (Hd : (0 < d)%Z) by (subst d; lia).
  assert (Hn : (0 < n)%Z).
  { destruct x as [nx dx]. unfold Qlt in Hx. simpl in *. subst n. lia. }
  pose proof (Z.log2_spec n Hn) as [Ln Un].
  pose proof (Z.log2_spec d Hd) as [Ld Ud].
  pose proof (Z.log2_nonneg n) as Nn. pose proof (Z.log2_nonneg d) as Nd.
  set (ln := Z.log2 n) in *. set (ld := Z.log2 d) in *.
  assert (Qd : 0 < inject_Z d) by (change 0 with (inject_Z 0); rewrite <- Zlt_Qlt; exact Hd).
  (* bounds in Q *)
  assert (Ln' : pow2 ln <= inject_Z n) by (rewrite pow2_Z by lia; rewrite <- Zle_Qle; exact Ln).
  assert (Un' : inject_Z n < pow2 (ln + 1))
    by (rewrite pow2_Z by lia; rewrite <- Zlt_Qlt; exact Un).
  assert (Ld' : pow2 ld <= inject_Z d) by (rewrite pow2_Z by lia; rewrite <- Zle_Qle; exact Ld).
  assert (Ud' : inject_Z d < pow2 (ld + 1))
    by (rewrite pow2_Z by lia; rewrite <- Zlt_Qlt; exact Ud).
  (* x < 2^(l+1) and 2^(l-1) < x, l = ln - ld *)
  assert (Hup : x < pow2 (ln - ld + 1)).
  { apply Qmult_lt_r with (pow2 ld); [apply pow2_pos|].
    rewrite <- pow2_plus. replace (ln - ld + 1 + ld)%Z with (ln + 1)%Z by lia.
    apply Qle_lt_trans with (x * inject_Z d).
    - apply Qmult_le_l; [exact Hx|exact Ld'].
    - rewrite Hf. exact Un'. }
  assert (Hlo : pow2 (ln - ld - 1) < x).
  { apply Qmult_lt_r with (pow2 (ld + 1)); [apply pow2_pos|].
    rewrite <- pow2_plus. replace (ln - ld - 1 + (ld + 1))%Z with ln by lia.
    apply Qle_lt_trans with (inject_Z n); [exact Ln'|].
    rewrite <- Hf. apply Qmult_lt_l; [exact Hx|exact Ud']. }
  unfold exponentOf. fold n d ln ld.
  destruct (Qle_bool (pow2 (ln - ld)) x) eqn:E.
  - apply Qle_bool_iff in E. split; [exact E|exact Hup].
  - apply Qle_bool_false in E. split; [apply Qlt_le_weak; exact Hlo|].
    replace (ln - ld - 1 + 1)%Z with (ln - ld)%Z by lia. exact E.
Qed.

Lemma exponentOf_below (x : Q) (k : Z) : 0 < x -> x < pow2 k -> (exponentOf x < k)%Z.
Proof.
  intros Hx Hk. destruct (exponentOf_spec x Hx) as [L _].
  destruct (Z_lt_le_dec (exponentOf x) k) as [H|H]; [exact H|].
  exfalso. apply (Qlt_not_le _ _ Hk). apply Qle_trans with (pow2 (exponentOf x)); [|exact L].
  apply pow2_le. exact H.
Qed.

(* ---------------- rounding to the nearest integer ---------------- *)

Lemma roundHalfEven_ge (y : Q) (m : Z) : inject_Z m <= y -> (m <= roundHalfEven y)%Z.
Proof.
  intros H. assert (F : (m <= Qfloor y)%Z).
  { rewrite <- (Qfloor_Z m). apply Qfloor_resp_le. exact H. }
  unfold roundHalfEven. destruct (Qltb _ _); [exact F|].
  destruct (Qltb _ _); [lia|]. destruct (Z.even _); lia.
Qed.

Lemma roundHalfEven_lt (y : Q) (n : Z) : y + (1 # 2) < inject_Z n -> (roundHalfEven y < n)%Z.
Proof.
  intros H. pose proof (Qfloor_le y) as F.
  assert (F1 : (Qfloor y < n)%Z).
  { rewrite Zlt_Qlt. apply Qle_lt_trans with y; [exact F|]. lra. }
  unfold roundHalfEven. destruct (Qltb (y - inject_Z (Qfloor y)) (1 # 2)) eqn:E; [exact F1|].
  apply Qltb_false in E.
  assert (F2 : (Qfloor y + 1 < n)%Z).
  { rewrite Zlt_Qlt, inject_Z_plus. change (inject_Z 1) with 1. lra. }
  destruct (Qltb _ _); [exact F2|]. destruct (Z.even _); lia.
Qed.

Lemma Qfloor_unique (y : Q) (q : Z) :
  inject_Z q <= y -> y < inject_Z (q + 1) -> Qfloor y = q.
Proof.
  intros L U.
  assert (A : (q <= Qfloor y)%Z) by (rewrite <- (Qfloor_Z q); apply Qfloor_resp_le; exact L).
  assert (B : (Qfloor y < q + 1)%Z).
  { rewrite Zlt_Qlt. apply Qle_lt_trans with y; [apply Qfloor_le|exact U]. }
  lia.
Qed.

Lemma Qabs_nonneg_eq (x : Q) : 0 <= x -> Qabs x = x.
Proof.
  destruct x as [n d]. unfold Qle, Qabs. simpl. intros H.
  rewrite Z.abs_eq by lia. reflexivity.
Qed.

(* ---------------- integers on the grid of a double ---------------- *)

(** Below [2 ^ 53] the gap between doubles is a power of two that is at
    most 1: its inverse is a whole number. *)
Lemma ulp_inverse (x : Q) :
  0 < x -> x < pow2 53 ->
  exists G : Z, (0 < G)%Z /\ inject_Z G * ulp x == 1.
Proof.
  intros Hx Hb. pose proof (exponentOf_below x 53 Hx Hb) as He.
  unfold ulp. rewrite (Qabs_nonneg_eq x) by (apply Qlt_le_weak; exact Hx).
  set (e := Z.max (exponentOf x - 52) (-1074)).
  assert (E0 : (e <= 0)%Z) by (subst e; lia).
  exists (2 ^ (- e))%Z. split; [apply Z.pow_pos_nonneg; lia|].
  rewrite <- pow2_Z by lia. apply pow2_inv.
Qed.

(* ---------------- the floor of a rounded quotient ---------------- *)

Lemma Qdiv_mult_cancel (a d : Q) : 0 < d -> a / d * d == a.
Proof. intros H. field. intros E. rewrite E in H. exact (Qlt_irrefl 0 H). Qed.

Lemma floor_toDouble_quotient (a : Q) (d : Z) :
  isDouble a -> 0 < a -> a < pow2 53 -> (1 <= d)%Z ->
  Qfloor (toDouble (a / inject_Z d)) = Qfloor (a / inject_Z d).
Proof.
  intros Hdbl Ha Hb Hd.
  assert (Qd : 0 < inject_Z d) by (change 0 with (inject_Z 0); rewrite <- Zlt_Qlt; lia).
  assert (Qd1 : 1 <= inject_Z d) by (change 1 with (inject_Z 1); rewrite <- Zle_Qle; lia).
  set (x := a / inject_Z d).
  assert (Hxd : x * inject_Z d == a) by (apply Qdiv_mult_cancel; exact Qd).
  assert (Hx : 0 < x).
  { unfold x. apply Qlt_shift_div_l; [exact Qd|]. rewrite Qmult_0_l. exact Ha. }
  assert (Hxa : x <= a).
  { assert (T : x * 1 <= x * inject_Z d) by (apply Qmult_le_l; [exact Hx|exact Qd1]).
    rewrite Qmult_1_r, Hxd in T. exact T. }
  assert (Hxb : x < pow2 53) by (apply Qle_lt_trans with a; assumption).
  set (q := Qfloor x).
  assert (Lq : inject_Z q <= x) by apply Qfloor_le.
  assert (Uq : x < inject_Z (q + 1)) by apply Qlt_floor.
  assert (Hq0 : (0 <= q)%Z).
  { unfold q. change 0%Z with (Qfloor 0). apply Qfloor_resp_le. apply Qlt_le_weak. exact Hx. }
  destruct (ulp_inverse x Hx Hxb) as (G & HG & EG).
  assert (QG : 0 < inject_Z G) by (change 0 with (inject_Z 0); rewrite <- Zlt_Qlt; exact HG).
  assert (Hg : 0 < ulp x) by apply pow2_pos.
  assert (Exg : x / ulp x == x * inject_Z G).
  { field_simplify_eq; [|intros E; rewrite E in Hg; exact (Qlt_irrefl 0 Hg)].
    rewrite <- (Qmult_1_r x) at 1. rewrite <- EG. ring. }
  assert (Hnz : Qeq_bool x 0 = false).
  { apply not_true_is_false. intros E. apply Qeq_bool_iff in E. rewrite E in Hx.
    exact (Qlt_irrefl 0 Hx). }
  unfold toDouble. rewrite Hnz. fold q.
  apply Qfloor_unique.
  - (* q <= rounded *)
    assert (R : (q * G <= roundHalfEven (x / ulp x))%Z).
    { apply roundHalfEven_ge. rewrite Exg, inject_Z_mult.
      apply Qmult_le_compat_r; [exact Lq|apply Qlt_le_weak; exact QG]. }
    rewrite Zle_Qle, inject_Z_mult in R.
    apply Qle_trans with (inject_Z q * inject_Z G * ulp x).
    + rewrite <- Qmult_assoc, EG. rewrite Qmult_1_r. apply Qle_refl.
    + apply Qmult_le_compat_r; [exact R|apply Qlt_le_weak; exact Hg].
  - (* rounded < q + 1 *)
    assert (R : (roundHalfEven (x / ulp x) < (q + 1) * G)%Z).
    { apply roundHalfEven_lt. rewrite Exg, inject_Z_mult.
      (* (q + 1 - x) * G > 1/2, that is, q + 1 - x > ulp x / 2 *)
      assert (Key : ulp x < 2 * (inject_Z (q + 1) - x)).
      { unfold ulp at 1. rewrite (Qabs_nonneg_eq x) by (apply Qlt_le_weak; exact Hx).
        destruct (Z.max_spec (exponentOf x - 52) (-1074)) as [[Hlt ->]|[Hge ->]].
        - (* the subnormal range: x < 1/2 *)
          destruct (exponentOf_spec x Hx) as [_ Ux].
          assert (Hsmall : x < 1 # 2).
          { apply Qlt_le_trans with (pow2 (exponentOf x + 1)); [exact Ux|].
            change (1 # 2) with (pow2 (-1)). apply pow2_le. lia. }
          assert (Hq : q = 0%Z).
          { unfold q. apply Qfloor_unique; [apply Qlt_le_weak; exact Hx|].
            change (inject_Z (0 + 1)) with 1. lra. }
          rewrite Hq. change (inject_Z (0 + 1)) with 1.
          assert (Hp : pow2 (-1074) <= 1) by (change 1 with (pow2 0); apply pow2_le; lia).
          lra.
        - (* the normal range *)
          destruct (exponentOf_spec x Hx) as [Lx _].
          destruct (exponentOf_spec a Ha) as [_ Ua].
          (* a is on its own grid, and so is d * (q + 1) *)
          pose proof (exponentOf_below a 53 Ha Hb) as Hea.
          destruct (ulp_inverse a Ha Hb) as (Ga & HGa & EGa).
          assert (Hga : 0 < ulp a) by apply pow2_pos.
          assert (Hua : pow2 (exponentOf a - 52) <= ulp a).
          { unfold ulp. rewrite (Qabs_nonneg_eq a) by (apply Qlt_le_weak; exact Ha).
            apply pow2_le. lia. }
          assert (Hanz : Qeq_bool a 0 = false).
          { apply not_true_is_false. intros E. apply Qeq_bool_iff in E. rewrite E in Ha.
            exact (Qlt_irrefl 0 Ha). }
          unfold isDouble, toDouble in Hdbl. rewrite Hanz in Hdbl.
          set (m := roundHalfEven (a / ulp a)) in *.
          set (K := (d * (q + 1) * Ga)%Z).
          assert (HK : inject_Z K * ulp a == inject_Z d * inject_Z (q + 1)).
          { unfold K. rewrite !inject_Z_mult. rewrite <- Qmult_assoc, EGa. ring. }
          assert (Hlt_a : a < inject_Z d * inject_Z (q + 1)).
          { rewrite <- Hxd. rewrite (Qmult_comm x). apply Qmult_lt_l; [exact Qd|exact Uq]. }
          assert (HmK : (m + 1 <= K)%Z).
          { assert (HmK' : (m < K)%Z).
            { rewrite Zlt_Qlt. apply Qmult_lt_r with (ulp a); [exact Hga|].
              rewrite Hdbl, HK. exact Hlt_a. }
            lia. }
          assert (Hdelta : ulp a <= inject_Z d * inject_Z (q + 1) - a).
          { rewrite Zle_Qle, inject_Z_plus in HmK. change (inject_Z 1) with 1 in HmK.
            assert (T : (inject_Z m + 1) * ulp a <= inject_Z K * ulp a)
              by (apply Qmult_le_compat_r; [exact HmK|apply Qlt_le_weak; exact Hga]).
            setoid_replace ((inject_Z m + 1) * ulp a)
              with (inject_Z m * ulp a + ulp a) in T by ring.
            rewrite Hdbl, HK in T. lra. }
          (* d * ulp x < 2 * ulp a *)
          assert (Hdg : inject_Z d * pow2 (exponentOf x - 52) < 2 * ulp a).
          { apply Qlt_le_trans with (2 * pow2 (exponentOf a - 52)); [|lra].
            rewrite <- pow2_succ.
            replace (exponentOf x - 52)%Z with (exponentOf x + -52)%Z by lia.
            replace (exponentOf a - 52 + 1)%Z with (exponentOf a + 1 + -52)%Z by lia.
            rewrite (pow2_plus (exponentOf x) (-52)), (pow2_plus (exponentOf a + 1) (-52)).
            rewrite Qmult_assoc. apply Qmult_lt_compat_r; [apply pow2_pos|].
            apply Qle_lt_trans with a; [|exact Ua].
            rewrite <- Hxd. rewrite (Qmult_comm x).
            apply Qmult_le_l; [exact Qd|exact Lx]. }
          (* conclude, dividing by d *)
          apply Qmult_lt_l with (inject_Z d); [exact Qd|].
          apply Qlt_le_trans with (2 * ulp a); [exact Hdg|].
          setoid_replace (inject_Z d * (2 * (inject_Z (q + 1) - x)))
            with (2 * (inject_Z d * inject_Z (q + 1) - x * inject_Z d)) by ring.
          rewrite Hxd. lra. }
      (* from Key *)
      assert (T : (ulp x) * inject_Z G < 2 * (inject_Z (q + 1) - x) * inject_Z G)
        by (apply Qmult_lt_compat_r; [exact QG|exact Key]).
      rewrite (Qmult_comm (ulp x)), EG in T. lra. }
    rewrite Zlt_Qlt, inject_Z_mult in R.
    apply Qlt_le_trans with (inject_Z (q + 1) * inject_Z G * ulp x).
    + apply Qmult_lt_compat_r; [exact Hg|exact R].
    + rewrite <- Qmult_assoc, EG. rewrite Qmult_1_r. apply Qle_refl.
Qed.

Lemma MAX_SAFE_INTEGER_lt : MAX_SAFE_INTEGER < pow2 53.
Proof. reflexivity. Qed.

Lemma roundHalfEven_Z (y : Q) (k : Z) : y == inject_Z k -> roundHalfEven y = k.
Proof.
  intros H.
  assert (L : (k <= roundHalfEven y)%Z)
    by (apply roundHalfEven_ge; rewrite H; apply Qle_refl).
  assert (U : (roundHalfEven y < k + 1)%Z).
  { apply roundHalfEven_lt. rewrite H, inject_Z_plus.
    change (inject_Z 1) with 1. set (q := inject_Z k). lra. }
  lia.
Qed.

(** A safe integer is a double: the sum of two Numbers that is a safe
    integer is the sum the doubles give. *)
Lemma isSafeInteger_isDouble (x : Q) : isSafeInteger x -> isDouble x.
Proof.
  intros [(n & Hn) Hb]. unfold isDouble, toDouble.
  destruct (Qeq_bool x 0) eqn:E0; [apply Qeq_bool_iff in E0; symmetry; exact E0|].
  apply Qeq_bool_neq in E0.
  assert (Ha : 0 < Qabs x).
  { pose proof (Qabs_nonneg x) as H0. apply Qle_lteq in H0. destruct H0 as [H0|H0];
      [exact H0|].
    exfalso. apply E0. symmetry in H0. revert H0.
    apply Qabs_case; intros H1 H2; lra. }
  assert (Hlt : Qabs x < pow2 53)
    by (apply Qle_lt_trans with MAX_SAFE_INTEGER; [exact Hb|exact MAX_SAFE_INTEGER_lt]).
  destruct (ulp_inverse (Qabs x) Ha Hlt) as (G & HG & HGu).
  assert (Eu : ulp (Qabs x) = ulp x).
  { unfold ulp. rewrite (Qabs_nonneg_eq (Qabs x)) by apply Qabs_nonneg. reflexivity. }
  rewrite Eu in HGu.
  assert (Hu : 0 < ulp x) by (unfold ulp; apply pow2_pos).
  assert (Hq : x / ulp x == inject_Z (n * G)).
  { apply (Qmult_inj_r _ _ (ulp x)).
    - intros E. rewrite E in Hu. exact (Qlt_irrefl 0 Hu).
    - rewrite (Qdiv_mult_cancel x (ulp x) Hu), inject_Z_mult, <- Hn.
      setoid_replace (x * inject_Z G * ulp x) with (x * (inject_Z G * ulp x)) by ring.
      rewrite HGu. ring. }
  rewrite (roundHalfEven_Z _ _ Hq), inject_Z_mult, <- Hn.
  setoid_replace (x * inject_Z G * ulp x) with (x * (inject_Z G * ulp x)) by ring.
  rewrite HGu. ring.
Qed.

(* ------------------------------------------------------------------ *)
(** ** Spending limits *)

Lemma Math_max_0_pos (b : Q) :
  ~ Math_max 0 (or_num b 0) == 0 -> 0 < b /\ Math_max 0 (or_num b 0) = b.
Proof.
  unfold Math_max, or_num. destruct (Qeq_bool b 0) eqn:E.
  - simpl. intros H. exfalso. apply H. reflexivity.
  - destruct (Qle_bool 0 b) eqn:L.
    + intros _. split; [|reflexivity]. apply Qle_bool_iff in L.
      apply Qeq_bool_neq in E. apply Qle_lteq in L. destruct L as [L|L]; [exact L|].
      exfalso. apply E. symmetry. exact L.
    + intros H. exfalso. apply H. reflexivity.
Qed.

Lemma Math_max_0_nonpos (b : Q) : Math_max 0 (or_num b 0) == 0 -> b <= 0.
Proof.
  unfold Math_max, or_num. destruct (Qeq_bool b 0) eqn:E.
  - intros _. apply Qeq_bool_iff in E. rewrite E. apply Qle_refl.
  - destruct (Qle_bool 0 b) eqn:L.
    + intros H. rewrite H. apply Qle_refl.
    + intros _. apply Qle_bool_false in L. apply Qlt_le_weak. exact L.
Qed.

Lemma inject_Z_pos (n : Z) : (0 < n)%Z -> 0 < inject_Z n.
Proof. intros H. change 0 with (inject_Z 0). rewrite <- Zlt_Qlt. exact H. Qed.

Lemma Qfloor_div_mult_le (a : Q) (n : Z) :
  (0 < n)%Z -> inject_Z (Math_floor (a / inject_Z n) * n) <= a.
Proof.
  intros Hn. unfold Math_floor. rewrite inject_Z_mult.
  pose proof (inject_Z_pos n Hn) as Hq.
  apply Qle_trans with ((a / inject_Z n) * inject_Z n).
  - apply Qmult_le_compat_r; [apply Qfloor_le|apply Qlt_le_weak; exact Hq].
  - rewrite Qmult_comm, Qmult_div_r; [apply Qle_refl|].
    intro E. rewrite E in Hq. apply (Qlt_irrefl 0 Hq).
Qed.

Lemma Qceiling_div7 (d : Z) : Qceiling (inject_Z d / 7) = (- ((- d) / 7))%Z.
Proof.
  unfold Qceiling, Qfloor, Qdiv, Qmult, Qinv, Qopp, inject_Z. simpl.
  rewrite Z.mul_1_r. reflexivity.
Qed.

(** Up to 30 days, the double quotient by 7 rounds up to the same number
    of weeks as the exact one. *)
Lemma Qceiling_Number_div7 (d : Z) :
  (1 <= d <= 30)%Z -> Qceiling (Number_div (inject_Z d) 7) = Qceiling (inject_Z d / 7).
Proof.
  intros H. rewrite <- (Z2Nat.id d) by lia.
  assert (Hn : (1 <= Z.to_nat d <= 30)%nat) by lia.
  revert Hn. generalize (Z.to_nat d). clear H d. intros n Hn.
  destruct n as [|n]; [lia|].
  do 30 (destruct n as [|n]; [vm_compute; reflexivity|]).
  lia.
Qed.

(** The whole part of the double quotient of an amount within the safe
    range by a whole number is the whole part of the exact quotient. *)
Lemma Math_floor_Number_div (a : Q) (n : Z) :
  isDouble a -> 0 < a -> a <= MAX_SAFE_INTEGER -> (1 <= n)%Z ->
  Math_floor (Number_div a (inject_Z n)) = Math_floor (a / inject_Z n).
Proof.
  intros Hd Hpos Hmax Hn. unfold Math_floor, Number_div.
  apply floor_toDouble_quotient; [exact Hd|exact Hpos| |exact Hn].
  apply Qle_lt_trans with MAX_SAFE_INTEGER; [exact Hmax|exact MAX_SAFE_INTEGER_lt].
Qed.

(** The day index and the horizon it leaves, whatever the day number. *)
Lemma horizon_bounds (dayOfMonth : Z) :
  let dayIndex := Z.min 30 (Z.max 1 dayOfMonth) in
  let daysLeft := Z.max 1 (30 - dayIndex + 1) in
  let weeksLeft := Z.max 1 (Qceiling (Number_div (inject_Z daysLeft) 7)) in
  (1 <= daysLeft <= 30 /\ 1 <= weeksLeft <= 5 /\
   daysLeft <= 7 * weeksLeft /\ 7 * (weeksLeft - 1) < daysLeft /\ weeksLeft <= daysLeft)%Z.
Proof.
  cbv zeta.
  set (dl := Z.max 1 (30 - Z.min 30 (Z.max 1 dayOfMonth) + 1)).
  assert (Hdl : (1 <= dl <= 30)%Z) by (subst dl; lia).
  clearbody dl. rewrite (Qceiling_Number_div7 dl Hdl), Qceiling_div7.
  pose proof (Z.div_mod (- dl) 7 ltac:(lia)) as E.
  pose proof (Z.mod_pos_bound (- dl) 7 ltac:(lia)) as B.
  lia.
Qed.

Lemma computeDynamicLimits_zero budgetsAvailable currentDate :
  budgetsAvailable <= 0 ->
  computeDynamicLimits budgetsAvailable currentDate = mkDynamicLimits 0 0 0 0 0.
Proof.
  intros H. unfold computeDynamicLimits.
  destruct (Qeq_bool (Math_max 0 (or_num budgetsAvailable 0)) 0) eqn:E; [reflexivity|].
  apply Qeq_bool_neq in E. apply Math_max_0_pos in E. destruct E as [E _].
  exfalso. apply (Qlt_not_le _ _ E H).
Qed.

(** For a positive amount, the record the function builds. *)
Lemma computeDynamicLimits_pos budgetsAvailable currentDate :
  0 < budgetsAvailable ->
  exists dayOfMonth,
    let dayIndex := Z.min 30 (Z.max 1 dayOfMonth) in
    let daysLeft := Z.max 1 (30 - dayIndex + 1) in
    let weeksLeft := Z.max 1 (Qceiling (Number_div (inject_Z daysLeft) 7)) in
    computeDynamicLimits budgetsAvailable currentDate
    = mkDynamicLimits budgetsAvailable
        (Math_floor (Number_div budgetsAvailable (inject_Z weeksLeft)))
        (Math_floor (Number_div budgetsAvailable (inject_Z daysLeft))) daysLeft weeksLeft.
Proof.
  intros H. unfold computeDynamicLimits.
  destruct (Qeq_bool (Math_max 0 (or_num budgetsAvailable 0)) 0) eqn:E.
  - apply Qeq_bool_iff, Math_max_0_nonpos in E. exfalso. apply (Qlt_not_le _ _ H E).
  - apply Qeq_bool_neq, Math_max_0_pos in E. destruct E as [_ E]. rewrite E.
    eexists. reflexivity.
Qed.

Lemma Qfloor_div_nonneg (a : Q) (n : Z) :
  0 <= a -> (0 < n)%Z -> (0 <= Math_floor (a / inject_Z n))%Z.
Proof.
  intros Ha Hn. unfold Math_floor. change 0%Z with (Qfloor 0).
  apply Qfloor_resp_le. apply Qle_shift_div_l; [apply inject_Z_pos; exact Hn|].
  rewrite Qmult_0_l. exact Ha.
Qed.

Lemma Qfloor_div_antitone (a : Q) (n m : Z) :
  0 <= a -> (0 < n <= m)%Z ->
  (Math_floor (a / inject_Z m) <= Math_floor (a / inject_Z n))%Z.
Proof.
  intros Ha [Hn Hm]. unfold Math_floor. apply Qfloor_resp_le.
  assert (Hqn := inject_Z_pos n Hn).
  assert (Hqm := inject_Z_pos m ltac:(lia)).
  apply Qle_shift_div_l; [exact Hqn|].
  assert (Hx : 0 <= a / inject_Z m).
  { apply Qle_shift_div_l; [exact Hqm|]. rewrite Qmult_0_l. exact Ha. }
  apply Qle_trans with (a / inject_Z m * inject_Z m).
  - rewrite (Qmult_comm _ (inject_Z n)), (Qmult_comm _ (inject_Z m)).
    apply Qmult_le_compat_r; [|exact Hx]. rewrite <- Zle_Qle. exact Hm.
  - rewrite Qmult_comm, Qmult_div_r; [apply Qle_refl|].
    intro E. rewrite E in Hqm. apply (Qlt_irrefl 0 Hqm).
Qed.

Lemma Qlt_floor_div_mult (a : Q) (n : Z) :
  (0 < n)%Z -> a < inject_Z ((Math_floor (a / inject_Z n) + 1) * n).
Proof.
  intros Hn. unfold Math_floor. rewrite inject_Z_mult.
  assert (Hq := inject_Z_pos n Hn).
  apply Qle_lt_trans with (a / inject_Z n * inject_Z n).
  - rewrite Qmult_comm, Qmult_div_r; [apply Qle_refl|].
    intro E. rewrite E in Hq. apply (Qlt_irrefl 0 Hq).
  - apply Qmult_lt_compat_r; [exact Hq|apply Qlt_floor].
Qed.

(** X1.  [computeDynamicLimits] never recommends more than there is:
    for an amount that is a double within the safe range, and whatever
    the date string, the limits are not negative, the daily limit is at
    most the weekly one, and spending the daily limit on each remaining
    day, or the weekly limit in each remaining week, stays within
    [monthlyAvailable]; the result is all zeros exactly when the amount
    passed is zero or negative. *)
Theorem computeDynamicLimits_within_available :
  forall (budgetsAvailable : Q) (currentDate : string),
    isDouble budgetsAvailable -> budgetsAvailable <= MAX_SAFE_INTEGER ->
    let r := computeDynamicLimits budgetsAvailable currentDate in
    0 <= monthlyAvailable r /\
    (0 <= dailyLimit r <= weeklyLimit r)%Z /\
    inject_Z (dailyLimit r * daysLeft r) <= monthlyAvailable r /\
    inject_Z (weeklyLimit r * weeksLeft r) <= monthlyAvailable r /\
    (budgetsAvailable <= 0 <-> r = mkDynamicLimits 0 0 0 0 0).
Proof.
  intros b currentDate Hdbl Hmax r.
  destruct (Qlt_le_dec 0 b) as [Hpos|Hle].
  - destruct (computeDynamicLimits_pos b currentDate Hpos) as (dm & E).
    cbv zeta in E. pose proof (horizon_bounds dm) as B. cbv zeta in B.
    subst r. rewrite E. clear E.
    set (dl := Z.max 1 (30 - Z.min 30 (Z.max 1 dm) + 1)) in *.
    set (wl := Z.max 1 (Qceiling (Number_div (inject_Z dl) 7))) in *.
    destruct B as (Bd & Bw & _ & _ & Bwd).
    assert (Hb : 0 <= b) by (apply Qlt_le_weak; exact Hpos).
    cbn [monthlyAvailable dailyLimit weeklyLimit daysLeft weeksLeft].
    rewrite (Math_floor_Number_div b dl Hdbl Hpos Hmax ltac:(lia)).
    rewrite (Math_floor_Number_div b wl Hdbl Hpos Hmax ltac:(lia)).
    repeat split.
    + exact Hb.
    + apply Qfloor_div_nonneg; [exact Hb|lia].
    + apply Qfloor_div_antitone; [exact Hb|lia].
    + apply Qfloor_div_mult_le. lia.
    + apply Qfloor_div_mult_le. lia.
    + intros H. exfalso. apply (Qlt_not_le _ _ Hpos H).
    + intros H. injection H as _ _ _ Hd _. lia.
  - subst r. rewrite (computeDynamicLimits_zero b currentDate Hle).
    cbn [monthlyAvailable dailyLimit weeklyLimit daysLeft weeksLeft].
    repeat split; try apply Qle_refl; try lia; auto.
Qed.

Lemma computeDynamicLimits_within_available_witness :
  isDouble 3000 /\ 3000 <= MAX_SAFE_INTEGER /\
  let r := computeDynamicLimits 3000 "2026-11-02" in
  0 <= monthlyAvailable r /\
  (0 <= dailyLimit r <= weeklyLimit r)%Z /\
  inject_Z (dailyLimit r * daysLeft r) <= monthlyAvailable r /\
  inject_Z (weeklyLimit r * weeksLeft r) <= monthlyAvailable r /\
  (3000 <= 0 <-> r = mkDynamicLimits 0 0 0 0 0).
Proof.
  assert (Hd : isDouble 3000) by (vm_compute; reflexivity).
  assert (Hm : 3000 <= MAX_SAFE_INTEGER) by (vm_compute; discriminate).
  split; [exact Hd|]. split; [exact Hm|].
  exact (computeDynamicLimits_within_available 3000 "2026-11-02" Hd Hm).
Defined.

(** Beyond the safe range the quotient of doubles can round up past the
    exact one: on the 24th, with seven days left, [1e17] gives a daily
    limit of 14 285 714 285 714 286, and seven times that is more than
    there is. *)
Example computeDynamicLimits_beyond_safe_range :
  let r := computeDynamicLimits 100000000000000000 "2026-11-24" in
  daysLeft r = 7%Z /\ dailyLimit r = 14285714285714286%Z /\
  monthlyAvailable r < inject_Z (dailyLimit r * daysLeft r).
Proof. vm_compute. repeat split. Qed.

(** X2.  For a positive amount that is a double within the safe range,
    whatever the date string: the figure is passed through, between 1 and
    30 days and between 1 and 5 weeks are left, the weeks left are the
    days left divided by 7 and rounded up, and the daily and the weekly
    limit are the largest whole amounts that can be spent on every
    remaining day, and in every remaining week. *)
Theorem computeDynamicLimits_horizon :
  forall (budgetsAvailable : Q) (currentDate : string),
    0 < budgetsAvailable ->
    isDouble budgetsAvailable -> budgetsAvailable <= MAX_SAFE_INTEGER ->
    let r := computeDynamicLimits budgetsAvailable currentDate in
    monthlyAvailable r = budgetsAvailable /\
    (1 <= daysLeft r <= 30)%Z /\ (1 <= weeksLeft r <= 5)%Z /\
    (7 * (weeksLeft r - 1) < daysLeft r <= 7 * weeksLeft r)%Z /\
    inject_Z (dailyLimit r * daysLeft r) <= budgetsAvailable /\
    budgetsAvailable < inject_Z ((dailyLimit r + 1) * daysLeft r) /\
    inject_Z (weeklyLimit r * weeksLeft r) <= budgetsAvailable /\
    budgetsAvailable < inject_Z ((weeklyLimit r + 1) * weeksLeft r).
Proof.
  intros b currentDate Hpos Hdbl Hmax r.
  destruct (computeDynamicLimits_pos b currentDate Hpos) as (dm & E).
  cbv zeta in E. pose proof (horizon_bounds dm) as B. cbv zeta in B.
  subst r. rewrite E. clear E.
  set (dl := Z.max 1 (30 - Z.min 30 (Z.max 1 dm) + 1)) in *.
  set (wl := Z.max 1 (Qceiling (Number_div (inject_Z dl) 7))) in *.
  destruct B as (Bd & Bw & B1 & B2 & _).
  cbn [monthlyAvailable dailyLimit weeklyLimit daysLeft weeksLeft].
  rewrite (Math_floor_Number_div b dl Hdbl Hpos Hmax ltac:(lia)).
  rewrite (Math_floor_Number_div b wl Hdbl Hpos Hmax ltac:(lia)).
  split; [reflexivity|]. split; [lia|]. split; [lia|]. split; [lia|].
  split; [apply Qfloor_div_mult_le; lia|].
  split; [apply Qlt_floor_div_mult; lia|].
  split; [apply Qfloor_div_mult_le; lia|apply Qlt_floor_div_mult; lia].
Qed.

Lemma computeDynamicLimits_horizon_witness :
  0 < 3000 /\ isDouble 3000 /\ 3000 <= MAX_SAFE_INTEGER /\
  let r := computeDynamicLimits 3000 "2026-11-02" in
  monthlyAvailable r = 3000 /\
  (1 <= daysLeft r <= 30)%Z /\ (1 <= weeksLeft r <= 5)%Z /\
  (7 * (weeksLeft r - 1) < daysLeft r <= 7 * weeksLeft r)%Z /\
  inject_Z (dailyLimit r * daysLeft r) <= 3000 /\
  3000 < inject_Z ((dailyLimit r + 1) * daysLeft r) /\
  inject_Z (weeklyLimit r * weeksLeft r) <= 3000 /\
  3000 < inject_Z ((weeklyLimit r + 1) * weeksLeft r).
Proof.
  assert (Hd : isDouble 3000) by (vm_compute; reflexivity).
  assert (Hm : 3000 <= MAX_SAFE_INTEGER) by (vm_compute; discriminate).
  split; [reflexivity|]. split; [exact Hd|]. split; [exact Hm|].
  exact (computeDynamicLimits_horizon 3000 "2026-11-02" eq_refl Hd Hm).
Defined.

Lemma split_dash_cons (s : string) : exists h t, split_dash s = h :: t.
Proof.
  induction s as [|c r (h & t & IH)]; simpl; [eauto|].
  destruct (Ascii.eqb c "-"); [eauto|]. rewrite IH. eauto.
Qed.

Lemma split_dash_noDash (s : string) : noDash s = true -> split_dash s = [s].
Proof.
  unfold noDash. induction s as [|c r IH]; simpl; [reflexivity|].
  intros H. apply andb_true_iff in H. destruct H as [Hc Hr].
  apply negb_true_iff in Hc. rewrite Hc, (IH Hr). reflexivity.
Qed.

Lemma split_dash_app (y rest : string) :
  noDash y = true -> split_dash (y ++ "-" ++ rest) = y :: split_dash rest.
Proof.
  unfold noDash. induction y as [|c r IH]; simpl; [reflexivity|].
  intros H. apply andb_true_iff in H. destruct H as [Hc Hr].
  apply negb_true_iff in Hc. rewrite Hc. simpl in IH. rewrite (IH Hr). reflexivity.
Qed.

Lemma parseInt_twoDigits (dd : nat) :
  (dd <= 31)%nat -> noDash (twoDigits dd) = true /\
                    parseInt (twoDigits dd) = Some (Z.of_nat dd).
Proof.
  intros H.
  do 32 (destruct dd as [|dd]; [split; vm_compute; reflexivity|]).
  lia.
Qed.

(** X3.  On a date ['y-m-dd'] the day of the month is read from the third
    field: for a positive amount, [31 - dd] days are left up to the 30th,
    and one day on the 30th and on the 31st alike; the daily limit is the
    whole part of the double quotient of the amount by the days left,
    which for a double within the safe range is the whole part of the
    exact quotient. *)
Theorem computeDynamicLimits_on_date :
  forall (budgetsAvailable : Q) (y m : string) (dd : nat),
    0 < budgetsAvailable -> noDash y = true -> noDash m = true ->
    (1 <= dd <= 31)%nat ->
    let r := computeDynamicLimits budgetsAvailable (dateOf y m dd) in
    let days := Z.max 1 (31 - Z.of_nat dd) in
    daysLeft r = days /\
    dailyLimit r = Math_floor (Number_div budgetsAvailable (inject_Z days)) /\
    (isDouble budgetsAvailable -> budgetsAvailable <= MAX_SAFE_INTEGER ->
     dailyLimit r = Math_floor (budgetsAvailable / inject_Z days)).
Proof.
  intros b y m dd Hpos Hy Hm Hdd r days.
  assert (E : daysLeft r = days /\
              dailyLimit r = Math_floor (Number_div b (inject_Z days))).
  { subst r days. unfold computeDynamicLimits.
    destruct (Qeq_bool (Math_max 0 (or_num b 0)) 0) eqn:E.
    { apply Qeq_bool_iff, Math_max_0_nonpos in E. exfalso. apply (Qlt_not_le _ _ Hpos E). }
    apply Qeq_bool_neq, Math_max_0_pos in E. destruct E as [_ E]. rewrite E.
    destruct (parseInt_twoDigits dd ltac:(lia)) as [Hn Hp].
    unfold dateOf. rewrite (split_dash_app y _ Hy), (split_dash_app m _ Hm).
    rewrite (split_dash_noDash _ Hn). cbn [map]. rewrite Hp.
    cbn [daysLeft dailyLimit].
    replace (Z.max 1 (30 - Z.min 30 (Z.max 1 (Z.of_nat dd)) + 1))
      with (Z.max 1 (31 - Z.of_nat dd)) by lia.
    split; reflexivity. }
  destruct E as [E1 E2]. split; [exact E1|]. split; [exact E2|].
  intros Hdbl Hmax. rewrite E2.
  apply Math_floor_Number_div; [exact Hdbl|exact Hpos|exact Hmax|subst days; lia].
Qed.

Lemma computeDynamicLimits_on_date_witness :
  0 < 3000 /\ noDash "2026" = true /\ noDash "11" = true /\ (1 <= 2 <= 31)%nat /\
  let r := computeDynamicLimits 3000 (dateOf "2026" "11" 2) in
  daysLeft r = 29%Z /\ dailyLimit r = 103%Z.
Proof.
  assert (Hdd : (1 <= 2 <= 31)%nat) by lia.
  split; [reflexivity|]. split; [reflexivity|]. split; [reflexivity|].
  split; [exact Hdd|].
  destruct (computeDynamicLimits_on_date 3000 "2026" "11" 2 eq_refl eq_refl eq_refl Hdd)
    as (E1 & E2 & _).
  split; [exact E1|exact E2].
Defined.

(* ------------------------------------------------------------------ *)
(** ** Tontines: whose turn it is *)

Lemma currentReceiverIndex_mod (participants elapsed : Z) :
  (0 < participants)%Z -> (0 <= elapsed)%Z ->
  currentReceiverIndex participants elapsed = (elapsed mod participants + 1)%Z.
Proof.
  intros Hn He. unfold currentReceiverIndex.
  destruct (0 <? participants)%Z eqn:E; [|apply Z.ltb_ge in E; lia].
  rewrite Z.rem_mod_nonneg by lia. reflexivity.
Qed.

Lemma mod_shift (n r q x : Z) :
  (0 <= r < n)%Z -> x = (n * q + r)%Z -> (x mod n = r)%Z.
Proof.
  intros Hr ->. symmetry. apply (Z.mod_unique _ _ q); [left; exact Hr|reflexivity].
Qed.

(** The rotation on integers: the receiver index is a position, and
    [turnsUntilMe] counts the periods until it first equals [myPosition]. *)
Lemma rotation_turns :
  forall participants elapsed myPosition : Z,
    (0 < participants)%Z -> (0 <= elapsed)%Z -> (1 <= myPosition <= participants)%Z ->
    (1 <= currentReceiverIndex participants elapsed <= participants)%Z /\
    exists t,
      turnsUntilMe participants elapsed (Some myPosition) = Some t /\
      (0 <= t < participants)%Z /\
      currentReceiverIndex participants (elapsed + t) = myPosition /\
      (forall k, (0 <= k < t)%Z ->
                 currentReceiverIndex participants (elapsed + k) <> myPosition).
Proof.
  intros n e p Hn He Hp.
  rewrite (currentReceiverIndex_mod n e Hn He).
  pose proof (Z.mod_pos_bound e n Hn) as Hr.
  pose proof (Z.div_mod e n ltac:(lia)) as Hdm.
  remember (e mod n)%Z as r eqn:Er. remember (e / n)%Z as q eqn:Eq.
  split; [lia|].
  unfold turnsUntilMe.
  destruct ((p =? 0)%Z || (n =? 0)%Z) eqn:E.
  { apply orb_true_iff in E. destruct E as [E|E]; apply Z.eqb_eq in E; lia. }
  rewrite (currentReceiverIndex_mod n e Hn He), <- Er.
  rewrite Z.rem_mod_nonneg by lia.
  eexists. split; [reflexivity|].
  assert (Hcur : forall k, (0 <= k < n)%Z ->
            currentReceiverIndex n (e + k)
            = (if Z_lt_dec (r + k) n then r + k + 1 else r + k - n + 1)%Z).
  { intros k Hk. rewrite (currentReceiverIndex_mod n _ Hn) by lia.
    destruct (Z_lt_dec (r + k) n) as [H1|H1].
    - rewrite (mod_shift n (r + k) q (e + k)); lia.
    - rewrite (mod_shift n (r + k - n) (q + 1) (e + k)); lia. }
  destruct (Z_lt_dec (p - (r + 1) + n) n) as [Hlt|Hge].
  - rewrite (mod_shift n (p - (r + 1) + n) 0 (p - (r + 1) + n)) by lia.
    split; [lia|]. split.
    + rewrite Hcur by lia. destruct (Z_lt_dec _ _); lia.
    + intros k Hk. rewrite Hcur by lia. destruct (Z_lt_dec _ _); lia.
  - rewrite (mod_shift n (p - (r + 1)) 1 (p - (r + 1) + n)) by lia.
    split; [lia|]. split.
    + rewrite Hcur by lia. destruct (Z_lt_dec _ _); lia.
    + intros k Hk. rewrite Hcur by lia. destruct (Z_lt_dec _ _); lia.
Qed.

(** X5.  Before the start date ([periodsElapsedSince] is negative) the
    remainder keeps the sign of [elapsed]: the receiver index is at most
    1, and below 1, where no member stands, unless [elapsed] is a multiple
    of the number of participants. *)
Theorem currentReceiverIndex_before_start :
  forall participants elapsed : Z,
    (0 < participants)%Z -> (elapsed < 0)%Z ->
    (1 - participants < currentReceiverIndex participants elapsed <= 1)%Z /\
    (currentReceiverIndex participants elapsed = 1%Z <->
     (elapsed mod participants = 0)%Z).
Proof.
  intros n e Hn He. unfold currentReceiverIndex.
  destruct (0 <? n)%Z eqn:E; [|apply Z.ltb_ge in E; lia].
  pose proof (Z.rem_bound_pos_neg e n Hn ltac:(lia)) as B.
  split; [lia|].
  rewrite <- (Z.rem_mod_eq_0 e n ltac:(lia)). lia.
Qed.

Lemma currentReceiverIndex_before_start_witness :
  (0 < 3)%Z /\ (-1 < 0)%Z /\
  (1 - 3 < currentReceiverIndex 3 (-1) <= 1)%Z /\
  (currentReceiverIndex 3 (-1) = 1%Z <-> (-1 mod 3 = 0)%Z).
Proof.
  split; [lia|]. split; [lia|].
  apply (currentReceiverIndex_before_start 3 (-1)); lia.
Defined.

(** The percentage on integers. *)
Lemma rotation_percent :
  forall participants elapsed myPosition : Z,
    (0 < participants)%Z -> (0 <= elapsed)%Z -> (1 <= myPosition <= participants)%Z ->
    exists pct,
      percentUntilMyTurn participants elapsed (Some myPosition) = Some pct /\
      (0 <= pct <= 100)%Z /\
      (currentReceiverIndex participants elapsed = myPosition -> pct = 100%Z).
Proof.
  intros n e p Hn He Hp.
  rewrite (currentReceiverIndex_mod n e Hn He).
  pose proof (Z.mod_pos_bound e n Hn) as Hr.
  unfold percentUntilMyTurn, turnsUntilMe.
  destruct ((p =? 0)%Z || (n =? 0)%Z) eqn:E.
  { apply orb_true_iff in E. destruct E as [E|E]; apply Z.eqb_eq in E; lia. }
  destruct (n =? 0)%Z eqn:En; [apply Z.eqb_eq in En; lia|].
  rewrite (currentReceiverIndex_mod n e Hn He).
  rewrite Z.rem_mod_nonneg by lia.
  remember (e mod n)%Z as r eqn:Er.
  pose proof (Z.mod_pos_bound (p - (r + 1) + n) n Hn) as Ht.
  remember ((p - (r + 1) + n) mod n)%Z as t eqn:Et.
  eexists. split; [reflexivity|].
  assert (Hq := inject_Z_pos n Hn).
  assert (Hne : ~ inject_Z n == 0).
  { intro E0. rewrite E0 in Hq. apply (Qlt_irrefl 0 Hq). }
  set (V := inject_Z (n - t) / inject_Z n * 100).
  assert (HV0 : 0 <= V).
  { unfold V. apply Qmult_le_0_compat; [|discriminate].
    apply Qle_shift_div_l; [exact Hq|]. rewrite Qmult_0_l.
    change 0 with (inject_Z 0). rewrite <- Zle_Qle. lia. }
  assert (HV1 : V <= 100).
  { unfold V. setoid_replace 100 with (1 * 100) at 2 by reflexivity.
    apply Qmult_le_compat_r; [|discriminate].
    apply Qle_shift_div_r; [exact Hq|]. rewrite Qmult_1_l.
    rewrite <- Zle_Qle. lia. }
  assert (HV100 : t = 0%Z -> V == 100).
  { intros H. unfold V. rewrite H, Z.sub_0_r. field. exact Hne. }
  unfold Math_round. fold V. clearbody V.
  pose proof (Qfloor_le (V + (1 # 2))) as F1.
  pose proof (Qlt_floor (V + (1 # 2))) as F2.
  split; [split|].
  - assert (H : inject_Z 0 < inject_Z (Qfloor (V + (1 # 2)) + 1)).
    { apply Qle_lt_trans with (V + (1 # 2)); [|exact F2].
      change (inject_Z 0) with 0. lra. }
    rewrite <- Zlt_Qlt in H. lia.
  - assert (H : inject_Z (Qfloor (V + (1 # 2))) < inject_Z 101).
    { apply Qle_lt_trans with (V + (1 # 2)); [exact F1|].
      change (inject_Z 101) with 101. lra. }
    rewrite <- Zlt_Qlt in H. lia.
  - intros Hcur.
    assert (H0 : t = 0%Z).
    { rewrite Et. apply (mod_shift n 0 1); lia. }
    specialize (HV100 H0).
    assert (H1 : inject_Z 100 < inject_Z (Qfloor (V + (1 # 2)) + 1)).
    { apply Qle_lt_trans with (V + (1 # 2)); [|exact F2].
      change (inject_Z 100) with 100. lra. }
    assert (H2 : inject_Z (Qfloor (V + (1 # 2))) < inject_Z 101).
    { apply Qle_lt_trans with (V + (1 # 2)); [exact F1|].
      change (inject_Z 101) with 101. lra. }
    rewrite <- Zlt_Qlt in H1, H2. lia.
Qed.

Lemma myPositionOf_member (m : Member) :
  (1 <= Z.of_nat (position m))%Z -> myPositionOf (Some m) = Some (Z.of_nat (position m)).
Proof.
  intros H. unfold myPositionOf. destruct (Nat.eqb_spec (position m) 0) as [E|E].
  - rewrite E in H. simpl in H. lia.
  - reflexivity.
Qed.

(** X4.  Once the tontine has started, for a member whose position is
    between 1 and the number of participants: the receiver index is a
    position in that range, and [turnsUntilMe] is the number of periods
    after which the index first equals the member's position. *)
Theorem turnsUntilMe_reaches_my_turn :
  forall (participantsCount elapsed : Z) (members : list Member) (u : ObjectId)
         (m : Member),
    let participants := participantsOf participantsCount members in
    let myPosition := myPositionOf (find (isMember u) members) in
    find (isMember u) members = Some m ->
    (0 < participants)%Z -> (0 <= elapsed)%Z ->
    (1 <= Z.of_nat (position m) <= participants)%Z ->
    (1 <= currentReceiverIndex participants elapsed <= participants)%Z /\
    exists t,
      turnsUntilMe participants elapsed myPosition = Some t /\
      (0 <= t < participants)%Z /\
      currentReceiverIndex participants (elapsed + t) = Z.of_nat (position m) /\
      (forall k, (0 <= k < t)%Z ->
                 currentReceiverIndex participants (elapsed + k) <> Z.of_nat (position m)).
Proof.
  intros pc e members u m participants myPosition Hm Hn He Hp.
  subst myPosition. rewrite Hm, (myPositionOf_member m) by lia.
  apply rotation_turns; assumption.
Qed.

Lemma turnsUntilMe_reaches_my_turn_witness :
  let members := [mkMember 7 0 1; mkMember 8 0 2; mkMember 9 0 3] in
  let participants := participantsOf 5 members in
  let myPosition := myPositionOf (find (isMember 8) members) in
  find (isMember 8) members = Some (mkMember 8 0 2) /\
  (0 < participants)%Z /\ (0 <= 7)%Z /\
  (1 <= Z.of_nat (position (mkMember 8 0 2)) <= participants)%Z /\
  (1 <= currentReceiverIndex participants 7 <= participants)%Z /\
  exists t,
    turnsUntilMe participants 7 myPosition = Some t /\
    (0 <= t < participants)%Z /\
    currentReceiverIndex participants (7 + t) = Z.of_nat (position (mkMember 8 0 2)) /\
    (forall k, (0 <= k < t)%Z ->
               currentReceiverIndex participants (7 + k)
               <> Z.of_nat (position (mkMember 8 0 2))).
Proof.
  intros members participants myPosition.
  split; [reflexivity|]. split; [reflexivity|]. split; [lia|].
  split; [split; discriminate|].
  apply (turnsUntilMe_reaches_my_turn 5 7 members 8 (mkMember 8 0 2));
    [reflexivity|reflexivity|lia|split; discriminate].
Defined.

(** X6.  Under the same conditions [percentUntilMyTurn] is a whole
    percentage between 0 and 100, and it is 100 when the member is the
    current receiver. *)
Theorem percentUntilMyTurn_range :
  forall (participantsCount elapsed : Z) (members : list Member) (u : ObjectId)
         (m : Member),
    let participants := participantsOf participantsCount members in
    let myPosition := myPositionOf (find (isMember u) members) in
    find (isMember u) members = Some m ->
    (0 < participants)%Z -> (0 <= elapsed)%Z ->
    (1 <= Z.of_nat (position m) <= participants)%Z ->
    exists pct,
      percentUntilMyTurn participants elapsed myPosition = Some pct /\
      (0 <= pct <= 100)%Z /\
      (currentReceiverIndex participants elapsed = Z.of_nat (position m) ->
       pct = 100%Z).
Proof.
  intros pc e members u m participants myPosition Hm Hn He Hp.
  subst myPosition. rewrite Hm, (myPositionOf_member m) by lia.
  apply rotation_percent; assumption.
Qed.

Lemma percentUntilMyTurn_range_witness :
  let members := [mkMember 7 0 1; mkMember 8 0 2; mkMember 9 0 3] in
  let participants := participantsOf 0 members in
  let myPosition := myPositionOf (find (isMember 8) members) in
  find (isMember 8) members = Some (mkMember 8 0 2) /\
  (0 < participants)%Z /\ (0 <= 7)%Z /\
  (1 <= Z.of_nat (position (mkMember 8 0 2)) <= participants)%Z /\
  exists pct,
    percentUntilMyTurn participants 7 myPosition = Some pct /\
    (0 <= pct <= 100)%Z /\
    (currentReceiverIndex participants 7 = Z.of_nat (position (mkMember 8 0 2)) ->
     pct = 100%Z).
Proof.
  intros members participants myPosition.
  split; [reflexivity|]. split; [reflexivity|]. split; [lia|].
  split; [split; discriminate|].
  apply (percentUntilMyTurn_range 0 7 members 8 (mkMember 8 0 2));
    [reflexivity|reflexivity|lia|split; discriminate].
Defined.

(* ------------------------------------------------------------------ *)
(** ** Tontine members *)

Lemma usedFrom_S_le start used : (usedFrom (S start) used <= usedFrom start used)%nat.
Proof.
  unfold usedFrom. induction used as [|u r IH]; [simpl; lia|].
  cbn [filter].
  destruct (Nat.leb_spec (S start) u), (Nat.leb_spec start u); cbn [List.length]; lia.
Qed.

Lemma usedFrom_S_lt start used :
  In start used -> (usedFrom (S start) used < usedFrom start used)%nat.
Proof.
  unfold usedFrom. induction used as [|u r IH]; [simpl; contradiction|].
  cbn [filter]. intros [->|H].
  - pose proof (usedFrom_S_le start r) as L. unfold usedFrom in L.
    destruct (Nat.leb_spec (S start) start); [lia|].
    rewrite Nat.leb_refl. cbn [List.length]. lia.
  - specialize (IH H).
    destruct (Nat.leb_spec (S start) u), (Nat.leb_spec start u); cbn [List.length]; lia.
Qed.

Lemma existsb_eqb_In (x : nat) l : existsb (Nat.eqb x) l = true <-> In x l.
Proof.
  rewrite existsb_exists. split.
  - intros (y & Hy & E). apply Nat.eqb_eq in E. now subst.
  - intros H. exists x. split; [exact H|apply Nat.eqb_refl].
Qed.

(** The loop stops on the first position from [start] on that is free. *)
Lemma firstUnused_spec used : forall rounds start,
  (usedFrom start used < rounds)%nat ->
  let r := firstUnused rounds used start in
  ~ In r used /\ (start <= r)%nat /\ forall k, (start <= k < r)%nat -> In k used.
Proof.
  induction rounds as [|n IH]; intros start H; [lia|]. simpl.
  destruct (existsb (Nat.eqb start) used) eqn:E.
  - apply existsb_eqb_In in E. pose proof (usedFrom_S_lt start used E) as L.
    destruct (IH (S start) ltac:(lia)) as (H1 & H2 & H3).
    split; [exact H1|]. split; [lia|].
    intros k Hk. destruct (Nat.eq_dec k start) as [->|Hne]; [exact E|].
    apply H3. lia.
  - split; [|split; [lia|intros k Hk; lia]].
    intros Hin. apply existsb_eqb_In in Hin. congruence.
Qed.

Lemma assignPosition_spec requested members :
  let start := requestedPosition requested members in
  let pos := assignPosition requested members in
  ~ In pos (map position members) /\ (start <= pos)%nat /\
  forall k, (start <= k < pos)%nat -> In k (map position members).
Proof.
  apply firstUnused_spec. unfold usedFrom.
  pose proof (filter_length_le
                (fun u => (requestedPosition requested members <=? u)%nat)
                (map position members)). lia.
Qed.

Lemma run_postJoin id req d t :
  find (isTontine id) (Tontines d) = Some t ->
  find (isMember (jo_userId req)) (Tontine.members t) = None ->
  run (postJoin id req) d
  = ((200%nat, Joined (assignPosition (jo_position req) (Tontine.members t))),
     with_Tontines (updateOne (isTontine id)
        (fun _ => addMember (jo_userId req)
                    (assignPosition (jo_position req) (Tontine.members t)) t)) d).
Proof.
  intros Ht Hm. unfold run, postJoin, isTontine in *.
  cbv [bind read ret write]. cbn [db sched trace fst snd].
  rewrite Ht, Hm. reflexivity.
Qed.

(** X7.  Joining a tontine one does not belong to yet is accepted: the
    new member is appended with nothing contributed, on the first
    position, counting up from the requested one (from the number of
    members plus one when none or zero is requested), that no member
    holds; nothing else of the tontine changes. *)
Theorem postJoin_first_free_position :
  forall (id : ObjectId) (req : JoinRequest) (d : Db) (t : Tontine.t),
    find (isTontine id) (Tontines d) = Some t ->
    find (isMember (jo_userId req)) (Tontine.members t) = None ->
    exists pos,
      fst (run (postJoin id req) d) = (200%nat, Joined pos) /\
      find (isTontine id) (Tontines (snd (run (postJoin id req) d)))
        = Some (Tontine.mk (Tontine._id t) (Tontine.name t) (Tontine.ownerId t)
                  (Tontine.budgetId t)
                  (Tontine.members t ++ [mkMember (jo_userId req) 0 pos])
                  (Tontine.totalAmount t)) /\
      ~ In pos (map position (Tontine.members t)) /\
      (requestedPosition (jo_position req) (Tontine.members t) <= pos)%nat /\
      (forall k, (requestedPosition (jo_position req) (Tontine.members t) <= k < pos)%nat ->
                 In k (map position (Tontine.members t))).
Proof.
  intros id req d t Ht Hm. rewrite (run_postJoin id req d t Ht Hm).
  exists (assignPosition (jo_position req) (Tontine.members t)).
  split; [reflexivity|]. split.
  - cbn [snd Tontines with_Tontines].
    rewrite (find_updateOne_same _ _ _ t Ht).
    + reflexivity.
    + apply find_In in Ht. destruct Ht as [_ Ht]. exact Ht.
  - apply assignPosition_spec.
Qed.

Lemma postJoin_first_free_position_witness :
  let t := Tontine.mk 20 "Office" 7 (Some 3%nat) [mkMember 7 0 1] 0 in
  let req := mkJoinRequest 8 (Some 1%nat) in
  find (isTontine 20) (Tontines db_tontine) = Some t /\
  find (isMember (jo_userId req)) (Tontine.members t) = None /\
  exists pos,
    fst (run (postJoin 20 req) db_tontine) = (200%nat, Joined pos) /\
    find (isTontine 20) (Tontines (snd (run (postJoin 20 req) db_tontine)))
      = Some (Tontine.mk (Tontine._id t) (Tontine.name t) (Tontine.ownerId t)
                (Tontine.budgetId t)
                (Tontine.members t ++ [mkMember (jo_userId req) 0 pos])
                (Tontine.totalAmount t)) /\
    ~ In pos (map position (Tontine.members t)) /\
    (requestedPosition (jo_position req) (Tontine.members t) <= pos)%nat /\
    (forall k, (requestedPosition (jo_position req) (Tontine.members t) <= k < pos)%nat ->
               In k (map position (Tontine.members t))).
Proof.
  intros t req.
  split; [reflexivity|]. split; [reflexivity|].
  apply (postJoin_first_free_position 20 req db_tontine t); reflexivity.
Defined.

Lemma Tontines_reconciled u currentDate d :
  Tontines (reconciled u currentDate d) = Tontines d.
Proof.
  unfold reconciled. destruct (find _ _); [|reflexivity].
  destruct (Qltb _ _); reflexivity.
Qed.

Lemma Tontines_rolledUp u currentDate d :
  Tontines (rolledUp u currentDate d) = Tontines d.
Proof. unfold rolledUp. cbn [Tontines with_Days]. apply Tontines_reconciled. Qed.

(** What a contribution leaves in the Tontine collection. *)
Lemma Tontines_postContribute currentDate currentTime id req d :
  Tontines (snd (run (postContribute currentDate currentTime id req) d))
  = match find (isTontine id) (Tontines d) with
    | Some t =>
        match find (isMember (co_userId req)) (Tontine.members t) with
        | Some _ =>
            if Qeq_bool (co_amount req) 0 then Tontines d
            else updateOne (isTontine id)
                   (fun _ => creditTontine (co_userId req) (co_amount req) t) (Tontines d)
        | None => Tontines d
        end
    | None => Tontines d
    end.
Proof.
  unfold run, postContribute.
  destruct (Qeq_bool (co_amount req) 0) eqn:Ez.
  { mred_goal. destruct (find _ _) as [t|]; [|reflexivity].
    destruct (find _ _); reflexivity. }
  mred_goal. fold (isTontine id).
  destruct (find (isTontine id) (Tontines d)) as [t|]; [|reflexivity].
  destruct (find (isMember (co_userId req)) (Tontine.members t)) as [m|]; [|reflexivity].
  cbn [Tontine.budgetId creditTontine].
  destruct (Tontine.budgetId t) as [b|]; mred_goal; [|reflexivity].
  by_effect (effect_updateDayTotals (co_userId req) currentDate).
  cbn [db snd]. rewrite Tontines_rolledUp. reflexivity.
Qed.

Lemma contributions_app l1 l2 :
  contributions (l1 ++ l2) == contributions l1 + contributions l2.
Proof.
  unfold contributions. induction l1 as [|m r IH]; simpl; [ring|].
  rewrite IH. ring.
Qed.

Lemma contributions_credit u amount members m :
  find (isMember u) members = Some m ->
  contributions (updateOne (isMember u)
                   (fun m => mkMember (m_userId m) (contributed m + amount) (position m))
                   members)
  == contributions members + amount.
Proof.
  unfold contributions. induction members as [|x r IH]; simpl; [discriminate|].
  destruct (isMember u x) eqn:E; intros H; simpl.
  - ring.
  - rewrite (IH H). ring.
Qed.

Lemma map_updateOne_same {A B : Type} (g : A -> B) (p : A -> bool) (f : A -> A) l :
  (forall x, g (f x) = g x) -> map g (updateOne p f l) = map g l.
Proof.
  intros Hf. induction l as [|x r IH]; simpl; [reflexivity|].
  destruct (p x); simpl; [now rewrite Hf|now rewrite IH].
Qed.

Lemma Forall_updateOne_found {A : Type} (P : A -> Prop) (p : A -> bool) (f : A -> A) l x :
  find p l = Some x -> P (f x) -> Forall P l -> Forall P (updateOne p f l).
Proof.
  intros Hx Hf H. induction H as [|y r Hy Hr IH]; simpl in *; [constructor|].
  destruct (p y) eqn:E.
  - injection Hx as <-. constructor; assumption.
  - constructor; [exact Hy|exact (IH Hx)].
Qed.

Lemma isSafeInteger_0 : isSafeInteger 0.
Proof. split; [exists 0%Z; reflexivity|discriminate]. Qed.

Lemma TontineOk_creditTontine u amount t m :
  find (isMember u) (Tontine.members t) = Some m ->
  isSafeInteger (contributed m + amount) ->
  isSafeInteger (Tontine.totalAmount t + amount) ->
  TontineOk t -> TontineOk (creditTontine u amount t).
Proof.
  intros Hm Sm St (Hu & Hp & Hs & _ & Ht). unfold TontineOk, creditTontine.
  cbn [Tontine.members Tontine.totalAmount].
  rewrite !map_updateOne_same by reflexivity.
  split; [exact Hu|]. split; [exact Hp|].
  split.
  { apply (Forall_updateOne_found (fun m => isSafeInteger (contributed m)) _ _ _ m Hm);
      [exact Sm|exact Hs]. }
  split; [exact St|].
  rewrite (contributions_credit u amount _ m Hm), Ht. reflexivity.
Qed.

Lemma NoDup_snoc {A : Type} (l : list A) (x : A) :
  NoDup l -> ~ In x l -> NoDup (l ++ [x]).
Proof.
  intros Hl Hx. induction Hl as [|y r Hy Hr IH]; simpl.
  - constructor; [intros []|constructor].
  - constructor.
    + rewrite in_app_iff. intros [H|[H|[]]]; [exact (Hy H)|].
      apply Hx. left. symmetry. exact H.
    + apply IH. intros H. apply Hx. right. exact H.
Qed.

Lemma TontineOk_addMember u requested t :
  find (isMember u) (Tontine.members t) = None ->
  TontineOk t ->
  TontineOk (addMember u (assignPosition requested (Tontine.members t)) t).
Proof.
  intros Hm (Hu & Hp & Hs & Hst & Ht). unfold TontineOk, addMember.
  cbn [Tontine.members Tontine.totalAmount]. rewrite !map_app. cbn [map].
  split; [|split; [|split; [|split]]].
  - apply NoDup_snoc; [exact Hu|]. cbn [m_userId].
    intros Hin. apply in_map_iff in Hin. destruct Hin as (x & Hx & Hin).
    pose proof (find_none _ _ Hm x Hin) as E. unfold isMember in E.
    rewrite Hx, Nat.eqb_refl in E. discriminate.
  - apply NoDup_snoc; [exact Hp|]. cbn [position].
    apply (assignPosition_spec requested (Tontine.members t)).
  - apply Forall_app. split; [exact Hs|].
    constructor; [exact isSafeInteger_0|constructor].
  - exact Hst.
  - rewrite contributions_app, Ht. unfold contributions at 3. simpl. ring.
Qed.

(** X8.  A join and a contribution keep every tontine well formed, as
    long as the amounts are safe integers, whose sums the doubles give
    exactly: the members stay distinct users on distinct positions, and
    [totalAmount] stays the sum of the members' contributions.  A join
    keeps the amounts as they are; a contribution is covered when its
    amount, the member's new [contributed] and the tontine's new
    [totalAmount] are safe integers. *)
Theorem tontines_stay_well_formed :
  forall (currentDate currentTime : string) (id : ObjectId)
         (join : JoinRequest) (contribution : ContributeRequest) (d : Db),
    Forall TontineOk (Tontines d) ->
    Forall TontineOk (Tontines (snd (run (postJoin id join) d))) /\
    (isSafeInteger (co_amount contribution) ->
     (forall t m,
         find (isTontine id) (Tontines d) = Some t ->
         find (isMember (co_userId contribution)) (Tontine.members t) = Some m ->
         isSafeInteger (contributed m + co_amount contribution) /\
         isSafeInteger (Tontine.totalAmount t + co_amount contribution)) ->
     Forall TontineOk
       (Tontines (snd (run (postContribute currentDate currentTime id contribution) d)))) /\
    (forall x, isSafeInteger x -> isDouble x).
Proof.
  intros currentDate currentTime id join contribution d H.
  split; [|split; [|exact isSafeInteger_isDouble]].
  - destruct (find (isTontine id) (Tontines d)) as [t|] eqn:Ht.
    + destruct (find (isMember (jo_userId join)) (Tontine.members t)) as [m|] eqn:Hm.
      * unfold run, postJoin. mred_goal. fold (isTontine id). rewrite Ht, Hm. exact H.
      * rewrite (run_postJoin id join d t Ht Hm). cbn [snd Tontines with_Tontines].
        apply updateOne_Forall; [|exact H]. intros x _ _.
        apply TontineOk_addMember; [exact Hm|].
        apply find_In in Ht. destruct Ht as [Ht _].
        rewrite Forall_forall in H. apply H. exact Ht.
    + unfold run, postJoin. mred_goal. fold (isTontine id). rewrite Ht. exact H.
  - intros _ Hsafe. rewrite Tontines_postContribute.
    destruct (find (isTontine id) (Tontines d)) as [t|] eqn:Ht; [|exact H].
    destruct (find (isMember (co_userId contribution)) (Tontine.members t)) as [m|] eqn:Hm;
      [|exact H].
    destruct (Qeq_bool (co_amount contribution) 0); [exact H|].
    destruct (Hsafe t m eq_refl Hm) as [Sm St].
    apply updateOne_Forall; [|exact H]. intros x _ _.
    apply (TontineOk_creditTontine _ _ _ m Hm Sm St).
    apply find_In in Ht. destruct Ht as [Ht _].
    rewrite Forall_forall in H. apply H. exact Ht.
Qed.

Lemma db_tontine_well_formed : Forall TontineOk (Tontines db_tontine).
Proof.
  constructor; [|constructor]. unfold TontineOk. simpl.
  split; [|split; [|split; [|split]]].
  - constructor; [intros []|constructor].
  - constructor; [intros []|constructor].
  - constructor; [exact isSafeInteger_0|constructor].
  - exact isSafeInteger_0.
  - reflexivity.
Defined.

Lemma tontines_stay_well_formed_witness :
  Forall TontineOk (Tontines db_tontine) /\
  Forall TontineOk
    (Tontines (snd (run (postJoin 20 (mkJoinRequest 8 None)) db_tontine))) /\
  Forall TontineOk
    (Tontines (snd (run (postContribute today "10:00" 20 contribute_1000) db_tontine))).
Proof.
  assert (S1000 : isSafeInteger (0 + 1000)).
  { split; [exists 1000%Z; reflexivity|discriminate]. }
  assert (A1000 : isSafeInteger (co_amount contribute_1000)).
  { split; [exists 1000%Z; reflexivity|discriminate]. }
  split; [exact db_tontine_well_formed|].
  destruct (tontines_stay_well_formed today "10:00" 20 (mkJoinRequest 8 None)
              contribute_1000 db_tontine db_tontine_well_formed) as (Hj & Hc & _).
  split; [exact Hj|]. apply (Hc A1000).
  intros t m Ht Hm. injection Ht as <-. injection Hm as <-. split; exact S1000.
Defined.

(* ------------------------------------------------------------------ *)
(** ** Registration: the default budgets *)

Lemma updateOne_app_absent {A : Type} (p : A -> bool) (f : A -> A) l r :
  Forall (fun x => p x = false) l -> updateOne p f (l ++ r) = l ++ updateOne p f r.
Proof.
  induction 1 as [|x l Hx _ IH]; simpl; [reflexivity|]. now rewrite Hx, IH.
Qed.

Lemma byId_fresh (d : Db) (k : nat) :
  wellIdentified d -> Forall (fun b => byId (k + nextId d) b = false) (Budgets d).
Proof.
  intros [_ H]. eapply Forall_impl; [|exact H]. cbv beta. intros b Hb.
  unfold byId. apply Nat.eqb_neq. lia.
Qed.

Lemma byId_mk i j u n c a f p ia ca :
  byId i (Budget.mk j u n c a f p ia ca) = Nat.eqb j i.
Proof. reflexivity. Qed.

(** What registration leaves in the database. *)
Lemma run_createDefaultBudgets userId income d :
  wellIdentified d ->
  let d' := snd (run (createDefaultBudgets userId income) d) in
  Budgets d' = Budgets d ++ defaultBudgets (nextId d) userId income /\
  Transactions d' = Transactions d /\
  nextId d' = S (S (S (nextId d))) /\
  JournalEntries d'
  = JournalEntries d ++
      [initialSetupEntry userId (nextId d) (S (nextId d)) (S (S (nextId d)))
         (monthlyAmountOf income) (weeklyAmountOf income) (dailyAmountOf income)].
Proof.
  intros Hw. unfold run, createDefaultBudgets. mred_goal.
  cbn [Budgets Transactions JournalEntries nextId save_Budget with_Budgets take_id
       save_JournalEntry].
  repeat split.
  rewrite <- !app_assoc. cbn [app].
  rewrite (updateOne_app_absent _ _ _ _ (byId_fresh d 0 Hw)).
  cbn [updateOne Nat.add]. rewrite byId_mk, Nat.eqb_refl.
  rewrite <- !app_assoc. cbn [app].
  rewrite (updateOne_app_absent _ _ _ _ (byId_fresh d 1 Hw)).
  unfold Budget.set_currentAmount.
  cbn [updateOne Budget._id Budget.userId Budget.name
       Budget.clientId Budget.amount Budget.frequency Budget.isPrimary
       Budget.initialAmount Budget.currentAmount Nat.add].
  rewrite !byId_mk, Nat.eqb_refl.
  replace (nextId d =? S (nextId d))%nat with false by (symmetry; apply Nat.eqb_neq; lia).
  reflexivity.
Qed.

Lemma Math_round_bounds (x : Q) :
  inject_Z (Math_round x) <= x + (1 # 2) /\ x - (1 # 2) < inject_Z (Math_round x).
Proof.
  unfold Math_round.
  pose proof (Qfloor_le (x + (1 # 2))) as F1.
  pose proof (Qlt_floor (x + (1 # 2))) as F2.
  rewrite inject_Z_plus in F2. change (inject_Z 1) with 1 in F2.
  split; lra.
Qed.

Lemma Math_round_nonneg (x : Q) : - (1 # 2) <= x -> 0 <= inject_Z (Math_round x).
Proof.
  intros H. unfold Math_round. change 0 with (inject_Z (Qfloor 0)).
  rewrite <- Zle_Qle. apply Qfloor_resp_le. lra.
Qed.


Lemma balance_app l1 l2 : balance (l1 ++ l2) == balance l1 + balance l2.
Proof.
  unfold balance. induction l1 as [|b r IH]; simpl; [ring|]. rewrite IH. ring.
Qed.


Lemma wellIdentified_empty n : wellIdentified (mkDb [] [] [] [] [] [] [] n).
Proof. split; constructor. Defined.


Lemma find_app_absent {A : Type} (p : A -> bool) l r :
  Forall (fun x => p x = false) l -> find p (l ++ r) = find p r.
Proof.
  induction 1 as [|x l Hx _ IH]; simpl; [reflexivity|]. now rewrite Hx.
Qed.

Lemma newUser_no_primary u d :
  newUser u d -> Forall (fun b => isPrimaryMonthlyOf u b = false) (Budgets d).
Proof.
  intros [H _]. eapply Forall_impl; [|exact H]. cbv beta. intros b Hb.
  unfold isPrimaryMonthlyOf. apply Nat.eqb_neq in Hb. now rewrite Hb.
Qed.

Lemma newUser_no_weekly u d :
  newUser u d -> Forall (fun b => isWeeklyOf u b = false) (Budgets d).
Proof.
  intros [H _]. eapply Forall_impl; [|exact H]. cbv beta. intros b Hb.
  unfold isWeeklyOf. apply Nat.eqb_neq in Hb. now rewrite Hb.
Qed.

Lemma monthlyAmountOf_nonzero income :
  ~ income == 0 -> monthlyAmountOf income = income.
Proof.
  intros H. unfold monthlyAmountOf, or_num.
  destruct (Qeq_bool income 0) eqn:E; [|reflexivity].
  apply Qeq_bool_iff in E. contradiction.
Qed.

(** X10.  Registration does not check the income: with a negative
    [primaryIncomeAmount] the primary budget is created with a negative
    [currentAmount]. *)
Theorem createDefaultBudgets_negative_income :
  forall (userId : ObjectId) (primaryIncomeAmount : Q) (d : Db),
    wellIdentified d -> primaryIncomeAmount < 0 ->
    let d' := snd (run (createDefaultBudgets userId primaryIncomeAmount) d) in
    exists p, findById (nextId d) (Budgets d') = Some p /\
              Budget.isPrimary p = true /\ Budget.currentAmount p < 0.
Proof.
  intros u income d Hw Hneg d'.
  destruct (run_createDefaultBudgets u income d Hw) as (HB & _). fold d' in HB.
  rewrite HB. unfold findById.
  rewrite (find_app_absent _ _ _ (byId_fresh d 0 Hw)).
  unfold defaultBudgets. cbv zeta. cbn [find Nat.add]. rewrite byId_mk, Nat.eqb_refl.
  eexists. split; [reflexivity|]. split; [reflexivity|].
  cbn [Budget.currentAmount].
  rewrite (monthlyAmountOf_nonzero income) by lra.
  unfold weeklyAmountOf. rewrite (monthlyAmountOf_nonzero income) by lra.
  destruct (Math_round_bounds (income / 4)) as [_ B].
  assert (E : income / 4 == income * (1 # 4)) by field.
  destruct (Qlt_le_dec income (-2)) as [H2|H2].
  - remember (inject_Z (Math_round (income / 4))) as R eqn:ER. clear ER.
    rewrite E in B. lra.
  - assert (H0 : 0 <= inject_Z (Math_round (income / 4))).
    { apply Math_round_nonneg. rewrite E. lra. }
    lra.
Qed.

Lemma createDefaultBudgets_negative_income_witness :
  let d := mkDb [] [] [] [] [] [] [] 10 in
  wellIdentified d /\ -100 < 0 /\
  let d' := snd (run (createDefaultBudgets 7 (-100)) d) in
  exists p, findById (nextId d) (Budgets d') = Some p /\
            Budget.isPrimary p = true /\ Budget.currentAmount p < 0.
Proof.
  intros d.
  split; [exact (wellIdentified_empty 10)|]. split; [reflexivity|].
  apply (createDefaultBudgets_negative_income 7 (-100) d);
    [exact (wellIdentified_empty 10)|reflexivity].
Defined.

Lemma defaultAmounts_bounds income :
  42 < income ->
  monthlyAmountOf income = income /\
  0 < dailyAmountOf income /\ income / 28 < dailyAmountOf income.
Proof.
  intros H. assert (Hm : monthlyAmountOf income = income)
    by (apply monthlyAmountOf_nonzero; lra).
  split; [exact Hm|].
  unfold dailyAmountOf, weeklyAmountOf. rewrite Hm.
  destruct (Math_round_bounds (income / 4)) as [_ B1].
  destruct (Math_round_bounds (inject_Z (Math_round (income / 4)) / 5)) as [_ B2].
  remember (inject_Z (Math_round (income / 4))) as W eqn:EW.
  remember (inject_Z (Math_round (W / 5))) as D eqn:ED. clear EW ED.
  assert (E1 : income / 4 == income * (1 # 4)) by field.
  assert (E2 : W / 5 == W * (1 # 5)) by field.
  assert (E3 : income / 28 == income * (1 # 28)) by field.
  rewrite E1 in B1. rewrite E2 in B2. rewrite E3. split; lra.
Qed.

Lemma find_defaults_daily d u income :
  wellIdentified d ->
  findById (S (S (nextId d))) (Budgets d ++ defaultBudgets (nextId d) u income)
  = Some (Budget.mk (S (S (nextId d))) u "ARGENT PAR jour" None (dailyAmountOf income)
            daily false (dailyAmountOf income) (dailyAmountOf income)).
Proof.
  intros Hw. unfold findById.
  rewrite (find_app_absent _ _ _ (byId_fresh d 2 Hw)).
  unfold defaultBudgets. cbv zeta. cbn [find Nat.add]. rewrite !byId_mk.
  replace (nextId d =? S (S (nextId d)))%nat with false by (symmetry; apply Nat.eqb_neq; lia).
  replace (S (nextId d) =? S (S (nextId d)))%nat with false
    by (symmetry; apply Nat.eqb_neq; lia).
  rewrite Nat.eqb_refl. reflexivity.
Qed.

Lemma find_defaults_primary d u income :
  newUser u d ->
  find (isPrimaryMonthlyOf u) (Budgets d ++ defaultBudgets (nextId d) u income)
  = Some (Budget.mk (nextId d) u "Salaire Principal" None (monthlyAmountOf income)
            monthly true (monthlyAmountOf income)
            (monthlyAmountOf income - weeklyAmountOf income)).
Proof.
  intros Hn. rewrite (find_app_absent _ _ _ (newUser_no_primary u d Hn)).
  unfold defaultBudgets. cbv zeta. cbn [find]. unfold isPrimaryMonthlyOf at 1.
  cbn [Budget.userId Budget.frequency Budget.isPrimary Frequency_eqb andb].
  rewrite Nat.eqb_refl. reflexivity.
Qed.

(** X11.  The default daily budget is above the cap the hierarchy
    validator enforces: for an income above 42, editing the daily budget
    that registration has just created to the amount it already has is
    rejected (daily above a 28th of the monthly budget), and nothing
    changes. *)
Theorem default_daily_budget_above_cap :
  forall (userId : ObjectId) (primaryIncomeAmount : Q) (d : Db),
    wellIdentified d -> newUser userId d -> 42 < primaryIncomeAmount ->
    let d' := snd (run (createDefaultBudgets userId primaryIncomeAmount) d) in
    run (putBudget (S (S (nextId d)))
           (mkBudgetEdit None (Some (dailyAmountOf primaryIncomeAmount)))) d'
    = (mkResponse 400
         (Hierarchie (Journalier_depasse_mensuel (Math_floor (primaryIncomeAmount / 28)))),
       d').
Proof.
  intros u income d Hw Hn Hinc d'.
  destruct (run_createDefaultBudgets u income d Hw) as (HB & _). fold d' in HB.
  destruct (defaultAmounts_bounds income Hinc) as (Hm & Hd0 & Hcap).
  unfold run, putBudget. mred_goal. rewrite HB, (find_defaults_daily d u income Hw).
  cbn [be_amount be_name Budget.isPrimary Budget.userId Budget.frequency].
  apply Qltb_true in Hd0. rewrite Hd0.
  unfold validateBudgetHierarchy. rewrite Hd0. cbn [negb].
  cbn [db]. rewrite HB, (find_defaults_primary d u income Hn).
  cbn [Budget.initialAmount Budget.amount]. rewrite Hm.
  assert (Ho : or_num income (or_num income 0) = income).
  { unfold or_num. destruct (Qeq_bool income 0) eqn:E; [|reflexivity].
    apply Qeq_bool_iff in E. lra. }
  rewrite Ho. apply Qltb_true in Hcap. rewrite Hcap. reflexivity.
Qed.

Lemma newUser_empty u n : newUser u (mkDb [] [] [] [] [] [] [] n).
Proof. split; constructor. Defined.

Lemma default_daily_budget_above_cap_witness :
  let d := mkDb [] [] [] [] [] [] [] 10 in
  wellIdentified d /\ newUser 7 d /\ 42 < 400000 /\
  let d' := snd (run (createDefaultBudgets 7 400000) d) in
  run (putBudget (S (S (nextId d))) (mkBudgetEdit None (Some (dailyAmountOf 400000)))) d'
  = (mkResponse 400 (Hierarchie (Journalier_depasse_mensuel (Math_floor (400000 / 28)))),
     d').
Proof.
  intros d.
  split; [exact (wellIdentified_empty 10)|]. split; [exact (newUser_empty 7 10)|].
  split; [reflexivity|].
  apply (default_daily_budget_above_cap 7 400000 d);
    [exact (wellIdentified_empty 10)|exact (newUser_empty 7 10)|reflexivity].
Defined.





(* ------------------------------------------------------------------ *)
(** ** Deleting a budget *)

Lemma find_deleteOne_first {A : Type} (p q : A -> bool) l b :
  find p l = Some b -> q b = false -> find q (deleteOne p l) = find q l.
Proof.
  induction l as [|x r IH]; simpl; [discriminate|].
  destruct (p x) eqn:E; intros H Hq.
  - injection H as ->. now rewrite Hq.
  - simpl. destruct (q x); [reflexivity|]. now apply IH.
Qed.

Lemma findById_deleteOne id l :
  NoDup (ids l) -> findById id (deleteOne (byId id) l) = None.
Proof.
  unfold findById. induction l as [|x r IH]; simpl; [reflexivity|].
  intros Hn. inversion Hn as [|? ? Hx Hr]; subst.
  destruct (byId id x) eqn:E.
  - destruct (find (byId id) r) as [y|] eqn:F; [|reflexivity].
    exfalso. apply find_In in F. destruct F as [Hy Ey]. apply Hx.
    unfold byId in *. apply Nat.eqb_eq in E, Ey. rewrite E, <- Ey.
    unfold ids. now apply in_map.
  - simpl. rewrite E. now apply IH.
Qed.

Lemma postTransaction_no_budget ts currentDate currentTime req d :
  tr_type req = expense -> transactionValidationSchema req = true ->
  unlocked (tr_userId req) currentDate d ->
  findById (tr_budgetId req) (Budgets d) = None ->
  run (postTransaction ts currentDate currentTime req) d
  = (mkResponse 404 Budget_non_trouve, d).
Proof.
  intros Ht Hv Hun Hb. unfold run, postTransaction.
  rewrite Hv. mred_goal.
  rewrite (unlocked_spec _ _ _ Hun), Ht. cbv beta iota. cbn [db]. rewrite Hb. reflexivity.
Qed.

(** X13.  Deleting a budget removes that document and nothing else: the
    other budgets, the transactions and the journal stay as they are, so
    what was spent from the deleted budget still counts in the month's
    available figure; an expense that passes the validation and is posted
    against the deleted budget afterwards, on a day that is not locked, is
    answered 404 and changes nothing. *)
Theorem deleteBudget_keeps_history :
  forall (id : ObjectId) (d : Db) (b : Budget.t),
    NoDup (ids (Budgets d)) -> findById id (Budgets d) = Some b ->
    let (s, d') := run (deleteBudget id) d in
    s = 200%nat /\
    findById id (Budgets d') = None /\
    (forall j, j <> id -> findById j (Budgets d') = findById j (Budgets d)) /\
    Transactions d' = Transactions d /\ JournalEntries d' = JournalEntries d /\
    (forall u currentDate,
        isPrimaryMonthlyOf u b = false ->
        availableFigure u currentDate d' = availableFigure u currentDate d) /\
    (forall ts currentDate currentTime req,
        tr_type req = expense -> tr_budgetId req = id ->
        transactionValidationSchema req = true ->
        unlocked (tr_userId req) currentDate d' ->
        run (postTransaction ts currentDate currentTime req) d'
        = (mkResponse 404 Budget_non_trouve, d')).
Proof.
  intros id d b Hn Hb. unfold run, deleteBudget. mred_goal. rewrite Hb. mred_goal.
  split; [reflexivity|].
  assert (Hnone : findById id (Budgets (with_Budgets (deleteOne (byId id)) d)) = None)
    by (apply findById_deleteOne; exact Hn).
  split; [exact Hnone|]. split; [|split; [reflexivity|split; [reflexivity|split]]].
  - intros j Hj. unfold findById. cbn [Budgets with_Budgets].
    apply (find_deleteOne_first _ _ _ b Hb).
    apply find_In in Hb. destruct Hb as [_ Hb]. unfold byId in *.
    apply Nat.eqb_eq in Hb. apply Nat.eqb_neq. congruence.
  - intros u currentDate Hp. unfold availableFigure. cbn [Budgets Transactions with_Budgets].
    rewrite (find_deleteOne_first _ _ _ b Hb Hp). reflexivity.
  - intros ts currentDate currentTime req Ht Hid Hpos Hun.
    apply postTransaction_no_budget; try assumption. rewrite Hid. exact Hnone.
Qed.

Lemma deleteBudget_keeps_history_witness :
  NoDup (ids (Budgets db_in_step)) /\
  findById 3 (Budgets db_in_step)
  = Some (sampleBudget 3 "ARGENT PAR jour" 14285 daily false 14285) /\
  let (s, d') := run (deleteBudget 3) db_in_step in
  s = 200%nat /\
  findById 3 (Budgets d') = None /\
  (forall j, j <> 3%nat -> findById j (Budgets d') = findById j (Budgets db_in_step)) /\
  Transactions d' = Transactions db_in_step /\
  JournalEntries d' = JournalEntries db_in_step /\
  (forall u currentDate,
      isPrimaryMonthlyOf u (sampleBudget 3 "ARGENT PAR jour" 14285 daily false 14285)
      = false ->
      availableFigure u currentDate d' = availableFigure u currentDate db_in_step) /\
  (forall ts currentDate currentTime req,
      tr_type req = expense -> tr_budgetId req = 3%nat ->
      transactionValidationSchema req = true ->
      unlocked (tr_userId req) currentDate d' ->
      run (postTransaction ts currentDate currentTime req) d'
      = (mkResponse 404 Budget_non_trouve, d')).
Proof.
  assert (Hn : NoDup (ids (Budgets db_in_step))).
  { repeat constructor; simpl; intuition discriminate. }
  split; [exact Hn|]. split; [reflexivity|].
  exact (deleteBudget_keeps_history 3 db_in_step _ Hn eq_refl).
Defined.

(* ------------------------------------------------------------------ *)
(** ** Properties every operation keeps *)

Lemma keeps_ret {A : Type} I (a : A) : keeps I (ret a).
Proof. intros w H. exact H. Qed.

Lemma keeps_bind {A B : Type} I (m : M A) (k : A -> M B) :
  keeps I m -> (forall a, keeps I (k a)) -> keeps I (bind m k).
Proof.
  intros Hm Hk w H. unfold bind. specialize (Hm w H).
  destruct (m w) as [a w']. apply Hk. exact Hm.
Qed.

Lemma keeps_read {A : Type} I (f : Db -> A) : keeps I (read f).
Proof. intros w H. exact H. Qed.

Lemma keeps_write I (f : Db -> Db) : (forall d, I d -> I (f d)) -> keeps I (write f).
Proof.
  intros Hf w (Hd & Hs). unfold write, Stable. cbn [snd db trace sched].
  split; auto.
Qed.

Lemma keeps_yield I : keeps I yield.
Proof.
  intros w (Hd & Hs). unfold yield.
  destruct (sched w) as [|g rest] eqn:E; cbn [snd].
  - unfold Stable. rewrite E. auto.
  - inversion Hs; subst. unfold Stable. cbn [db trace sched]. split; auto.
Qed.

Lemma keeps_newId I : (forall d, I d -> I (take_id d)) -> keeps I newId.
Proof.
  intros Hf w (Hd & Hs). unfold newId, Stable. cbn [snd db trace sched]. auto.
Qed.

Lemma keeps_atomically {A : Type} I (m : M (Outcome A)) :
  keeps I m -> keeps I (atomically m).
Proof.
  intros Hm w (Hd & Hs). unfold atomically.
  assert (S0 : Stable I (mkWorld (db w) [] [])) by (unfold Stable; simpl; auto).
  specialize (Hm _ S0). destruct (m (mkWorld (db w) [] [])) as [o w'].
  destruct Hm as (Hd' & _). cbn [snd] in Hd'.
  destruct o; unfold Stable; cbn [snd db trace sched]; auto.
Qed.

Ltac keeps_step C :=
  match goal with
  | |- keeps _ (bind _ _) => apply keeps_bind; [|intros]
  | |- keeps _ (ret _) => apply keeps_ret
  | |- keeps _ (read _) => apply keeps_read
  | |- keeps _ yield => apply keeps_yield
  | |- keeps _ newId => apply keeps_newId; exact (closed_take_id _ C)
  | |- keeps _ (atomically _) => apply keeps_atomically
  | |- keeps _ (write (save_Transaction _)) =>
      apply keeps_write; exact (closed_save_Transaction _ C _)
  | |- keeps _ (write (save_JournalEntry _)) =>
      apply keeps_write; exact (closed_save_JournalEntry _ C _)
  | |- keeps _ (write (with_Days (upsertDay _ _ _ _ _ _ _))) =>
      apply keeps_write; exact (closed_upsertDay _ C _ _ _ _ _ _ _)
  | |- keeps _ (write (with_Objectives _)) =>
      apply keeps_write; exact (closed_Objectives _ C _)
  | |- keeps _ (write (with_Tontines _)) =>
      apply keeps_write; exact (closed_Tontines _ C _)
  | |- keeps _ (write (with_Budgets (updateOne _ (Budget.set_currentAmount _)))) =>
      apply keeps_write; exact (closed_set_currentAmount _ C _ _)
  | |- keeps _ (write (with_Budgets (updateOne _ (Budget.inc_currentAmount _)))) =>
      apply keeps_write; exact (closed_inc_currentAmount _ C _ _)
  | |- keeps _ (match ?x with _ => _ end) => destruct x eqn:?
  end.

Section KeptByTheLedger.
Variable I : Db -> Prop.
Hypothesis C : Closed I.

Lemma keeps_calculateBudgetsAvailable u currentDate :
  keeps I (calculateBudgetsAvailable u currentDate).
Proof. unfold calculateBudgetsAvailable. repeat keeps_step C. Qed.

Lemma keeps_updateDayTotals u currentDate : keeps I (updateDayTotals u currentDate).
Proof.
  unfold updateDayTotals. repeat keeps_step C. apply keeps_calculateBudgetsAvailable.
Qed.

Lemma keeps_cascadeSet u b : keeps I (cascadeSet u b).
Proof. unfold cascadeSet. repeat keeps_step C. Qed.

Lemma keeps_allocationSet u b : keeps I (allocationSet u b).
Proof. unfold allocationSet. repeat keeps_step C. Qed.

Lemma keeps_applyAfter affected : keeps I (applyAfter affected).
Proof. induction affected as [|a rest IH]; simpl; repeat keeps_step C; auto. Qed.

Lemma keeps_conditionalDecrement id amount : keeps I (conditionalDecrement id amount).
Proof. unfold conditionalDecrement. repeat keeps_step C. Qed.

Lemma keeps_applyConditional amount affected :
  forall updated, keeps I (applyConditional amount affected updated).
Proof.
  induction affected as [|a rest IH]; simpl; intros updated; repeat keeps_step C; auto.
  apply keeps_conditionalDecrement.
Qed.

Lemma keeps_revertUpdated amount updated : keeps I (revertUpdated amount updated).
Proof. induction updated as [|bid rest IH]; simpl; repeat keeps_step C; auto. Qed.

Lemma keeps_postTransaction ts currentDate currentTime req :
  keeps I (postTransaction ts currentDate currentTime req).
Proof.
  unfold postTransaction.
  repeat keeps_step C;
    unfold postTransaction_transactional, postTransaction_fallback, newTransaction;
    repeat keeps_step C;
    try apply keeps_updateDayTotals; try apply keeps_cascadeSet;
    try apply keeps_applyConditional; try apply keeps_revertUpdated;
    try apply keeps_applyAfter.
Qed.

Lemma keeps_postAllocate ts currentDate currentTime id req :
  keeps I (postAllocate ts currentDate currentTime id req).
Proof.
  unfold postAllocate.
  repeat keeps_step C;
    try apply keeps_updateDayTotals; try apply keeps_allocationSet;
    try apply keeps_applyConditional; try apply keeps_revertUpdated;
    try apply keeps_applyAfter.
Qed.

Lemma keeps_postContribute currentDate currentTime id req :
  keeps I (postContribute currentDate currentTime id req).
Proof.
  unfold postContribute. repeat keeps_step C; apply keeps_updateDayTotals.
Qed.

(** The handlers that write more than the ledger's own writes are
    premises: the lazy creation of the Day record, and the creation and
    the edition of a budget. *)
Lemma keeps_handle ts currentDate currentTime r :
  (forall u, keeps I (getDay u currentDate)) ->
  (forall req, r = POST_budgets req -> keeps I (postBudget ts req)) ->
  (forall id req, keeps I (putBudget id req)) ->
  keeps I (handle ts currentDate currentTime r).
Proof.
  intros Hday Hpost Hput. destruct r; cbn [handle].
  - apply keeps_postTransaction.
  - apply Hpost. reflexivity.
  - apply Hput.
  - apply keeps_postAllocate.
  - apply keeps_postContribute.
  - repeat keeps_step C. apply Hday.
  - repeat keeps_step C. apply keeps_calculateBudgetsAvailable.
Qed.

End KeptByTheLedger.

Lemma keeps_getDay I u currentDate :
  Closed I -> (forall t d, I d -> I (save_Day t d)) -> keeps I (getDay u currentDate).
Proof.
  intros C Hday. unfold getDay. repeat keeps_step C.
  - apply keeps_calculateBudgetsAvailable. exact C.
  - apply keeps_write. apply Hday.
Qed.

Lemma Closed_budgetsGrowFrom l0 : Closed (budgetsGrowFrom l0).
Proof.
  constructor; try (intros; assumption).
  - intros p v d (c & H). exists c. cbn [Budgets with_Budgets].
    rewrite map_updateOne_same by reflexivity. exact H.
  - intros p v d (c & H). exists c. cbn [Budgets with_Budgets].
    rewrite map_updateOne_same by reflexivity. exact H.
Qed.

Lemma budgetsGrowFrom_save_Budget l0 b d :
  budgetsGrowFrom l0 d -> budgetsGrowFrom l0 (save_Budget b d).
Proof.
  intros (c & H). exists (c ++ [identity b]).
  cbn [Budgets save_Budget with_Budgets]. rewrite map_app, H, app_assoc. reflexivity.
Qed.

Lemma budgetsGrowFrom_edit l0 p (f : Budget.t -> Budget.t) d :
  (forall b, identity (f b) = identity b) ->
  budgetsGrowFrom l0 d -> budgetsGrowFrom l0 (with_Budgets (updateOne p f) d).
Proof.
  intros Hf (c & H). exists c. cbn [Budgets with_Budgets].
  rewrite map_updateOne_same by exact Hf. exact H.
Qed.

Lemma keeps_budgetsGrowFrom_postBudget l0 ts req :
  keeps (budgetsGrowFrom l0) (postBudget ts req).
Proof.
  pose proof (Closed_budgetsGrowFrom l0) as C. unfold postBudget.
  repeat keeps_step C;
    try (apply keeps_conditionalDecrement; exact C);
    apply keeps_write; intros d; apply budgetsGrowFrom_save_Budget.
Qed.

Lemma keeps_budgetsGrowFrom_putBudget l0 id req :
  keeps (budgetsGrowFrom l0) (putBudget id req).
Proof.
  pose proof (Closed_budgetsGrowFrom l0) as C. unfold putBudget.
  repeat keeps_step C;
    apply keeps_write; intros d; apply budgetsGrowFrom_edit; intros b;
    destruct (be_name req) as [n|]; try destruct (String.eqb n ""); reflexivity.
Qed.

(** X14.  No exposed operation removes a budget or changes what
    identifies it: after any request, in either mode and whatever other
    requests doing the same run in between, the budgets that were there
    are still there, in order, each with the [_id], owner, [clientId],
    frequency, primary flag and [initialAmount] it had; new budgets come
    after them. *)
Theorem budgets_append_only :
  forall (TRANSACTIONS_SUPPORTED : bool) (currentDate currentTime : string)
         (r : Request) (w : World),
    Forall (fun g => forall d, budgetsGrowFrom (Budgets (db w)) d ->
                               budgetsGrowFrom (Budgets (db w)) (g d)) (sched w) ->
    let w' := snd (handle TRANSACTIONS_SUPPORTED currentDate currentTime r w) in
    exists created,
      map identity (Budgets (db w')) = map identity (Budgets (db w)) ++ created.
Proof.
  intros ts currentDate currentTime r w Hs.
  assert (S0 : Stable (budgetsGrowFrom (Budgets (db w))) w).
  { split; [|exact Hs]. exists []. now rewrite app_nil_r. }
  pose proof (Closed_budgetsGrowFrom (Budgets (db w))) as C.
  destruct (keeps_handle _ C ts currentDate currentTime r
              (fun u => keeps_getDay _ u currentDate C (fun t d H => H))
              (fun req _ => keeps_budgetsGrowFrom_postBudget _ ts req)
              (keeps_budgetsGrowFrom_putBudget _) w S0) as [H _].
  exact H.
Qed.

Lemma budgets_append_only_witness :
  let w := mkWorld db_in_step [rival_spends_weekly] [] in
  Forall (fun g => forall d, budgetsGrowFrom (Budgets (db w)) d ->
                             budgetsGrowFrom (Budgets (db w)) (g d)) (sched w) /\
  let w' := snd (handle false today "10:00" (POST_budgets (daily_of 1000)) w) in
  exists created,
    map identity (Budgets (db w')) = map identity (Budgets (db w)) ++ created.
Proof.
  intros w.
  assert (Hs : Forall (fun g => forall d, budgetsGrowFrom (Budgets (db w)) d ->
                                 budgetsGrowFrom (Budgets (db w)) (g d)) (sched w)).
  { constructor; [|constructor]. intros d.
    exact (closed_inc_currentAmount _ (Closed_budgetsGrowFrom _) _ _ d). }
  split; [exact Hs|].
  exact (budgets_append_only false today "10:00" (POST_budgets (daily_of 1000)) w Hs).
Defined.

Lemma Closed_ledgerGrowsFrom d0 : Closed (ledgerGrowsFrom d0).
Proof.
  constructor; try (intros; assumption).
  - intros t d ((a & Ha) & Hj). split; [|exact Hj]. exists (a ++ [t]).
    cbn [Transactions save_Transaction]. now rewrite Ha, app_assoc.
  - intros j d (Ht & (a & Ha)). split; [exact Ht|]. exists (a ++ [j]).
    cbn [JournalEntries save_JournalEntry]. now rewrite Ha, app_assoc.
Qed.

Lemma keeps_ledgerGrowsFrom_postBudget d0 ts req :
  keeps (ledgerGrowsFrom d0) (postBudget ts req).
Proof.
  pose proof (Closed_ledgerGrowsFrom d0) as C. unfold postBudget.
  repeat keeps_step C;
    try (apply keeps_conditionalDecrement; exact C);
    apply keeps_write; intros d H; exact H.
Qed.

Lemma keeps_ledgerGrowsFrom_putBudget d0 id req :
  keeps (ledgerGrowsFrom d0) (putBudget id req).
Proof.
  pose proof (Closed_ledgerGrowsFrom d0) as C. unfold putBudget.
  repeat keeps_step C; apply keeps_write; intros d H; exact H.
Qed.

Lemma sameLedger_refl d : sameLedger d d.
Proof. split; reflexivity. Qed.

Lemma sameLedger_trans d1 d2 d3 :
  sameLedger d1 d2 -> sameLedger d2 d3 -> sameLedger d1 d3.
Proof. intros [A B] [A' B']. split; congruence. Qed.

Lemma quiet_ret {A : Type} (a : A) : quiet (ret a).
Proof. intros w H. split; [apply sameLedger_refl|exact H]. Qed.

Lemma quiet_read {A : Type} (f : Db -> A) : quiet (read f).
Proof. intros w H. split; [apply sameLedger_refl|exact H]. Qed.

Lemma quiet_bind {A B : Type} (m : M A) (k : A -> M B) :
  quiet m -> (forall a, quiet (k a)) -> quiet (bind m k).
Proof.
  intros Hm Hk w H. unfold bind. destruct (Hm w H) as [L S].
  destruct (m w) as [a w1]. cbn [snd] in *. destruct (Hk a w1 S) as [L' S'].
  split; [exact (sameLedger_trans _ _ _ L L')|exact S'].
Qed.

Lemma quiet_write (f : Db -> Db) : keeps_ledger f -> quiet (write f).
Proof.
  intros Hf w H. unfold write. cbn [snd db sched]. split; [exact (Hf (db w))|exact H].
Qed.

Lemma quiet_newId : quiet newId.
Proof. intros w H. unfold newId. cbn [snd db sched]. split; [split; reflexivity|exact H]. Qed.

Lemma quiet_yield : quiet yield.
Proof.
  intros w H. unfold yield. destruct (sched w) as [|g rest] eqn:E; cbn [snd].
  - rewrite E. split; [apply sameLedger_refl|constructor].
  - inversion H as [|? ? Hg Hrest]; subst. cbn [db sched].
    split; [exact (Hg (db w))|exact Hrest].
Qed.

Lemma keeps_ledger_with_Budgets f : keeps_ledger (with_Budgets f).
Proof. intros d. split; reflexivity. Qed.

Lemma quiet_conditionalDecrement id amount : quiet (conditionalDecrement id amount).
Proof.
  unfold conditionalDecrement. apply quiet_bind; [apply quiet_read|]. intros [b|].
  - apply quiet_bind; [apply quiet_write, keeps_ledger_with_Budgets|].
    intros _. apply quiet_ret.
  - apply quiet_ret.
Qed.

Lemma quiet_applyConditional amount affected :
  forall updated, quiet (applyConditional amount affected updated).
Proof.
  induction affected as [|a rest IH]; intros updated; cbn [applyConditional].
  - apply quiet_ret.
  - apply quiet_bind; [apply quiet_yield|]. intros _.
    apply quiet_bind; [apply quiet_conditionalDecrement|]. intros [|].
    + apply IH.
    + apply quiet_ret.
Qed.

Lemma quiet_revertUpdated amount updated : quiet (revertUpdated amount updated).
Proof.
  induction updated as [|bid rest IH]; cbn [revertUpdated]; [apply quiet_ret|].
  apply quiet_bind; [apply quiet_write, keeps_ledger_with_Budgets|]. intros _. exact IH.
Qed.

Lemma quiet_cascadeSet u b : quiet (cascadeSet u b).
Proof.
  unfold cascadeSet. destruct (Budget.frequency b);
    repeat first [apply quiet_ret|apply quiet_bind; [apply quiet_read|intros]].
Qed.

Lemma quiet_allocationSet u b : quiet (allocationSet u b).
Proof.
  unfold allocationSet. destruct (Budget.frequency b);
    repeat first [apply quiet_ret|apply quiet_bind; [apply quiet_read|intros]].
Qed.

Lemma refusesCleanly_ret r : refusesCleanly (ret r).
Proof. intros w _ _. apply sameLedger_refl. Qed.

Lemma refusesCleanly_bind {A : Type} (m : M A) (k : A -> M Response) :
  quiet m -> (forall a, refusesCleanly (k a)) -> refusesCleanly (bind m k).
Proof.
  intros Hm Hk w H. unfold bind. destruct (Hm w H) as [L S].
  destruct (m w) as [a w1]. cbn [snd] in *. intros Hr.
  exact (sameLedger_trans _ _ _ L (Hk a w1 S Hr)).
Qed.

Lemma refusesCleanly_accepts m : accepts m -> refusesCleanly m.
Proof. intros Hm w _ Hr. exfalso. exact (Hm w Hr). Qed.

Lemma refusesCleanly_atomically m : commitsNoRefusal m -> refusesCleanly (atomically m).
Proof.
  intros Hm w _. unfold atomically. specialize (Hm (mkWorld (db w) [] [])).
  destruct (m (mkWorld (db w) [] [])) as [[r|r] w1]; cbn [fst snd] in *; intros Hr.
  - exfalso. exact (Hm Hr).
  - apply sameLedger_refl.
Qed.

Lemma accepts_ret r : (status r < 400)%nat -> accepts (ret r).
Proof. intros H w. unfold refused, ret. cbn [fst]. lia. Qed.

Lemma accepts_bind {A : Type} (m : M A) (k : A -> M Response) :
  (forall a, accepts (k a)) -> accepts (bind m k).
Proof. intros Hk w. unfold bind. destruct (m w) as [a w1]. apply Hk. Qed.

Lemma commitsNoRefusal_Commit r : (status r < 400)%nat -> commitsNoRefusal (ret (Commit r)).
Proof. intros H w. unfold refused, ret. cbn [fst]. lia. Qed.

Lemma commitsNoRefusal_Abort r : commitsNoRefusal (ret (Abort r)).
Proof. intros w. exact Logic.I. Qed.

Lemma commitsNoRefusal_bind {A : Type} (m : M A) (k : A -> M (Outcome Response)) :
  (forall a, commitsNoRefusal (k a)) -> commitsNoRefusal (bind m k).
Proof. intros Hk w. unfold bind. destruct (m w) as [a w1]. apply Hk. Qed.

(** One step along a handler: up to the first record written nothing
    touches the ledger, and from there on the answer is no refusal. *)
Ltac refusal_step :=
  match goal with
  | |- refusesCleanly (ret _) => apply refusesCleanly_ret
  | |- refusesCleanly (atomically _) => apply refusesCleanly_atomically
  | |- refusesCleanly (bind (read _) _) =>
      apply refusesCleanly_bind; [apply quiet_read|intros]
  | |- refusesCleanly (bind yield _) =>
      apply refusesCleanly_bind; [apply quiet_yield|intros]
  | |- refusesCleanly (bind newId _) =>
      apply refusesCleanly_bind; [apply quiet_newId|intros]
  | |- refusesCleanly (bind (cascadeSet _ _) _) =>
      apply refusesCleanly_bind; [apply quiet_cascadeSet|intros]
  | |- refusesCleanly (bind (allocationSet _ _) _) =>
      apply refusesCleanly_bind; [apply quiet_allocationSet|intros]
  | |- refusesCleanly (bind (conditionalDecrement _ _) _) =>
      apply refusesCleanly_bind; [apply quiet_conditionalDecrement|intros]
  | |- refusesCleanly (bind (applyConditional _ _ _) _) =>
      apply refusesCleanly_bind; [apply quiet_applyConditional|intros]
  | |- refusesCleanly (bind (revertUpdated _ _) _) =>
      apply refusesCleanly_bind; [apply quiet_revertUpdated|intros]
  | |- refusesCleanly (bind _ _) => apply refusesCleanly_accepts
  | |- refusesCleanly (match ?x with _ => _ end) => destruct x
  | |- accepts (bind _ _) => apply accepts_bind; intros
  | |- accepts (ret _) => apply accepts_ret; cbn [status]; lia
  | |- accepts (match ?x with _ => _ end) => destruct x
  | |- commitsNoRefusal (bind _ _) => apply commitsNoRefusal_bind; intros
  | |- commitsNoRefusal (ret (Commit _)) =>
      apply commitsNoRefusal_Commit; cbn [status]; lia
  | |- commitsNoRefusal (ret (Abort _)) => apply commitsNoRefusal_Abort
  | |- commitsNoRefusal (match ?x with _ => _ end) => destruct x
  end.

Lemma refusesCleanly_handle ts currentDate currentTime r :
  refusesCleanly (handle ts currentDate currentTime r).
Proof.
  destruct r; cbn [handle].
  - unfold postTransaction, postTransaction_transactional, postTransaction_fallback.
    cbv zeta. repeat refusal_step.
  - unfold postBudget. cbv zeta. repeat refusal_step.
  - unfold putBudget. cbv zeta. repeat refusal_step.
  - unfold postAllocate. cbv zeta. repeat refusal_step.
  - unfold postContribute. cbv zeta. repeat refusal_step.
  - unfold getDay. cbv zeta. repeat refusal_step.
  - repeat refusal_step.
Qed.

(** X15.  The ledger is append-only: after any request, in either mode
    and whatever other requests doing the same run in between, the
    Transaction and the JournalEntry collections are what they were,
    followed by what was appended; no operation edits or removes a
    record.  A request that is refused (a status of 400 or above), or
    whose multi-document transaction is aborted, leaves no record behind:
    when the requests running in between write none, the two collections
    are exactly what they were. *)
Theorem ledger_append_only :
  forall (TRANSACTIONS_SUPPORTED : bool) (currentDate currentTime : string)
         (r : Request) (w : World),
    Forall (fun g => forall d, ledgerGrowsFrom (db w) d -> ledgerGrowsFrom (db w) (g d))
           (sched w) ->
    let answer := fst (handle TRANSACTIONS_SUPPORTED currentDate currentTime r w) in
    let w' := snd (handle TRANSACTIONS_SUPPORTED currentDate currentTime r w) in
    (exists appended, Transactions (db w') = Transactions (db w) ++ appended) /\
    (exists appended, JournalEntries (db w') = JournalEntries (db w) ++ appended) /\
    (Forall keeps_ledger (sched w) -> (400 <= status answer)%nat ->
     Transactions (db w') = Transactions (db w) /\
     JournalEntries (db w') = JournalEntries (db w)).
Proof.
  intros ts currentDate currentTime r w Hs.
  assert (S0 : Stable (ledgerGrowsFrom (db w)) w).
  { split; [|exact Hs]. split; exists []; now rewrite app_nil_r. }
  pose proof (Closed_ledgerGrowsFrom (db w)) as C.
  destruct (keeps_handle _ C ts currentDate currentTime r
              (fun u => keeps_getDay _ u currentDate C (fun t d H => H))
              (fun req _ => keeps_ledgerGrowsFrom_postBudget _ ts req)
              (keeps_ledgerGrowsFrom_putBudget _) w S0) as [[H1 H2] _].
  split; [exact H1|]. split; [exact H2|].
  intros Hq Hr. exact (refusesCleanly_handle ts currentDate currentTime r w Hq Hr).
Qed.

Lemma ledger_append_only_witness :
  let w := mkWorld db_in_step [rival_spends_weekly] [] in
  Forall (fun g => forall d, ledgerGrowsFrom (db w) d -> ledgerGrowsFrom (db w) (g d))
         (sched w) /\
  Forall keeps_ledger (sched w) /\
  let answer := fst (handle false today "10:00" (POST_transactions (expense_on 3 1500)) w) in
  let w' := snd (handle false today "10:00" (POST_transactions (expense_on 3 1500)) w) in
  (exists appended, Transactions (db w') = Transactions (db w) ++ appended) /\
  (exists appended, JournalEntries (db w') = JournalEntries (db w) ++ appended) /\
  status answer = 409%nat /\
  Transactions (db w') = Transactions (db w) /\
  JournalEntries (db w') = JournalEntries (db w).
Proof.
  intros w.
  assert (Hs : Forall (fun g => forall d, ledgerGrowsFrom (db w) d ->
                                 ledgerGrowsFrom (db w) (g d)) (sched w)).
  { constructor; [|constructor]. intros d.
    exact (closed_inc_currentAmount _ (Closed_ledgerGrowsFrom _) _ _ d). }
  assert (Hq : Forall keeps_ledger (sched w)).
  { constructor; [|constructor]. intros d. split; reflexivity. }
  split; [exact Hs|]. split; [exact Hq|].
  destruct (ledger_append_only false today "10:00" (POST_transactions (expense_on 3 1500))
              w Hs) as (H1 & H2 & H3).
  assert (Hst : status (fst (handle false today "10:00"
                               (POST_transactions (expense_on 3 1500)) w)) = 409%nat)
    by (vm_compute; reflexivity).
  split; [exact H1|]. split; [exact H2|]. split; [exact Hst|].
  apply (H3 Hq). rewrite Hst. apply Nat.leb_le. reflexivity.
Defined.

(* ------------------------------------------------------------------ *)
(** ** Creating and editing budgets *)

Lemma sameCollections_refl d : sameCollections d d.
Proof. repeat split. Qed.

Lemma sameCollections_take_id d : sameCollections d (take_id d).
Proof. repeat split. Qed.

Lemma updateOne_app_present {A : Type} (p : A -> bool) (f : A -> A) l r x :
  find p l = Some x -> updateOne p f (l ++ r) = updateOne p f l ++ r.
Proof.
  induction l as [|y l IH]; simpl; [discriminate|].
  destruct (p y); [reflexivity|]. intros H. now rewrite IH.
Qed.

(** One step along the paths of a budget handler run alone. *)
Ltac budget_step :=
  match goal with
  | |- context [match find ?p ?l with _ => _ end] => destruct (find p l) eqn:?
  | |- context [match findById ?i ?l with _ => _ end] => destruct (findById i l) eqn:?
  | |- context [match validateBudgetHierarchy ?a ?b ?c ?e with _ => _ end] =>
      destruct (validateBudgetHierarchy a b c e) eqn:?
  | |- context [match or_null ?c with _ => _ end] => destruct (or_null c) eqn:?
  | |- context [match be_amount ?r with _ => _ end] => destruct (be_amount r) eqn:?
  | |- context [match be_name ?r with _ => _ end] => destruct (be_name r) eqn:?
  | |- context [if Frequency_eqb ?a ?b then _ else _] =>
      destruct (Frequency_eqb a b) eqn:?
  | |- context [if Qltb ?a ?b then _ else _] => destruct (Qltb a b) eqn:?
  | |- context [if String.eqb ?a ?b then _ else _] => destruct (String.eqb a b) eqn:?
  | |- context [if Budget.isPrimary ?b then _ else _] =>
      destruct (Budget.isPrimary b) eqn:?
  | |- context [if br_isPrimary ?r then _ else _] => destruct (br_isPrimary r) eqn:?
  | |- context [if ?b then _ else _] => is_var b; destruct b
  end; mred_goal; cbn [andb negb db].

(** POST /api/budgets answers 201 or leaves every collection as it was. *)
Lemma postBudget_all_or_nothing ts req d :
  let (r, d') := run (postBudget ts req) d in
  status r = 201%nat \/ (sameCollections d d' /\ (nextId d <= nextId d')%nat).
Proof.
  unfold run, postBudget, conditionalDecrement. mred_goal. cbn [andb negb db].
  repeat budget_step.
  all: first [left; reflexivity
             |right; split; [apply sameCollections_refl|apply Nat.le_refl]
             |right; split; [apply sameCollections_take_id|apply Nat.le_succ_diag_r]].
Qed.

Lemma postBudget_created_inv ts req d :
  NoDup (ids (Budgets d)) ->
  let u := br_userId req in
  let (r, d') := run (postBudget ts req) d in
  status r = 201%nat ->
  r = mkResponse 201 (Budget_cree (nextId d)) /\
  String.eqb (br_name req) "" = false /\ 0 < br_amount req /\
  (if br_isPrimary req
   then find (isPrimaryOf u) (Budgets d) = None /\ br_frequency req = monthly
   else validateBudgetHierarchy (Budgets d) u (br_frequency req) (br_amount req) = Valid) /\
  (forall c, or_null (br_clientId req) = Some c ->
             find (isClientBudget c u) (Budgets d) = None) /\
  Transactions d' = Transactions d /\ Days d' = Days d /\ nextId d' = S (nextId d) /\
  if allocatesFromPrimary req then
    exists p,
      find (isPrimaryMonthlyOf u) (Budgets d) = Some p /\
      br_amount req <= Budget.currentAmount p /\
      Budgets d'
      = updateOne (byId (Budget._id p))
          (Budget.set_currentAmount (Budget.currentAmount p - br_amount req)) (Budgets d)
        ++ [budgetOf req (nextId d)] /\
      exists e,
        JournalEntries d' = JournalEntries d ++ [e] /\
        JournalEntry.amount e = br_amount req /\
        JournalEntry.ruleApplied e
        = (if ts then "allocation_weekly_from_month"
           else "allocation_weekly_from_month_fallback")%string
  else Budgets d' = Budgets d ++ [budgetOf req (nextId d)] /\
       JournalEntries d' = JournalEntries d.
Proof.
  intros Hn u. subst u.
  unfold run, postBudget, conditionalDecrement, allocatesFromPrimary, budgetOf.
  mred_goal. cbn [andb negb db].
  repeat budget_step.
  all: intros Hst; try discriminate Hst.
  all: cbn [Transactions Days nextId JournalEntries Budgets take_id save_Budget
            save_JournalEntry with_Budgets] in *.
  all: split; [reflexivity|]; split; [reflexivity|];
       split; [apply Qltb_true; assumption|].
  all: split;
    [first [reflexivity
           |split; [assumption|destruct (br_frequency req); (reflexivity || discriminate)]]|].
  all: split;
    [intros c Ec; first [discriminate Ec|injection Ec as <-; assumption]|].
  all: split; [reflexivity|]; split; [reflexivity|]; split; [reflexivity|].
  all: try (split; reflexivity).
  all: match goal with
       | H : find (isPrimaryMonthlyOf _) _ = Some ?p |- _ =>
           exists p; split; [exact H|];
           pose proof (find_In _ _ _ H) as [Hin _];
           pose proof (findById_of_In _ _ Hn Hin) as Hid
       end.
  all: match goal with
       | H : Qltb _ 0 = false |- _ => apply Qltb_false in H
       end.
  all: split; [lra|]; split; [|eexists; repeat split; reflexivity].
  all: first
    [ erewrite updateOne_app_present by exact Hid; reflexivity
    | match goal with
      | |- updateOne _ _ ?l ++ _ = _ =>
          match goal with
          | p : Budget.t, Hid : findById (Budget._id ?p) l = Some ?p |- _ =>
              destruct (updateOne_conditional (Budget._id p) (br_amount req)
                          (Budget.inc_currentAmount (- br_amount req))
                          (Budget.set_currentAmount
                             (Budget.currentAmount p - br_amount req))
                          l p Hid ltac:(lra) eq_refl) as [_ ->]; reflexivity
          end
      end ].
Qed.

(** PUT /api/budgets/:id answers 200 or leaves the database as it was. *)
Lemma putBudget_all_or_nothing id req d :
  let (r, d') := run (putBudget id req) d in
  status r = 200%nat \/ d' = d.
Proof.
  unfold run, putBudget. mred_goal. cbn [andb negb db].
  repeat budget_step.
  all: first [left; reflexivity|right; reflexivity].
Qed.

(** X16.  A budget request that is not answered with success changes
    nothing: POST /api/budgets either answers 201 or leaves all the
    collections as they were (400, 409, and the 200 of a repeated
    [clientId]); PUT /api/budgets/:id and DELETE /api/budgets/:id either
    answer 200 or leave the database as it was. *)
Theorem budget_requests_all_or_nothing :
  forall (TRANSACTIONS_SUPPORTED : bool) (req : BudgetRequest) (id : ObjectId)
         (edit : BudgetEdit) (d : Db),
    (let (r, d') := run (postBudget TRANSACTIONS_SUPPORTED req) d in
     status r = 201%nat \/ sameCollections d d') /\
    (let (r, d') := run (putBudget id edit) d in status r = 200%nat \/ d' = d) /\
    (let (s, d') := run (deleteBudget id) d in s = 200%nat \/ d' = d).
Proof.
  intros ts req id edit d. split; [|split].
  - pose proof (postBudget_all_or_nothing ts req d) as H.
    destruct (run (postBudget ts req) d) as [r d'].
    destruct H as [H|[H _]]; [left|right]; exact H.
  - apply putBudget_all_or_nothing.
  - unfold run, deleteBudget. mred_goal.
    destruct (findById id (Budgets d)); mred_goal; [left|right]; reflexivity.
Qed.

Lemma find_app_or {A : Type} (p : A -> bool) l r :
  find p (l ++ r) = match find p l with Some y => Some y | None => find p r end.
Proof.
  induction l as [|x l IH]; simpl; [reflexivity|]. destruct (p x); [reflexivity|exact IH].
Qed.

Lemma findById_below (n : nat) l :
  Forall (fun b => (Budget._id b < n)%nat) l -> findById n l = None.
Proof.
  intros H. unfold findById. induction H as [|x l Hx _ IH]; simpl; [reflexivity|].
  unfold byId at 1. replace (Budget._id x =? n)%nat with false; [exact IH|].
  symmetry. apply Nat.eqb_neq. lia.
Qed.

Lemma Forall_updateOne_id (P : ObjectId -> Prop) (p : Budget.t -> bool)
    (f : Budget.t -> Budget.t) l :
  (forall x, Budget._id (f x) = Budget._id x) ->
  Forall (fun b => P (Budget._id b)) l ->
  Forall (fun b => P (Budget._id b)) (updateOne p f l).
Proof.
  intros Hf H. apply updateOne_Forall; [|exact H]. intros x _ Hx. now rewrite Hf.
Qed.

(** X17.  An accepted weekly (non-primary) budget is paid for by the
    user's primary monthly budget: that budget exists and holds at least
    the amount, its [currentAmount] goes down by exactly the amount, the
    new budget starts with [currentAmount = initialAmount = amount], and
    no other budget changes; the same in both modes. *)
Theorem weekly_budget_taken_from_primary :
  forall (TRANSACTIONS_SUPPORTED : bool) (req : BudgetRequest) (d : Db),
    wellIdentified d -> allocatesFromPrimary req = true ->
    status (fst (run (postBudget TRANSACTIONS_SUPPORTED req) d)) = 201%nat ->
    let d' := snd (run (postBudget TRANSACTIONS_SUPPORTED req) d) in
    exists p,
      find (isPrimaryMonthlyOf (br_userId req)) (Budgets d) = Some p /\
      br_amount req <= Budget.currentAmount p /\
      findById (Budget._id p) (Budgets d')
      = Some (Budget.set_currentAmount (Budget.currentAmount p - br_amount req) p) /\
      findById (nextId d) (Budgets d') = Some (budgetOf req (nextId d)) /\
      (forall j, j <> Budget._id p -> j <> nextId d ->
                 findById j (Budgets d') = findById j (Budgets d)) /\
      Budget.currentAmount p - br_amount req + Budget.currentAmount (budgetOf req (nextId d))
      == Budget.currentAmount p.
Proof.
  intros ts req d [Hn Hlt] Halloc Hst d'. subst d'.
  pose proof (postBudget_created_inv ts req d Hn) as H. cbv zeta in H.
  destruct (run (postBudget ts req) d) as [r d']. cbn [fst snd] in *.
  destruct (H Hst) as (_ & _ & _ & _ & _ & _ & _ & _ & HB). clear H.
  rewrite Halloc in HB. destruct HB as (p & Hp & Hfunds & HB & _).
  exists p. split; [exact Hp|]. split; [exact Hfunds|].
  pose proof (find_In _ _ _ Hp) as [Hin _].
  pose proof (findById_of_In _ _ Hn Hin) as Hid.
  rewrite HB. unfold findById in *. rewrite !find_app_or.
  split; [|split; [|split]].
  - fold (findById (Budget._id p)
            (updateOne (byId (Budget._id p))
               (Budget.set_currentAmount (Budget.currentAmount p - br_amount req))
               (Budgets d))).
    rewrite (findById_updateOne_same _ _ _ p (id_set_currentAmount _) Hid). reflexivity.
  - fold (findById (nextId d)
            (updateOne (byId (Budget._id p))
               (Budget.set_currentAmount (Budget.currentAmount p - br_amount req))
               (Budgets d))).
    rewrite findById_below.
    + cbn [find]. unfold budgetOf, byId. cbn [Budget._id]. now rewrite Nat.eqb_refl.
    + apply (Forall_updateOne_id (fun i => (i < nextId d)%nat)); [reflexivity|exact Hlt].
  - intros j Hj Hnew. rewrite find_app_or.
    fold (findById j
            (updateOne (byId (Budget._id p))
               (Budget.set_currentAmount (Budget.currentAmount p - br_amount req))
               (Budgets d))).
    rewrite (findById_updateOne_other j _ _ _ (id_set_currentAmount _) Hj).
    fold (findById j (Budgets d)).
    destruct (findById j (Budgets d)); [reflexivity|].
    cbn [find]. unfold budgetOf, byId. cbn [Budget._id].
    replace (nextId d =? j)%nat with false; [reflexivity|].
    symmetry. apply Nat.eqb_neq. congruence.
  - unfold budgetOf. cbn [Budget.currentAmount]. ring.
Qed.

Lemma wellIdentified_db_primary_only : wellIdentified db_primary_only.
Proof.
  split.
  - repeat constructor. intros [].
  - repeat constructor.
Defined.

Lemma weekly_budget_taken_from_primary_witness :
  wellIdentified db_primary_only /\ allocatesFromPrimary weekly_100000 = true /\
  status (fst (run (postBudget false weekly_100000) db_primary_only)) = 201%nat /\
  let d' := snd (run (postBudget false weekly_100000) db_primary_only) in
  exists p,
    find (isPrimaryMonthlyOf (br_userId weekly_100000)) (Budgets db_primary_only) = Some p /\
    br_amount weekly_100000 <= Budget.currentAmount p /\
    findById (Budget._id p) (Budgets d')
    = Some (Budget.set_currentAmount
              (Budget.currentAmount p - br_amount weekly_100000) p) /\
    findById (nextId db_primary_only) (Budgets d')
    = Some (budgetOf weekly_100000 (nextId db_primary_only)) /\
    (forall j, j <> Budget._id p -> j <> nextId db_primary_only ->
               findById j (Budgets d') = findById j (Budgets db_primary_only)) /\
    Budget.currentAmount p - br_amount weekly_100000
    + Budget.currentAmount (budgetOf weekly_100000 (nextId db_primary_only))
    == Budget.currentAmount p.
Proof.
  split; [exact wellIdentified_db_primary_only|]. split; [reflexivity|].
  split; [reflexivity|].
  apply (weekly_budget_taken_from_primary false weekly_100000 db_primary_only);
    [exact wellIdentified_db_primary_only|reflexivity|reflexivity].
Defined.

(** The budgets an accepted creation leaves: those that were there, the
    primary one charged when the new budget is taken from it, then the
    new one. *)
Lemma postBudget_created_budgets ts req d :
  NoDup (ids (Budgets d)) ->
  status (fst (run (postBudget ts req) d)) = 201%nat ->
  exists allocated,
    Budgets (snd (run (postBudget ts req) d)) = allocated ++ [budgetOf req (nextId d)] /\
    nextId (snd (run (postBudget ts req) d)) = S (nextId d) /\
    (allocated = Budgets d \/
     exists p, allocatesFromPrimary req = true /\
               find (isPrimaryMonthlyOf (br_userId req)) (Budgets d) = Some p /\
               allocated = updateOne (byId (Budget._id p))
                             (Budget.set_currentAmount
                                (Budget.currentAmount p - br_amount req)) (Budgets d)).
Proof.
  intros Hn Hst.
  pose proof (postBudget_created_inv ts req d Hn) as H. cbv zeta in H.
  destruct (run (postBudget ts req) d) as [r d']. cbn [fst snd] in *.
  destruct (H Hst) as (_ & _ & _ & _ & _ & _ & _ & HN & HB). clear H.
  destruct (allocatesFromPrimary req) eqn:Ea.
  - destruct HB as (p & Hp & _ & HB & _). eexists. split; [exact HB|].
    split; [exact HN|]. right. exists p. auto.
  - destruct HB as (HB & _). eexists. split; [exact HB|]. split; [exact HN|]. now left.
Qed.

(** The validator's answer to a request does not change when that
    request's budget has been created. *)
Lemma validate_after_creation req l allocated id :
  NoDup (ids l) -> br_isPrimary req = false ->
  validateBudgetHierarchy l (br_userId req) (br_frequency req) (br_amount req) = Valid ->
  (allocated = l \/
   exists p, allocatesFromPrimary req = true /\
             find (isPrimaryMonthlyOf (br_userId req)) l = Some p /\
             allocated = updateOne (byId (Budget._id p))
                           (Budget.set_currentAmount
                              (Budget.currentAmount p - br_amount req)) l) ->
  validateBudgetHierarchy (allocated ++ [budgetOf req id]) (br_userId req)
    (br_frequency req) (br_amount req) = Valid.
Proof.
  intros Hn Hprim Hv Hal. apply validateBudgetHierarchy_caps in Hv.
  apply validateBudgetHierarchy_caps.
  destruct Hv as (H0 & Hw & Hd & Hdw).
  assert (Hnp : isPrimaryMonthlyOf (br_userId req) (budgetOf req id) = false).
  { unfold isPrimaryMonthlyOf, budgetOf. cbn [Budget.isPrimary]. rewrite Hprim.
    apply andb_false_r. }
  assert (Hprimary : forall p', find (isPrimaryMonthlyOf (br_userId req))
                                  (allocated ++ [budgetOf req id]) = Some p' ->
            exists p, find (isPrimaryMonthlyOf (br_userId req)) l = Some p /\
                      Budget.initialAmount p' = Budget.initialAmount p /\
                      Budget.amount p' = Budget.amount p).
  { intros p'. rewrite find_app_or. cbn [find]. rewrite Hnp. cbv iota.
    destruct Hal as [->|(p & _ & Hp & ->)].
    - destruct (find (isPrimaryMonthlyOf (br_userId req)) l) as [y|] eqn:Ey;
        intros E; [|discriminate E].
      injection E as <-. exists y. auto.
    - rewrite (find_updateOne_byId _ _ _ p Hn Hp).
      + intros E. injection E as <-. exists p. auto.
      + reflexivity.
      + apply find_In in Hp. destruct Hp as [_ Hp]. exact Hp.
      + reflexivity. }
  split; [exact H0|]. split; [|split].
  - intros Hf p' Hp'. destruct (Hprimary p' Hp') as (p & Hp & -> & ->). now apply Hw.
  - intros Hf p' Hp'. destruct (Hprimary p' Hp') as (p & Hp & -> & ->). now apply Hd.
  - intros Hf w. rewrite find_app_or. cbn [find].
    assert (Hnw : isWeeklyOf (br_userId req) (budgetOf req id) = false).
    { unfold isWeeklyOf, budgetOf. cbn [Budget.frequency]. rewrite Hf. apply andb_false_r. }
    rewrite Hnw. cbv iota.
    destruct Hal as [->|(p & Ha & _)].
    + destruct (find (isWeeklyOf (br_userId req)) l) as [y|] eqn:E;
        intros E'; [|discriminate E'].
      injection E' as <-. now apply Hdw.
    + unfold allocatesFromPrimary in Ha. rewrite Hf in Ha. rewrite andb_false_r in Ha.
      discriminate.
Qed.

(** X18.  POST /api/budgets is idempotent on [clientId] for budgets that
    are not primary: when a request carrying a [clientId] that is not the
    empty string has been answered 201, sending it again is answered 200 with the [_id] of the
    budget created the first time, and changes nothing (no second budget,
    no second deduction from the primary budget). *)
Theorem postBudget_retry_is_idempotent :
  forall (TRANSACTIONS_SUPPORTED : bool) (req : BudgetRequest) (c : string) (d : Db),
    NoDup (ids (Budgets d)) ->
    br_isPrimary req = false -> br_clientId req = Some c -> c <> ""%string ->
    status (fst (run (postBudget TRANSACTIONS_SUPPORTED req) d)) = 201%nat ->
    let d' := snd (run (postBudget TRANSACTIONS_SUPPORTED req) d) in
    forall retryMode : bool,
      run (postBudget retryMode req) d'
      = (mkResponse 200 (Budget_existant (nextId d)), d').
Proof.
  intros ts req c d Hn Hprim Hc0 Hne Hst d' ts2.
  assert (Hc : or_null (br_clientId req) = Some c)
    by (rewrite Hc0; destruct c; [contradiction|reflexivity]).
  destruct (postBudget_created_budgets ts req d Hn Hst) as (allocated & HB & _ & Hal).
  fold d' in HB.
  pose proof (postBudget_created_inv ts req d Hn) as H. cbv zeta in H.
  destruct (run (postBudget ts req) d) as [r d0]. cbn [fst snd] in *. subst d'.
  destruct (H Hst) as (_ & En & Ea & Hv & Hcl & _). clear H.
  rewrite Hprim in Hv. specialize (Hcl c Hc).
  unfold run, postBudget. rewrite En. apply Qltb_true in Ea. rewrite Ea.
  mred_goal. rewrite Hprim. cbn [andb negb]. mred_goal. cbn [db].
  rewrite HB.
  rewrite (validate_after_creation req (Budgets d) allocated (nextId d) Hn Hprim Hv Hal).
  rewrite Hc. cbn [db]. rewrite HB.
  fold (isClientBudget c (br_userId req)). rewrite find_app_or.
  assert (Hnone : find (isClientBudget c (br_userId req)) allocated = None).
  { destruct Hal as [->|(p & _ & _ & ->)]; [exact Hcl|].
    apply find_updateOne_none; [reflexivity|exact Hcl]. }
  rewrite Hnone. cbn [find]. unfold isClientBudget at 1, budgetOf at 1.
  cbn [Budget.clientId Budget.userId]. rewrite Hc. cbn [option_string_eqb].
  rewrite String.eqb_refl, Nat.eqb_refl. cbn [andb]. reflexivity.
Qed.

Lemma NoDup_db_primary_only : NoDup (ids (Budgets db_primary_only)).
Proof. repeat constructor. intros []. Defined.

Lemma postBudget_retry_is_idempotent_witness :
  let req := mkBudgetRequest 7 "Semaine" 100000 weekly (Some "c-1"%string) false in
  NoDup (ids (Budgets db_primary_only)) /\
  br_isPrimary req = false /\ br_clientId req = Some "c-1"%string /\
  "c-1"%string <> ""%string /\
  status (fst (run (postBudget true req) db_primary_only)) = 201%nat /\
  let d' := snd (run (postBudget true req) db_primary_only) in
  forall retryMode : bool,
    run (postBudget retryMode req) d'
    = (mkResponse 200 (Budget_existant (nextId db_primary_only)), d').
Proof.
  intros req.
  assert (Hne : "c-1"%string <> ""%string) by discriminate.
  split; [exact NoDup_db_primary_only|]. split; [reflexivity|]. split; [reflexivity|].
  split; [exact Hne|]. split; [reflexivity|].
  apply (postBudget_retry_is_idempotent true req "c-1" db_primary_only);
    [exact NoDup_db_primary_only|reflexivity|reflexivity|exact Hne|reflexivity].
Defined.

(* ------------------------------------------------------------------ *)
(** ** Identifiers and primary budgets *)

Lemma keeps_run {A : Type} I (m : M A) d : keeps I m -> I d -> I (snd (run m d)).
Proof.
  intros Hm Hd. unfold run.
  assert (S0 : Stable I (mkWorld d [] [])) by (split; [exact Hd|constructor]).
  specialize (Hm _ S0). destruct (m (mkWorld d [] [])) as [a w]. exact (proj1 Hm).
Qed.

Lemma Closed_sameBudgetsAs l0 n0 : Closed (sameBudgetsAs l0 n0).
Proof.
  constructor; try (intros; assumption).
  - intros d [H1 H2]. split; [exact H1|]. cbn [nextId take_id]. lia.
  - intros p v d [H1 H2]. split; [|exact H2]. cbn [Budgets with_Budgets].
    rewrite map_updateOne_same by reflexivity. exact H1.
  - intros p v d [H1 H2]. split; [|exact H2]. cbn [Budgets with_Budgets].
    rewrite map_updateOne_same by reflexivity. exact H1.
Qed.

Lemma keeps_sameBudgetsAs_putBudget l0 n0 id req :
  keeps (sameBudgetsAs l0 n0) (putBudget id req).
Proof.
  pose proof (Closed_sameBudgetsAs l0 n0) as C. unfold putBudget.
  repeat keeps_step C;
    apply keeps_write; intros d [H1 H2]; (split; [|exact H2]);
    cbn [Budgets with_Budgets]; rewrite map_updateOne_same; try exact H1;
    intros b; destruct (be_name req) as [n|]; try destruct (String.eqb n ""); reflexivity.
Qed.

(** Every request but a budget creation leaves the budgets' identities
    as they were, and the counter where it was or beyond. *)
Lemma handle_sameBudgets ts currentDate currentTime r d :
  (forall req, r <> POST_budgets req) ->
  sameBudgetsAs (Budgets d) (nextId d) (snd (run (handle ts currentDate currentTime r) d)).
Proof.
  intros Hr. apply keeps_run; [|split; [reflexivity|apply Nat.le_refl]].
  pose proof (Closed_sameBudgetsAs (Budgets d) (nextId d)) as C.
  apply (keeps_handle _ C).
  - intros u. apply (keeps_getDay _ u currentDate C). intros t d0 H. exact H.
  - intros req E. exfalso. exact (Hr req E).
  - apply keeps_sameBudgetsAs_putBudget.
Qed.

Lemma same_identity l : forall l',
  map identity l' = map identity l ->
  ids l' = ids l /\
  map Budget.userId (filter Budget.isPrimary l')
  = map Budget.userId (filter Budget.isPrimary l) /\
  (Forall (fun b => Budget.isPrimary b = true -> Budget.frequency b = monthly) l ->
   Forall (fun b => Budget.isPrimary b = true -> Budget.frequency b = monthly) l').
Proof.
  induction l as [|x l IH]; intros [|x' l'] E; try discriminate E.
  - repeat split. intros _. constructor.
  - cbn [map] in E. injection E as Ei Eu Ec Ef Ep Eia El.
    destruct (IH l' El) as (H1 & H2 & H3).
    split; [|split].
    + unfold ids in *. cbn [map]. now rewrite Ei, H1.
    + cbn [filter]. rewrite Ep. destruct (Budget.isPrimary x); cbn [map];
        [now rewrite Eu, H2|exact H2].
    + intros HF. inversion HF as [|? ? Hx Hl]; subst. constructor; [|now apply H3].
      rewrite Ep, Ef. exact Hx.
Qed.

Lemma ids_app l r : ids (l ++ r) = ids l ++ ids r.
Proof. unfold ids. apply map_app. Qed.

Lemma created_allocated_identity req d allocated :
  allocated = Budgets d \/
  (exists p, allocatesFromPrimary req = true /\
             find (isPrimaryMonthlyOf (br_userId req)) (Budgets d) = Some p /\
             allocated = updateOne (byId (Budget._id p))
                           (Budget.set_currentAmount
                              (Budget.currentAmount p - br_amount req)) (Budgets d)) ->
  map identity allocated = map identity (Budgets d).
Proof.
  intros [->|(p & _ & _ & ->)]; [reflexivity|].
  apply map_updateOne_same. reflexivity.
Qed.

(** X19.  Identifiers stay unique: every exposed operation, run on a
    database whose budgets have distinct [_id]s below the counter,
    leaves such a database. *)
Theorem identifiers_stay_unique :
  forall (TRANSACTIONS_SUPPORTED : bool) (currentDate currentTime : string)
         (r : Request) (d : Db),
    wellIdentified d ->
    wellIdentified (snd (run (handle TRANSACTIONS_SUPPORTED currentDate currentTime r) d)).
Proof.
  intros ts currentDate currentTime r d [Hn Hlt].
  assert (Hsame : forall d', sameBudgetsAs (Budgets d) (nextId d) d' -> wellIdentified d').
  { intros d' [HI HN]. destruct (same_identity _ _ HI) as (Hids & _ & _).
    split; [rewrite Hids; exact Hn|].
    apply Forall_forall. intros b Hb.
    assert (Hin : In (Budget._id b) (ids (Budgets d))).
    { rewrite <- Hids. unfold ids. now apply in_map. }
    unfold ids in Hin. apply in_map_iff in Hin. destruct Hin as (b0 & E & Hb0).
    rewrite Forall_forall in Hlt. specialize (Hlt b0 Hb0). lia. }
  destruct r as [req|req|id req|id req|id req|u|u];
    try (apply Hsame; apply handle_sameBudgets; intros req' E; discriminate E).
  cbn [handle].
  pose proof (postBudget_all_or_nothing ts req d) as Hall.
  pose proof (postBudget_created_budgets ts req d Hn) as Hcr.
  destruct (run (postBudget ts req) d) as [rsp d']. cbn [fst snd] in *.
  destruct Hall as [Hst|[(HB & _) HN]].
  - destruct (Hcr Hst) as (allocated & HB & HN & Hal).
    pose proof (created_allocated_identity req d allocated Hal) as HI.
    destruct (same_identity _ _ HI) as (Hids & _ & _).
    split.
    + rewrite HB, ids_app, Hids. apply NoDup_snoc; [exact Hn|].
      cbn [map budgetOf Budget._id]. intros Hin. unfold ids in Hin.
      apply in_map_iff in Hin. destruct Hin as (b0 & E & Hb0).
      rewrite Forall_forall in Hlt. specialize (Hlt b0 Hb0). lia.
    + rewrite HB, HN. apply Forall_app. split.
      * apply Forall_forall. intros b Hb.
        assert (Hin : In (Budget._id b) (ids (Budgets d))).
        { rewrite <- Hids. unfold ids. now apply in_map. }
        unfold ids in Hin. apply in_map_iff in Hin. destruct Hin as (b0 & E & Hb0).
        rewrite Forall_forall in Hlt. specialize (Hlt b0 Hb0). lia.
      * constructor; [|constructor]. cbn [budgetOf Budget._id]. lia.
  - split; [rewrite HB; exact Hn|]. rewrite HB.
    eapply Forall_impl; [|exact Hlt]. cbv beta. intros b Hb. lia.
Qed.

Lemma wellIdentified_db_in_step : wellIdentified db_in_step.
Proof.
  split.
  - repeat constructor; simpl; intuition discriminate.
  - repeat constructor.
Defined.

Lemma identifiers_stay_unique_witness :
  wellIdentified db_in_step /\
  wellIdentified (snd (run (handle true today "10:00" (POST_budgets (daily_of 1000)))
                         db_in_step)).
Proof.
  split; [exact wellIdentified_db_in_step|].
  exact (identifiers_stay_unique true today "10:00" (POST_budgets (daily_of 1000))
           db_in_step wellIdentified_db_in_step).
Defined.

(** X20.  Each user keeps at most one primary budget, and primary
    budgets stay monthly: every exposed operation, run on a database
    with distinct budget identifiers where this holds, leaves a database
    where it holds; a second primary budget for a user is never
    created. *)
Theorem one_primary_budget_per_user :
  forall (TRANSACTIONS_SUPPORTED : bool) (currentDate currentTime : string)
         (r : Request) (d : Db),
    NoDup (ids (Budgets d)) -> primariesOk d ->
    primariesOk (snd (run (handle TRANSACTIONS_SUPPORTED currentDate currentTime r) d)).
Proof.
  intros ts currentDate currentTime r d Hn [Hu Hm].
  assert (Hsame : forall d', map identity (Budgets d') = map identity (Budgets d) ->
                             primariesOk d').
  { intros d' HI. destruct (same_identity _ _ HI) as (_ & Hown & Hmon).
    split; [rewrite Hown; exact Hu|now apply Hmon]. }
  destruct r as [req|req|id req|id req|id req|u|u];
    try (apply Hsame;
         apply (handle_sameBudgets ts currentDate currentTime);
         intros req' E; discriminate E).
  cbn [handle].
  pose proof (postBudget_all_or_nothing ts req d) as Hall.
  pose proof (postBudget_created_budgets ts req d Hn) as Hcr.
  pose proof (postBudget_created_inv ts req d Hn) as Hinv. cbv zeta in Hinv.
  destruct (run (postBudget ts req) d) as [rsp d']. cbn [fst snd] in *.
  destruct Hall as [Hst|[(HB & _) _]]; [|apply Hsame; now rewrite HB].
  destruct (Hcr Hst) as (allocated & HB & _ & Hal).
  destruct (Hinv Hst) as (_ & _ & _ & Hp & _).
  pose proof (created_allocated_identity req d allocated Hal) as HI.
  destruct (same_identity _ _ HI) as (_ & Hown & Hmon).
  unfold primariesOk. rewrite HB, filter_app, map_app, Hown. cbn [filter].
  unfold budgetOf at 1. cbn [Budget.isPrimary].
  destruct (br_isPrimary req) eqn:Ep.
  - destruct Hp as [Hnone Hfreq]. split.
    + cbn [map]. apply NoDup_snoc; [exact Hu|]. cbn [budgetOf Budget.userId].
      intros Hin. apply in_map_iff in Hin. destruct Hin as (b & Eb & Hb).
      apply filter_In in Hb. destruct Hb as [Hb Hbp].
      pose proof (find_none _ _ Hnone b Hb) as F. unfold isPrimaryOf in F.
      rewrite Eb, Nat.eqb_refl, Hbp in F. discriminate F.
    + apply Forall_app. split; [now apply Hmon|].
      constructor; [|constructor]. intros _. exact Hfreq.
  - split.
    + cbn [map]. rewrite app_nil_r. exact Hu.
    + apply Forall_app. split; [now apply Hmon|].
      constructor; [|constructor]. cbn [budgetOf Budget.isPrimary]. rewrite Ep.
      intros E. discriminate E.
Qed.

Lemma primariesOk_db_in_step : primariesOk db_in_step.
Proof.
  split.
  - simpl. repeat constructor. intros [].
  - repeat constructor; simpl; intros E; (reflexivity || discriminate E).
Defined.

Lemma one_primary_budget_per_user_witness :
  let req := mkBudgetRequest 7 "Second salaire" 200000 monthly None true in
  NoDup (ids (Budgets db_in_step)) /\ primariesOk db_in_step /\
  primariesOk (snd (run (handle true today "10:00" (POST_budgets req)) db_in_step)).
Proof.
  intros req.
  split; [exact (proj1 wellIdentified_db_in_step)|].
  split; [exact primariesOk_db_in_step|].
  exact (one_primary_budget_per_user true today "10:00" (POST_budgets req) db_in_step
           (proj1 wellIdentified_db_in_step) primariesOk_db_in_step).
Defined.



(* ------------------------------------------------------------------ *)
(** ** Day records *)

Lemma isDayOf_key u dt x :
  isDayOf u dt x = true <-> (Day.userId x, Day.date x) = (u, dt).
Proof.
  unfold isDayOf. rewrite andb_true_iff, Nat.eqb_eq, String.eqb_eq. split.
  - intros [-> ->]. reflexivity.
  - intros E. injection E as -> ->. auto.
Qed.

Lemma key_absent u dt l :
  find (isDayOf u dt) l = None ->
  ~ In (u, dt) (map (fun x => (Day.userId x, Day.date x)) l).
Proof.
  intros H Hin. apply in_map_iff in Hin. destruct Hin as (x & E & Hx).
  pose proof (find_none _ _ H x Hx) as F.
  apply isDayOf_key in E. congruence.
Qed.

Lemma oneDayPerDate_upsertDay u dt i b g e f d :
  oneDayPerDate d -> oneDayPerDate (with_Days (upsertDay u dt i b g e f) d).
Proof.
  unfold oneDayPerDate, dayKeys. cbn [Days with_Days]. intros H. unfold upsertDay.
  destruct (find (isDayOf u dt) (Days d)) as [x|] eqn:E.
  - rewrite map_updateOne_same by reflexivity. exact H.
  - rewrite map_app. apply NoDup_snoc; [exact H|]. apply key_absent. exact E.
Qed.

Lemma Closed_oneDayPerDate : Closed oneDayPerDate.
Proof.
  constructor; try (intros; assumption).
  intros. now apply oneDayPerDate_upsertDay.
Qed.

Lemma Users_reconciled u currentDate d :
  Users (reconciled u currentDate d) = Users d.
Proof.
  unfold reconciled. destruct (find _ _); [|reflexivity].
  destruct (Qltb _ _); reflexivity.
Qed.

Lemma run_getDay u currentDate d :
  run (getDay u currentDate) d
  = match find (isUser u) (Users d) with
    | None => (mkResponse 404 Utilisateur_non_trouve, d)
    | Some _ =>
        match find (isDayOf u currentDate) (Days d) with
        | Some t => (mkResponse 200 (Jour t), d)
        | None => (mkResponse 200 (Jour (newDay u currentDate d)),
                   save_Day (newDay u currentDate d) (reconciled u currentDate d))
        end
    end.
Proof.
  unfold run, getDay. mred_goal.
  destruct (find (isUser u) (Users d)) as [user|]; [|reflexivity]. mred_goal.
  destruct (find (isDayOf u currentDate) (Days d)) as [t|] eqn:E; [reflexivity|].
  mred_goal.
  by_effect (effect_calculateBudgetsAvailable u currentDate).
  cbn [db]. reflexivity.
Qed.

Lemma keeps_oneDayPerDate_getDay u currentDate :
  keeps oneDayPerDate (getDay u currentDate).
Proof.
  intros w [Hd Hs]. unfold getDay. mred_goal.
  destruct (find (isUser u) (Users (db w))) as [user|]; [|split; assumption]. mred_goal.
  destruct (find (isDayOf u currentDate) (Days (db w))) as [t|] eqn:E.
  - split; assumption.
  - mred_goal.
    pose proof (effect_calculateBudgetsAvailable u currentDate w) as (_ & E2 & E3).
    destruct (calculateBudgetsAvailable u currentDate w) as [a w1].
    cbn [fst snd] in *. split; [|cbn [sched]; rewrite E3; exact Hs].
    cbn [db]. rewrite E2. unfold oneDayPerDate, dayKeys in *.
    cbn [Days save_Day with_Days]. rewrite Days_reconciled, map_app.
    apply NoDup_snoc; [exact Hd|]. apply key_absent. exact E.
Qed.

Lemma keeps_oneDayPerDate_postBudget ts req : keeps oneDayPerDate (postBudget ts req).
Proof.
  pose proof Closed_oneDayPerDate as C. unfold postBudget.
  repeat keeps_step C;
    try (apply keeps_conditionalDecrement; exact C);
    apply keeps_write; intros d H; exact H.
Qed.

Lemma keeps_oneDayPerDate_putBudget id edit : keeps oneDayPerDate (putBudget id edit).
Proof.
  pose proof Closed_oneDayPerDate as C. unfold putBudget.
  repeat keeps_step C; apply keeps_write; intros d H; exact H.
Qed.

(** X22.  There is at most one Day record per user and date: every
    exposed operation, in either mode and whatever other requests doing
    the same run in between, keeps the (user, date) keys of the Day
    collection distinct; the lazy creation of GET /api/days and the
    upsert of the mutating requests never add a second record for a
    key. *)
Theorem one_day_record_per_date :
  forall (TRANSACTIONS_SUPPORTED : bool) (currentDate currentTime : string)
         (r : Request) (w : World),
    oneDayPerDate (db w) ->
    Forall (fun g => forall d, oneDayPerDate d -> oneDayPerDate (g d)) (sched w) ->
    oneDayPerDate (db (snd (handle TRANSACTIONS_SUPPORTED currentDate currentTime r w))).
Proof.
  intros ts currentDate currentTime r w Hd Hs.
  destruct (keeps_handle _ Closed_oneDayPerDate ts currentDate currentTime r
              (fun u => keeps_oneDayPerDate_getDay u currentDate)
              (fun req _ => keeps_oneDayPerDate_postBudget ts req)
              keeps_oneDayPerDate_putBudget
              w (conj Hd Hs)) as [H _].
  exact H.
Qed.

Lemma one_day_record_per_date_witness :
  let w := mkWorld db_tontine [rival_spends_weekly] [] in
  oneDayPerDate (db w) /\
  Forall (fun g => forall d, oneDayPerDate d -> oneDayPerDate (g d)) (sched w) /\
  oneDayPerDate (db (snd (handle false today "10:00" (GET_days 7) w))).
Proof.
  intros w.
  assert (Hd : oneDayPerDate (db w)).
  { unfold oneDayPerDate, dayKeys. simpl. repeat constructor. intros []. }
  assert (Hs : Forall (fun g => forall d, oneDayPerDate d -> oneDayPerDate (g d))
                      (sched w)).
  { constructor; [|constructor]. intros d H. exact H. }
  split; [exact Hd|]. split; [exact Hs|].
  exact (one_day_record_per_date false today "10:00" (GET_days 7) w Hd Hs).
Defined.

(** X23.  GET /api/days answers 404 and changes nothing for a user
    that does not exist.  For a user that exists it creates the day's
    record once: it answers 200 with the record stored for the user and
    the date; when there was one it is that one and nothing changes; when
    there was none it is new, unlocked, with no gains and no expenses,
    both pockets equal to the [finalPocket] of the user's latest Day
    record (0 when there is none) and [budgetsAvailable] the figure just
    computed; a second call gives the same answer and changes nothing. *)
Theorem getDay_creates_once :
  forall (u : ObjectId) (currentDate : string) (d : Db),
    let (r, d1) := run (getDay u currentDate) d in
    match find (isUser u) (Users d) with
    | None => r = mkResponse 404 Utilisateur_non_trouve /\ d1 = d
    | Some _ =>
        exists t,
          r = mkResponse 200 (Jour t) /\
          find (isDayOf u currentDate) (Days d1) = Some t /\
          (forall t0, find (isDayOf u currentDate) (Days d) = Some t0 ->
                      t = t0 /\ d1 = d) /\
          (find (isDayOf u currentDate) (Days d) = None ->
           t = newDay u currentDate d /\ Days d1 = Days d ++ [t])
    end /\
    run (getDay u currentDate) d1 = (r, d1).
Proof.
  intros u currentDate d. rewrite run_getDay.
  destruct (find (isUser u) (Users d)) as [user|] eqn:Eu.
  2:{ split; [split; reflexivity|]. rewrite run_getDay, Eu. reflexivity. }
  destruct (find (isDayOf u currentDate) (Days d)) as [t|] eqn:E.
  - split.
    + exists t. split; [reflexivity|]. split; [exact E|].
      split; [intros t0 H; injection H as <-; split; reflexivity|intros H; discriminate H].
    + rewrite run_getDay, Eu, E. reflexivity.
  - assert (Hf : find (isDayOf u currentDate)
                   (Days (save_Day (newDay u currentDate d) (reconciled u currentDate d)))
                 = Some (newDay u currentDate d)).
    { cbn [Days save_Day with_Days]. rewrite Days_reconciled.
      rewrite (find_app_none _ _ _ E). unfold isDayOf, newDay.
      cbn [Day.userId Day.date]. now rewrite Nat.eqb_refl, String.eqb_refl. }
    split.
    + exists (newDay u currentDate d). split; [reflexivity|]. split; [exact Hf|].
      split; [intros t0 H; discriminate H|].
      intros _. split; [reflexivity|].
      cbn [Days save_Day with_Days]. now rewrite Days_reconciled.
    + rewrite run_getDay, Hf.
      cbn [Users save_Day with_Days]. rewrite Users_reconciled, Eu. reflexivity.
Qed.

(* ------------------------------------------------------------------ *)
(** ** The reconciler, twice *)

Lemma availableOf_set_currentAmount p v txs :
  ~ Budget.initialAmount p == 0 ->
  availableOf (Budget.set_currentAmount v p) txs = availableOf p txs.
Proof.
  intros H. unfold availableOf. cbn [Budget.set_currentAmount Budget.initialAmount
                                     Budget.amount Budget.currentAmount].
  unfold or_num at 1 4.
  destruct (Qeq_bool (Budget.initialAmount p) 0) eqn:E; [|reflexivity].
  apply Qeq_bool_iff in E. contradiction.
Qed.

(** X24.  Reconciling twice is reconciling once: when the primary
    budget has a non-zero [initialAmount], a second availability
    computation right after the first returns the same figure, finds the
    stored [currentAmount] in step, and writes nothing (no budget update,
    no second adjustment entry). *)
Theorem reconciliation_is_idempotent :
  forall (u : ObjectId) (currentDate : string) (d : Db),
    NoDup (ids (Budgets d)) ->
    (forall p, find (isPrimaryMonthlyOf u) (Budgets d) = Some p ->
               ~ Budget.initialAmount p == 0) ->
    let (available, d1) := run (calculateBudgetsAvailable u currentDate) d in
    run (calculateBudgetsAvailable u currentDate) d1 = (available, d1).
Proof.
  intros u currentDate d Hn Hinit.
  rewrite !(run_effect _ _ _ _ (effect_calculateBudgetsAvailable u currentDate)).
  destruct (find (isPrimaryMonthlyOf u) (Budgets d)) as [p|] eqn:Ep.
  2:{ assert (E : reconciled u currentDate d = d)
        by (unfold reconciled; now rewrite Ep).
      rewrite !E. reflexivity. }
  destruct (Qltb (1 # 100)
              (Qabs (Budget.currentAmount p - availableFigure u currentDate d))) eqn:Ed.
  2:{ assert (E : reconciled u currentDate d = d)
        by (unfold reconciled; rewrite Ep; cbv zeta; now rewrite Ed).
      rewrite !E. reflexivity. }
  set (a := availableFigure u currentDate d).
  assert (ER : reconciled u currentDate d
               = save_JournalEntry (reconcileEntry u p (Budget.currentAmount p) a)
                   (with_Budgets (updateOne (byId (Budget._id p))
                                    (Budget.set_currentAmount a)) d)).
  { unfold reconciled. rewrite Ep. cbv zeta. fold a. fold a in Ed. now rewrite Ed. }
  assert (Ep1 : find (isPrimaryMonthlyOf u) (Budgets (reconciled u currentDate d))
                = Some (Budget.set_currentAmount a p)).
  { rewrite ER. cbn [Budgets save_JournalEntry with_Budgets].
    apply find_updateOne_byId; auto.
    apply find_In in Ep. destruct Ep as [_ Ep]. exact Ep. }
  assert (Ea : availableFigure u currentDate (reconciled u currentDate d) = a).
  { unfold availableFigure at 1. rewrite Ep1, Transactions_reconciled.
    rewrite availableOf_set_currentAmount by (apply Hinit; reflexivity).
    unfold a, availableFigure. now rewrite Ep. }
  rewrite Ea. f_equal.
  apply reconciled_in_step. intros p' Hp'. rewrite Ep1 in Hp'. injection Hp' as <-.
  rewrite Ea. cbn [Budget.set_currentAmount Budget.currentAmount].
  setoid_replace (a - a) with 0 by ring. discriminate.
Qed.

Lemma reconciliation_is_idempotent_witness :
  NoDup (ids (Budgets db_after_allocation)) /\
  (forall p, find (isPrimaryMonthlyOf 7) (Budgets db_after_allocation) = Some p ->
             ~ Budget.initialAmount p == 0) /\
  let (available, d1) := run (calculateBudgetsAvailable 7 today) db_after_allocation in
  run (calculateBudgetsAvailable 7 today) d1 = (available, d1).
Proof.
  assert (Hn : NoDup (ids (Budgets db_after_allocation))).
  { repeat constructor; simpl; intuition discriminate. }
  assert (Hi : forall p, find (isPrimaryMonthlyOf 7) (Budgets db_after_allocation) = Some p ->
                         ~ Budget.initialAmount p == 0).
  { intros p Hp. injection Hp as <-. discriminate. }
  split; [exact Hn|]. split; [exact Hi|].
  exact (reconciliation_is_idempotent 7 today db_after_allocation Hn Hi).
Defined.

(* ------------------------------------------------------------------ *)
(** ** The day lock *)

(** X25.  On a locked day POST /api/transactions refuses every request,
    expense or gain, in either mode, and changes nothing: a request that
    fails the validation with 400, and every request that passes it with
    403, before any budget is looked at. *)
Theorem locked_day_refuses_transactions :
  forall (TRANSACTIONS_SUPPORTED : bool) (currentDate currentTime : string)
         (req : TransactionRequest) (d : Db) (t : Day.t),
    find (isDayOf (tr_userId req) currentDate) (Days d) = Some t ->
    Day.locked t = true ->
    run (postTransaction TRANSACTIONS_SUPPORTED currentDate currentTime req) d
    = (if transactionValidationSchema req
       then mkResponse 403 Jour_verrouille
       else mkResponse 400 Erreur_de_validation, d).
Proof.
  intros ts currentDate currentTime req d t Ht Hl.
  unfold run, postTransaction.
  destruct (transactionValidationSchema req); [|reflexivity].
  mred_goal. rewrite Ht, Hl. reflexivity.
Qed.

Lemma locked_day_refuses_transactions_witness :
  find (isDayOf (tr_userId gain_500) today) (Days db_tontine)
  = Some (Day.mk 7 today 0 400000 0 0 0 true) /\
  Day.locked (Day.mk 7 today 0 400000 0 0 0 true) = true /\
  run (postTransaction false today "10:00" gain_500) db_tontine
  = (mkResponse 403 Jour_verrouille, db_tontine).
Proof.
  split; [reflexivity|]. split; [reflexivity|].
  exact (locked_day_refuses_transactions false today "10:00" gain_500 db_tontine
           (Day.mk 7 today 0 400000 0 0 0 true) eq_refl eq_refl).
Defined.

(* ------------------------------------------------------------------ *)
(** ** Allocations to an objective *)

Lemma effect_allocationSet u budget :
  effect (allocationSet u budget)
    (fun d => budget :: allocationParents u budget (Budgets d)) (fun d => d).
Proof.
  intros w. unfold allocationSet, allocationParents, bind, read, ret.
  destruct (Budget.frequency budget); simpl; auto.
Qed.

Lemma isPrimaryMonthly_frequency u b :
  isPrimaryMonthlyOf u b = true -> Budget.frequency b = monthly.
Proof.
  unfold isPrimaryMonthlyOf. intros H. apply andb_true_iff in H. destruct H as [H _].
  apply andb_true_iff in H. destruct H as [_ H].
  destruct (Budget.frequency b); (reflexivity || discriminate H).
Qed.

Lemma isWeekly_frequency u b : isWeeklyOf u b = true -> Budget.frequency b = weekly.
Proof.
  unfold isWeeklyOf. intros H. apply andb_true_iff in H. destruct H as [_ H].
  destruct (Budget.frequency b); (reflexivity || discriminate H).
Qed.

Lemma allocation_set_distinct u budget l id :
  NoDup (ids l) -> findById id l = Some budget ->
  NoDup (ids (budget :: allocationParents u budget l)) /\
  forall b, In b (budget :: allocationParents u budget l) -> In b l.
Proof.
  intros Hn Hb. apply find_In in Hb. destruct Hb as [Ib _].
  assert (Hne : forall x y, In x l -> In y l ->
                            Budget.frequency x <> Budget.frequency y ->
                            Budget._id x <> Budget._id y).
  { intros x y Hx Hy Hf E. apply Hf. now rewrite (unique_by_id l x y Hn Hx Hy E). }
  unfold allocationParents.
  destruct (Budget.frequency budget) eqn:Ef.
  - destruct (find (isWeeklyOf u) l) as [w|] eqn:Ew;
      destruct (find (isPrimaryMonthlyOf u) l) as [p|] eqn:Ep;
      try (apply find_In in Ew; destruct Ew as [Iw Ew]; apply isWeekly_frequency in Ew);
      try (apply find_In in Ep; destruct Ep as [Ip Ep];
           apply isPrimaryMonthly_frequency in Ep);
      cbn [app]; split.
    + cbn [ids map]. repeat constructor; cbn [In]; intuition;
        match goal with H : Budget._id _ = Budget._id _ |- _ =>
          revert H; apply Hne; auto; congruence end.
    + intros b [<-|[<-|[<-|[]]]]; assumption.
    + cbn [ids map]. repeat constructor; cbn [In]; intuition;
        match goal with H : Budget._id _ = Budget._id _ |- _ =>
          revert H; apply Hne; auto; congruence end.
    + intros b [<-|[<-|[]]]; assumption.
    + cbn [ids map]. repeat constructor; cbn [In]; intuition;
        match goal with H : Budget._id _ = Budget._id _ |- _ =>
          revert H; apply Hne; auto; congruence end.
    + intros b [<-|[<-|[]]]; assumption.
    + cbn [ids map]. repeat constructor; cbn [In]; intuition.
    + intros b [<-|[]]; assumption.
  - destruct (find (isPrimaryMonthlyOf u) l) as [p|] eqn:Ep;
      try (apply find_In in Ep; destruct Ep as [Ip Ep];
           apply isPrimaryMonthly_frequency in Ep);
      split.
    + cbn [ids map]. repeat constructor; cbn [In]; intuition;
        match goal with H : Budget._id _ = Budget._id _ |- _ =>
          revert H; apply Hne; auto; congruence end.
    + intros b [<-|[<-|[]]]; assumption.
    + cbn [ids map]. repeat constructor; cbn [In]; intuition.
    + intros b [<-|[]]; assumption.
  - split.
    + cbn [ids map]. repeat constructor; cbn [In]; intuition.
    + intros b [<-|[]]; assumption.
Qed.

(** An allocation every budget of its set can pay, run alone: the set
    is charged, the transaction and the journal entry appended, the Day
    rolled up, the objective credited.  The day's lock is not read. *)
Lemma postAllocate_accepted ts currentDate currentTime id req d obj budget :
  0 < al_amount req -> NoDup (ids (Budgets d)) ->
  find (isObjective id) (Objectives d) = Some obj ->
  findById (al_budgetId req) (Budgets d) = Some budget ->
  Budget.userId budget = al_userId req ->
  let X := al_amount req in
  let set := budget :: allocationParents (al_userId req) budget (Budgets d) in
  (forall b, In b set -> X <= Budget.currentAmount b) ->
  exists mid rule,
    run (postAllocate ts currentDate currentTime id req) d
    = (mkResponse 200 (Objectif_alloue (Objective.savedAmount (creditObjective X obj))
                                        (Objective.achieved (creditObjective X obj))),
       with_Objectives (updateOne (isObjective id) (fun _ => creditObjective X obj))
         (rolledUp (al_userId req) currentDate mid)) /\
    Budgets mid = cascaded X set (Budgets d) /\
    Transactions mid
    = Transactions d ++ [allocationOf obj req currentDate currentTime d] /\
    JournalEntries mid
    = JournalEntries d ++ [objectiveEntry rule obj req (map (charged X) set)] /\
    Days mid = Days d /\ Objectives mid = Objectives d.
Proof.
  intros Hpos Hn Ho Hb Hu X set Hfunds.
  destruct (allocation_set_distinct (al_userId req) budget (Budgets d) _ Hn Hb)
    as [Hdis Hin].
  fold set in Hdis, Hin.
  pose proof (checkAvailability_inr X set [] Hfunds) as Hcheck. cbn [app] in Hcheck.
  unfold run, postAllocate, allocationOf.
  assert (Ez : Qeq_bool (al_amount req) 0 = false).
  { apply not_true_is_false. intros E. apply Qeq_bool_iff in E. rewrite E in Hpos.
    exact (Qlt_irrefl 0 Hpos). }
  assert (El : Qle_bool (al_amount req) 0 = false) by (apply Qle_bool_false; exact Hpos).
  rewrite Ez, El. mred_goal. fold (isObjective id). rewrite Ho. mred_goal. rewrite Hb.
  rewrite Hu, Nat.eqb_refl. cbv iota.
  assert (Er : Qltb (calculateRemainingBudget budget) (al_amount req) = false).
  { apply Qltb_false. unfold calculateRemainingBudget.
    apply Qle_trans with (Budget.currentAmount budget).
    - apply (Hfunds budget). now left.
    - unfold Math_max. destruct (Qle_bool 0 (Budget.currentAmount budget)) eqn:E0;
        [apply Qle_refl|].
      apply Qle_bool_false in E0. apply Qlt_le_weak.
      apply Qlt_le_trans with 0; [exact E0|]. apply Qle_refl. }
  rewrite Er.
  destruct ts.
  - mred_goal.
    by_effect (effect_allocationSet (al_userId req) budget).
    cbn [save_Transaction take_id Budgets]. fold set. fold X. rewrite Hcheck.
    mred_goal.
    by_effect (effect_applyAfter X set).
    by_effect (effect_updateDayTotals (al_userId req) currentDate).
    cbn [db]. do 2 eexists. split; [reflexivity|]. repeat split.
  - mred_goal.
    by_effect (effect_allocationSet (al_userId req) budget).
    fold set. fold X. rewrite Hcheck.
    match goal with |- context [applyConditional X _ [] ?w] =>
      pose proof (applyConditional_alone X set [] w eq_refl Hn Hdis
                    (fun b Hb' => conj (Hin b Hb') (Hfunds b Hb'))) as Hloop;
      destruct (applyConditional X (map (charged X) set) [] w) as [[ok updated] w']
    end.
    destruct Hloop as (Hr & Hd & Hsch). injection Hr as -> ->.
    destruct w' as [d1 s1 t1]. cbn [db sched] in Hd, Hsch. subst d1 s1.
    mred_goal.
    by_effect (effect_updateDayTotals (al_userId req) currentDate).
    cbn [db]. do 2 eexists. split; [reflexivity|]. repeat split.
Qed.





(** An allocation the check refuses: rejected, the database as it was. *)
Lemma postAllocate_rejected ts currentDate currentTime id req d obj budget n a :
  0 < al_amount req ->
  find (isObjective id) (Objectives d) = Some obj ->
  findById (al_budgetId req) (Budgets d) = Some budget ->
  Budget.userId budget = al_userId req ->
  Qltb (calculateRemainingBudget budget) (al_amount req) = false ->
  checkAvailability (al_amount req)
    (budget :: allocationParents (al_userId req) budget (Budgets d)) [] = inl (n, a) ->
  run (postAllocate ts currentDate currentTime id req) d
  = (mkResponse 400 (Allocation_rejetee n a), d).
Proof.
  intros Hpos Ho Hb Hu Er Hcheck. unfold run, postAllocate.
  assert (Ez : Qeq_bool (al_amount req) 0 = false).
  { apply not_true_is_false. intros E. apply Qeq_bool_iff in E. rewrite E in Hpos.
    exact (Qlt_irrefl 0 Hpos). }
  assert (El : Qle_bool (al_amount req) 0 = false) by (apply Qle_bool_false; exact Hpos).
  rewrite Ez, El. mred_goal. fold (isObjective id). rewrite Ho. mred_goal. rewrite Hb.
  rewrite Hu, Nat.eqb_refl. cbv iota. rewrite Er.
  destruct ts; mred_goal;
    by_effect (effect_allocationSet (al_userId req) budget);
    cbn [save_Transaction take_id Budgets]; rewrite Hcheck; reflexivity.
Qed.

(** X27.  An allocation is all or nothing: run alone on budgets with
    distinct identifiers, POST /api/objectives/:id/allocate either
    answers 200 or leaves the database exactly as it was, in both modes
    (a validation error, a budget of another user, an amount above what
    remains, or a budget of the hierarchy that cannot pay). *)
Theorem allocation_all_or_nothing :
  forall (TRANSACTIONS_SUPPORTED : bool) (currentDate currentTime : string)
         (id : ObjectId) (req : AllocateRequest) (d : Db),
    NoDup (ids (Budgets d)) ->
    let (r, d') :=
      run (postAllocate TRANSACTIONS_SUPPORTED currentDate currentTime id req) d in
    status r = 200%nat \/ d' = d.
Proof.
  intros ts currentDate currentTime id req d Hn.
  destruct (Qeq_bool (al_amount req) 0) eqn:Ez.
  { unfold run, postAllocate. rewrite Ez. right. reflexivity. }
  destruct (Qle_bool (al_amount req) 0) eqn:El.
  { unfold run, postAllocate. rewrite Ez, El. right. reflexivity. }
  assert (Hpos : 0 < al_amount req) by (apply Qle_bool_false; exact El).
  destruct (find (isObjective id) (Objectives d)) as [obj|] eqn:Ho.
  2:{ unfold run, postAllocate. rewrite Ez, El. mred_goal. fold (isObjective id).
      rewrite Ho. right. reflexivity. }
  destruct (findById (al_budgetId req) (Budgets d)) as [budget|] eqn:Hb.
  2:{ unfold run, postAllocate. rewrite Ez, El. mred_goal. fold (isObjective id).
      rewrite Ho. mred_goal. rewrite Hb. right. reflexivity. }
  destruct (Nat.eqb (Budget.userId budget) (al_userId req)) eqn:Eu.
  2:{ unfold run, postAllocate. rewrite Ez, El. mred_goal. fold (isObjective id).
      rewrite Ho. mred_goal. rewrite Hb, Eu. right. reflexivity. }
  apply Nat.eqb_eq in Eu.
  destruct (Qltb (calculateRemainingBudget budget) (al_amount req)) eqn:Er.
  { unfold run, postAllocate. rewrite Ez, El. mred_goal. fold (isObjective id).
    rewrite Ho. mred_goal. rewrite Hb, Eu, Nat.eqb_refl. cbv iota. rewrite Er.
    right. reflexivity. }
  destruct (checkAvailability (al_amount req)
              (budget :: allocationParents (al_userId req) budget (Budgets d)) [])
    as [[n a]|affected] eqn:Hcheck.
  - rewrite (postAllocate_rejected ts currentDate currentTime id req d obj budget n a
               Hpos Ho Hb Eu Er Hcheck).
    right. reflexivity.
  - destruct (postAllocate_accepted ts currentDate currentTime id req d obj budget
                Hpos Hn Ho Hb Eu (checkAvailability_funds _ _ _ _ Hcheck))
      as (mid & rule & Hrun & _).
    rewrite Hrun. left. reflexivity.
Qed.

Lemma allocation_all_or_nothing_witness :
  NoDup (ids (Budgets db_weekly_short)) /\
  let (r, d') :=
    run (postAllocate true today "10:00" 40 (mkAllocateRequest 7 3 1500)) db_weekly_short in
  status r = 200%nat \/ d' = db_weekly_short.
Proof.
  assert (Hn : NoDup (ids (Budgets db_weekly_short))).
  { repeat constructor; simpl; intuition discriminate. }
  split; [exact Hn|].
  exact (allocation_all_or_nothing true today "10:00" 40 (mkAllocateRequest 7 3 1500)
           db_weekly_short Hn).
Defined.

(* ------------------------------------------------------------------ *)
(** ** Transactions are all or nothing *)

(** X28.  POST /api/transactions is all or nothing: run alone on budgets
    with distinct identifiers, in both modes, it either answers 201 or
    leaves the database exactly as it was (an invalid amount, a locked
    day, an unknown budget, a budget of the cascade that cannot pay). *)
Theorem transaction_all_or_nothing :
  forall (TRANSACTIONS_SUPPORTED : bool) (currentDate currentTime : string)
         (req : TransactionRequest) (d : Db),
    NoDup (ids (Budgets d)) ->
    let (r, d') :=
      run (postTransaction TRANSACTIONS_SUPPORTED currentDate currentTime req) d in
    status r = 201%nat \/ d' = d.
Proof.
  intros ts currentDate currentTime req d Hn.
  destruct (transactionValidationSchema req) eqn:Hpos.
  2:{ rewrite postTransaction_invalid by exact Hpos. right. reflexivity. }
  destruct (find (isDayOf (tr_userId req) currentDate) (Days d)) as [t|] eqn:Hday.
  - destruct (Day.locked t) eqn:Hl.
    { rewrite (postTransaction_locked ts currentDate currentTime req d t Hpos Hday Hl).
      right. reflexivity. }
    assert (Hun : unlocked (tr_userId req) currentDate d).
    { intros t' Ht'. rewrite Hday in Ht'. injection Ht' as <-. exact Hl. }
    destruct (tr_type req) eqn:Ht.
    + destruct (findById (tr_budgetId req) (Budgets d)) as [target|] eqn:Hb.
      * destruct (checkAvailability (tr_amount req)
                    (target :: immediateParent (tr_userId req) target (Budgets d)) [])
          as [[n a]|affected] eqn:Hcheck.
        -- rewrite (postTransaction_expense_rejected ts currentDate currentTime req d
                      target n a Ht Hpos Hun Hb Hcheck).
           right. reflexivity.
        -- destruct (postTransaction_expense_accepted ts currentDate currentTime req d
                       target Ht Hpos Hun Hn Hb
                       (checkAvailability_funds _ _ _ _ Hcheck))
             as (r & mid & rule & Hrun & Hst & _).
           rewrite Hrun. left. exact Hst.
      * rewrite (postTransaction_no_budget ts currentDate currentTime req d Ht Hpos Hun Hb).
        right. reflexivity.
    + destruct (postTransaction_gain ts currentDate currentTime req d Ht Hpos Hun)
        as (r & Hrun & Hst).
      rewrite Hrun. left. exact Hst.
  - assert (Hun : unlocked (tr_userId req) currentDate d).
    { intros t' Ht'. rewrite Hday in Ht'. discriminate Ht'. }
    destruct (tr_type req) eqn:Ht.
    + destruct (findById (tr_budgetId req) (Budgets d)) as [target|] eqn:Hb.
      * destruct (checkAvailability (tr_amount req)
                    (target :: immediateParent (tr_userId req) target (Budgets d)) [])
          as [[n a]|affected] eqn:Hcheck.
        -- rewrite (postTransaction_expense_rejected ts currentDate currentTime req d
                      target n a Ht Hpos Hun Hb Hcheck).
           right. reflexivity.
        -- destruct (postTransaction_expense_accepted ts currentDate currentTime req d
                       target Ht Hpos Hun Hn Hb
                       (checkAvailability_funds _ _ _ _ Hcheck))
             as (r & mid & rule & Hrun & Hst & _).
           rewrite Hrun. left. exact Hst.
      * rewrite (postTransaction_no_budget ts currentDate currentTime req d Ht Hpos Hun Hb).
        right. reflexivity.
    + destruct (postTransaction_gain ts currentDate currentTime req d Ht Hpos Hun)
        as (r & Hrun & Hst).
      rewrite Hrun. left. exact Hst.
Qed.

Lemma transaction_all_or_nothing_witness :
  NoDup (ids (Budgets db_weekly_short)) /\
  let (r, d') :=
    run (postTransaction false today "10:00" (expense_on 3 1500)) db_weekly_short in
  status r = 201%nat \/ d' = db_weekly_short.
Proof.
  assert (Hn : NoDup (ids (Budgets db_weekly_short))).
  { repeat constructor; simpl; intuition discriminate. }
  split; [exact Hn|].
  exact (transaction_all_or_nothing false today "10:00" (expense_on 3 1500)
           db_weekly_short Hn).
Defined.

(* ------------------------------------------------------------------ *)
(** ** Start-up: when the process exits *)





(* ------------------------------------------------------------------ *)
(** ** Tontine contributions, on the tontine's side *)

Lemma fst_postContribute currentDate currentTime id req d t m :
  ~ co_amount req == 0 ->
  find (isTontine id) (Tontines d) = Some t ->
  find (isMember (co_userId req)) (Tontine.members t) = Some m ->
  fst (run (postContribute currentDate currentTime id req) d)
  = mkResponse 200
      (Contribution (Tontine.totalAmount t + co_amount req)
         (match Tontine.budgetId t with Some _ => Some (nextId d) | None => None end)).
Proof.
  intros Hnz Ht Hm. unfold run, postContribute.
  destruct (Qeq_bool (co_amount req) 0) eqn:Ez.
  { exfalso. apply Hnz. now apply Qeq_bool_iff. }
  mred_goal. fold (isTontine id). rewrite Ht, Hm.
  cbn [Tontine.budgetId Tontine.totalAmount creditTontine].
  destruct (Tontine.budgetId t) as [b|]; mred_goal; [|reflexivity].
  by_effect (effect_updateDayTotals (co_userId req) currentDate).
  reflexivity.
Qed.

(** X30.  A contribution of any amount other than zero by a member is
    accepted, a negative one included (the handler checks neither the
    sign of the amount nor any balance): the answer is 200 with the new
    total, the tontine's [totalAmount] and that member's [contributed]
    both move by exactly the amount, and the other members are
    untouched. *)
Theorem contribution_credits_member :
  forall (currentDate currentTime : string) (id : ObjectId) (req : ContributeRequest)
         (d : Db) (t : Tontine.t) (m : Member),
    ~ co_amount req == 0 ->
    find (isTontine id) (Tontines d) = Some t ->
    find (isMember (co_userId req)) (Tontine.members t) = Some m ->
    let (r, d') := run (postContribute currentDate currentTime id req) d in
    status r = 200%nat /\
    (exists transactionId,
        message r = Contribution (Tontine.totalAmount t + co_amount req) transactionId) /\
    exists t',
      find (isTontine id) (Tontines d') = Some t' /\
      Tontine.totalAmount t' = Tontine.totalAmount t + co_amount req /\
      find (isMember (co_userId req)) (Tontine.members t')
      = Some (mkMember (m_userId m) (contributed m + co_amount req) (position m)) /\
      (forall v, v <> co_userId req ->
                 find (isMember v) (Tontine.members t') = find (isMember v) (Tontine.members t)).
Proof.
  intros currentDate currentTime id req d t m Hnz Ht Hm.
  pose proof (fst_postContribute currentDate currentTime id req d t m Hnz Ht Hm) as Hr.
  pose proof (Tontines_postContribute currentDate currentTime id req d) as HT.
  rewrite Ht, Hm in HT.
  destruct (Qeq_bool (co_amount req) 0) eqn:Ez.
  { exfalso. apply Hnz. now apply Qeq_bool_iff. }
  destruct (run (postContribute currentDate currentTime id req) d) as [r d'].
  cbn [fst snd] in Hr, HT. subst r.
  split; [reflexivity|]. split; [eexists; reflexivity|].
  exists (creditTontine (co_userId req) (co_amount req) t).
  rewrite HT. split; [|split; [reflexivity|split]].
  - apply (find_updateOne_same (isTontine id)
             (fun _ => creditTontine (co_userId req) (co_amount req) t) _ t Ht).
    apply find_In in Ht. destruct Ht as [_ Ht]. exact Ht.
  - cbn [creditTontine Tontine.members].
    apply (find_updateOne_same (isMember (co_userId req))
             (fun m => mkMember (m_userId m) (contributed m + co_amount req) (position m))
             _ m Hm).
    apply find_In in Hm. destruct Hm as [_ Hm]. exact Hm.
  - intros v Hv. cbn [creditTontine Tontine.members].
    apply find_updateOne_other; [reflexivity|].
    intros x Hx. unfold isMember in *. apply Nat.eqb_eq in Hx. apply Nat.eqb_neq.
    congruence.
Qed.

Lemma contribution_credits_member_witness :
  let req := mkContributeRequest 7 (-500) in
  let t := Tontine.mk 20 "Office" 7 (Some 3%nat) [mkMember 7 0 1] 0 in
  let m := mkMember 7 0 1 in
  ~ co_amount req == 0 /\
  find (isTontine 20) (Tontines db_tontine) = Some t /\
  find (isMember (co_userId req)) (Tontine.members t) = Some m /\
  let (r, d') := run (postContribute today "10:00" 20 req) db_tontine in
  status r = 200%nat /\
  (exists transactionId,
      message r = Contribution (Tontine.totalAmount t + co_amount req) transactionId) /\
  exists t',
    find (isTontine 20) (Tontines d') = Some t' /\
    Tontine.totalAmount t' = Tontine.totalAmount t + co_amount req /\
    find (isMember (co_userId req)) (Tontine.members t')
    = Some (mkMember (m_userId m) (contributed m + co_amount req) (position m)) /\
    (forall v, v <> co_userId req ->
               find (isMember v) (Tontine.members t') = find (isMember v) (Tontine.members t)).
Proof.
  intros req t m.
  assert (Hnz : ~ co_amount req == 0) by (intros E; discriminate E).
  split; [exact Hnz|]. split; [reflexivity|]. split; [reflexivity|].
  exact (contribution_credits_member today "10:00" 20 req db_tontine t m Hnz
           eq_refl eq_refl).
Defined.
